(** * The VFS syscall layer: name resolution and file-descriptor syscalls

    A shallow embedding of [namev.c] (lookup, dir_namev, open_namev) and of
    [vfs_syscall.c] (do_read ... do_lseek), with the properties of the
    design document stated and settled against it.

    Conventions of the embedding.
    - A [vnode_t *] is [option vno] and a [file_t *] is [option fno]: [None]
      is the NULL pointer, [Some n] the object stored at key [n] of the
      vnode (resp. file) table.  Two pointers alias iff they carry the same
      key, so every update of an object is seen through all of them.
    - C [int], [size_t] and [off_t] values are integers of [Z]; every
      comparison of the source is written out on [Z].
    - A function of the source is a computation in the monad [M]: it threads
      the kernel state, appends to a trace of the calls it makes to the
      reference-count primitives, the namespace mutex and the vnode
      operations, and ends in a value, in a kernel panic (a failed KASSERT)
      or in a fault (a NULL or dangling dereference, an access outside an
      array).
    - A C string is a [string] without the NUL character; a pointer into
      a string is the rest of the string from that position on.
    - User buffers ([buf], [dirp], [struct stat]) carry no information the
      properties below depend on and are left out of the calls.
    - No property below reaches the limits of the C integer types, and no
      wrap-around is modelled. *)

From Stdlib Require Import ZArith Lia Ascii String List.
From stdpp Require Import base option list gmap.

Open Scope string_scope.
Open Scope list_scope.
Open Scope Z_scope.

(** ** Constants of the headers *)

Module Errno.
(** Modelled from the spec: [errno.h] is not part of the sources at hand;
    the error code space of the design document, with the customary
    numbering of the kernel's header. *)
Definition EPERM : Z := 1.
Definition ENOENT : Z := 2.
Definition EBADF : Z := 9.
Definition EEXIST : Z := 17.
Definition ENOTDIR : Z := 20.
Definition EISDIR : Z := 21.
Definition EINVAL : Z := 22.
Definition EMFILE : Z := 24.
Definition ERANGE : Z := 34.
Definition ENAMETOOLONG : Z := 36.
Definition ENOTEMPTY : Z := 39.
End Errno.
Import Errno.

(** Modelled from the spec: [fs/stat.h], [fs/file.h], [fs/fcntl.h] and
    [fs/lseek.h] are not part of the sources at hand.  File-type bits with
    the is-directory predicate, the open-file mode bitfield over read, write
    and append, the one open flag the layer reads, and the three seek
    origins. *)
Definition S_IFCHR : Z := 0x0100.
Definition S_IFDIR : Z := 0x0200.
Definition S_IFBLK : Z := 0x0400.
Definition S_IFREG : Z := 0x0800.
Definition S_TYPE (m : Z) : Z := Z.land m 0xFF00.
Definition S_ISDIR (m : Z) : bool := S_TYPE m =? S_IFDIR.

Definition FMODE_READ : Z := 1.
Definition FMODE_WRITE : Z := 2.
Definition FMODE_APPEND : Z := 4.
Definition O_CREAT : Z := 0x100.

Definition SEEK_SET : Z := 0.
Definition SEEK_CUR : Z := 1.
Definition SEEK_END : Z := 2.

(** Modelled from the spec: [types.h] is not part of the sources at hand.
    [int] and [off_t] are 32-bit integers in two's complement; [wrap_int z]
    is the value that a sum whose mathematical result is [z] takes in such
    a type. *)
Definition INT_MIN : Z := - 2147483648.
Definition INT_MAX : Z := 2147483647.
Definition wrap_int (z : Z) : Z := (z + 2147483648) mod 4294967296 - 2147483648.

(** [x & mask] used as a C truth value. *)
Definition has_bits (x mask : Z) : bool := negb (Z.land x mask =? 0).

(** ** C strings *)

(** [strlen]. *)
Definition strlen (s : string) : Z := Z.of_nat (String.length s).

(** [strchr s c], as the offset of the first occurrence from [s]. *)
Fixpoint strchr (s : string) (c : ascii) : option nat :=
  match s with
  | EmptyString => None
  | String a r => if Ascii.eqb a c then Some O else S <$> strchr r c
  end.

(** The pointer [s + n]. *)
Fixpoint str_advance (n : nat) (s : string) {struct s} : string :=
  match s with
  | EmptyString => EmptyString
  | String _ r =>
      match n with
      | O => s
      | S n' => str_advance n' r
      end
  end.

(** The first [n] characters of [s]: the counted string that a pair
    [(name, len)] denotes. *)
Fixpoint str_take (n : nat) (s : string) : string :=
  match n, s with
  | S n', String a r => String a (str_take n' r)
  | _, _ => EmptyString
  end.

Definition counted (name : string) (len : Z) : string :=
  str_take (Z.to_nat len) name.

(** ** Data model *)

Definition vno := nat.
Definition fno := nat.

(** The entries of a vnode operations table. *)
Inductive vop :=
  | OpRead | OpWrite | OpCreate | OpMknod | OpLookup | OpLink
  | OpUnlink | OpMkdir | OpRmdir | OpReaddir | OpStat.

Definition vop_eqb (a b : vop) : bool :=
  match a, b with
  | OpRead, OpRead | OpWrite, OpWrite | OpCreate, OpCreate
  | OpMknod, OpMknod | OpLookup, OpLookup | OpLink, OpLink
  | OpUnlink, OpUnlink | OpMkdir, OpMkdir | OpRmdir, OpRmdir
  | OpReaddir, OpReaddir | OpStat, OpStat => true
  | _, _ => false
  end.

(** [vn_ops] is the pointer to the operations table: [None] when it is NULL,
    otherwise the list of the entries of the table that are not NULL. *)
Record vnode_t := {
  vn_ops : option (list vop);
  vn_mode : Z;
  vn_len : Z;
  vn_refcount : Z
}.

Record file_t := {
  f_pos : Z;
  f_mode : Z;
  f_refcount : Z;
  f_vnode : vno
}.

Definition has_op (vn : vnode_t) (o : vop) : bool :=
  match vn_ops vn with
  | Some tbl => existsb (vop_eqb o) tbl
  | None => false
  end.

(** The calls a function makes to its collaborators, in program order. *)
Inductive event :=
  | EvVref (v : vno)
  | EvVput (v : vno)
  | EvFget (f : fno)
  | EvFput (f : fno)
  | EvLock
  | EvUnlock
  | EvLookup (dir : vno) (name : string)
  | EvOp (o : vop) (v : vno).

(** ** Kernel state

    [fs_t] is what a filesystem driver owns and may change: the vnodes (mode,
    length, operations table, reference count) and its private data [D].
    The rest of [kstate] belongs to the core: the open-file table, the
    descriptor array [curproc->p_files], the working directory
    [curproc->p_cwd] and the root vnode [vfs_root_vn]. *)
Record fs_t (D : Type) := {
  fs_vnodes : gmap vno vnode_t;
  fs_data : D
}.
Arguments fs_vnodes {D} _.
Arguments fs_data {D} _.

Record kstate (D : Type) := {
  k_fs : fs_t D;
  k_files : gmap fno file_t;
  p_files : list (option fno);
  p_cwd : option vno;
  vfs_root_vn : option vno
}.
Arguments k_fs {D} _.
Arguments k_files {D} _.
Arguments p_files {D} _.
Arguments p_cwd {D} _.
Arguments vfs_root_vn {D} _.

(** The vnode operations as the core consumes them.  A name argument is the
    counted string [(name, len)] of the C call. *)
Record vfs_driver (D : Type) := {
  fs_lookup : vno -> string -> fs_t D -> fs_t D * (Z * option vno);
  fs_create : vno -> string -> fs_t D -> fs_t D * (Z * option vno);
  fs_mknod : vno -> string -> Z -> Z -> fs_t D -> fs_t D * Z;
  fs_mkdir : vno -> string -> fs_t D -> fs_t D * Z;
  fs_rmdir : vno -> string -> fs_t D -> fs_t D * Z;
  fs_unlink : vno -> string -> fs_t D -> fs_t D * Z;
  fs_link : option vno -> vno -> string -> fs_t D -> fs_t D * Z;
  fs_read : vno -> Z -> Z -> fs_t D -> fs_t D * Z;
  fs_write : vno -> Z -> Z -> fs_t D -> fs_t D * Z;
  fs_readdir : vno -> Z -> fs_t D -> fs_t D * Z;
  fs_stat : vno -> fs_t D -> fs_t D * Z
}.
Arguments fs_lookup {D} _.
Arguments fs_create {D} _.
Arguments fs_mknod {D} _.
Arguments fs_mkdir {D} _.
Arguments fs_rmdir {D} _.
Arguments fs_unlink {D} _.
Arguments fs_link {D} _.
Arguments fs_read {D} _.
Arguments fs_write {D} _.
Arguments fs_readdir {D} _.
Arguments fs_stat {D} _.

(** ** The monad of kernel computations *)

Inductive outcome (D A : Type) :=
  | Done (a : A) (s : kstate D)
  | Panic
  | Fault.
Arguments Done {D A} a s.
Arguments Panic {D A}.
Arguments Fault {D A}.

Definition M (D A : Type) : Type := kstate D -> list event * outcome D A.

#[export] Instance M_ret {D} : MRet (M D) := fun A a s => ([], Done a s).

#[export] Instance M_bind {D} : MBind (M D) := fun A B f m s =>
  match m s with
  | (t1, Done a s1) => let '(t2, o) := f a s1 in (t1 ++ t2, o)
  | (t1, Panic) => (t1, Panic)
  | (t1, Fault) => (t1, Fault)
  end.

Definition emit {D} (e : event) : M D unit := fun s => ([e], Done tt s).
Definition panic {D A} : M D A := fun _ => ([], Panic).
Definition fault {D A} : M D A := fun _ => ([], Fault).

(** [KASSERT(x)]: panics when [x] is false. *)
Definition KASSERT {D} (b : bool) : M D unit :=
  if b then mret tt else panic.

(** Field updates. *)
Definition vn_with_refcount (vn : vnode_t) (n : Z) : vnode_t :=
  {| vn_ops := vn_ops vn; vn_mode := vn_mode vn; vn_len := vn_len vn;
     vn_refcount := n |}.

Definition f_with_refcount (r : file_t) (n : Z) : file_t :=
  {| f_pos := f_pos r; f_mode := f_mode r; f_refcount := n;
     f_vnode := f_vnode r |}.

Definition f_with_pos (r : file_t) (p : Z) : file_t :=
  {| f_pos := p; f_mode := f_mode r; f_refcount := f_refcount r;
     f_vnode := f_vnode r |}.

Definition set_fs {D} (s : kstate D) (fs : fs_t D) : kstate D :=
  {| k_fs := fs; k_files := k_files s; p_files := p_files s;
     p_cwd := p_cwd s; vfs_root_vn := vfs_root_vn s |}.

Definition set_vnodes {D} (s : kstate D) (m : gmap vno vnode_t) : kstate D :=
  set_fs s {| fs_vnodes := m; fs_data := fs_data (k_fs s) |}.

Definition set_files {D} (s : kstate D) (m : gmap fno file_t) : kstate D :=
  {| k_fs := k_fs s; k_files := m; p_files := p_files s;
     p_cwd := p_cwd s; vfs_root_vn := vfs_root_vn s |}.

Definition set_p_files {D} (s : kstate D) (l : list (option fno)) : kstate D :=
  {| k_fs := k_fs s; k_files := k_files s; p_files := l;
     p_cwd := p_cwd s; vfs_root_vn := vfs_root_vn s |}.

Definition set_p_cwd {D} (s : kstate D) (c : option vno) : kstate D :=
  {| k_fs := k_fs s; k_files := k_files s; p_files := p_files s;
     p_cwd := c; vfs_root_vn := vfs_root_vn s |}.

(** Reference counts as observed from outside; an object that is not (or no
    longer) in its table holds none. *)
Definition vnode_refs {D} (s : kstate D) (v : vno) : Z :=
  match fs_vnodes (k_fs s) !! v with
  | Some vn => vn_refcount vn
  | None => 0
  end.

Definition file_refs {D} (s : kstate D) (f : fno) : Z :=
  match k_files s !! f with
  | Some r => f_refcount r
  | None => 0
  end.

(** Dereferences: [*v] and [*f]. *)
Definition vnode_at {D} (v : vno) : M D vnode_t := fun s =>
  match fs_vnodes (k_fs s) !! v with
  | Some vn => ([], Done vn s)
  | None => ([], Fault)
  end.

Definition file_at {D} (f : fno) : M D file_t := fun s =>
  match k_files s !! f with
  | Some r => ([], Done r s)
  | None => ([], Fault)
  end.

Definition store_vnode {D} (v : vno) (vn : vnode_t) : M D unit := fun s =>
  ([], Done tt (set_vnodes s (<[v := vn]> (fs_vnodes (k_fs s))))).

Definition store_file {D} (f : fno) (r : file_t) : M D unit := fun s =>
  ([], Done tt (set_files s (<[f := r]> (k_files s)))).

Definition free_file {D} (f : fno) : M D unit := fun s =>
  ([], Done tt (set_files s (delete f (k_files s)))).

Definition store_cwd {D} (c : option vno) : M D unit := fun s =>
  ([], Done tt (set_p_cwd s c)).

(** Modelled from the spec: the vnode cache is an external collaborator;
    [vref] acquires and [vput] releases one reference of a vnode handle. *)
Definition vref {D} (p : option vno) : M D unit :=
  match p with
  | None => fault
  | Some v =>
      vn ← vnode_at v;
      emit (EvVref v);;
      store_vnode v (vn_with_refcount vn (vn_refcount vn + 1))
  end.

Definition vput {D} (p : option vno) : M D unit :=
  match p with
  | None => fault
  | Some v =>
      vn ← vnode_at v;
      emit (EvVput v);;
      store_vnode v (vn_with_refcount vn (vn_refcount vn - 1))
  end.

(** Modelled from the spec: the namespace mutex [vfsm] is created outside the
    sources at hand; taking and releasing it are recorded in the trace. *)
Definition kmutex_lock {D} : M D unit := emit EvLock.
Definition kmutex_unlock {D} : M D unit := emit EvUnlock.

(** ** namev.c *)

Section Core.
Context {D : Type} (drv : vfs_driver D).

(** Modelled from the spec: the three size limits are constants of headers
    that are not part of the sources at hand; the code is embedded for any
    value of them. *)
Variables NAME_LEN MAXPATHLEN NFILES : Z.

Definition get_state : M D (kstate D) := fun s => ([], Done s s).

(** A call into the driver: it sees and changes the filesystem part of the
    state only. *)
Definition drv_call {A} (f : fs_t D -> fs_t D * A) : M D A := fun s =>
  let '(fs', a) := f (k_fs s) in ([], Done a (set_fs s fs')).

(** [v->vn_ops->o(...)]: the call goes through the vnode's table, and
    faults when the table or the entry is NULL. *)
Definition call_op {A} (o : vop) (v : vno) (f : fs_t D -> fs_t D * A)
  : M D A :=
  vn ← vnode_at v;
  if has_op vn o then emit (EvOp o v);; drv_call f else fault.

(** Returns the return value and, on 0, what was written to [*result].
    [KASSERT(name)] holds of every [string].  [strcmp(name, ".")] reads the
    string to its end, not the [len] characters of the counted name; the
    driver gets the counted name. *)
Definition lookup (dir : option vno) (name : string) (len : Z)
  : M D (Z * option vno) :=
  match dir with
  | None => panic
  | Some d =>
      emit (EvLookup d (counted name len));;
      vn ← vnode_at d;
      if negb (S_ISDIR (vn_mode vn)) then mret (- ENOTDIR, None)
      else if NAME_LEN <? len then mret (- ENAMETOOLONG, None)
      else if String.eqb name "." || (len =? 0) then
        vref dir;; mret (0, dir)
      else
        KASSERT (bool_decide (is_Some (vn_ops vn)));;
        KASSERT (has_op vn OpLookup);;
        if has_op vn OpLookup then
          '(ret, result) ← call_op OpLookup d
                             (fs_lookup drv d (counted name len));
          if ret <? 0 then mret (ret, None) else mret (0, result)
        else mret (- ENOTDIR, None)
  end.

(** The result of [dir_namev]: the negative return value, or the three
    out-arguments [(namelen, name, res_vnode)] written on return 0. *)
Definition namev_result : Type := Z + (Z * string * option vno).

(** The [while (curr_seg != end)] loop.  [curr_seg] is the rest of the path
    from the pointer of that name on, so [end - curr_seg] is its length;
    each turn that continues moves past a slash, and [fuel] bounds the
    number of turns. *)
Fixpoint dir_namev_loop (fuel : nat) (dir : option vno) (curr_seg : string)
  : M D namev_result :=
  match fuel with
  | O => fault
  | S fuel' =>
      if String.eqb curr_seg "" then mret (inr (strlen curr_seg, curr_seg, dir))
      else
        match dir with
        | None => mret (inl (- ENOENT))
        | Some d =>
            vn ← vnode_at d;
            if negb (S_ISDIR (vn_mode vn)) then
              vput dir;; mret (inl (- ENOTDIR))
            else
              match strchr curr_seg "/" with
              | Some i =>
                  let seg_length := Z.of_nat i in
                  if NAME_LEN <? seg_length then
                    vput dir;; mret (inl (- ENAMETOOLONG))
                  else
                    '(ret, result) ← lookup dir curr_seg seg_length;
                    if ret <? 0 then vput dir;; mret (inl ret)
                    else
                      vput dir;;
                      dir_namev_loop fuel' result (str_advance (S i) curr_seg)
              | None => mret (inr (strlen curr_seg, curr_seg, dir))
              end
        end
  end.

(** Where the walk starts, and the path once a leading slash is passed. *)
Definition start_of (s : kstate D) (pathname : string) (base : option vno)
  : option vno * string :=
  match pathname with
  | String "/" rest => (vfs_root_vn s, rest)
  | _ => match base with
         | None => (p_cwd s, pathname)
         | Some _ => (base, pathname)
         end
  end.

Definition dir_namev (pathname : string) (base : option vno)
  : M D namev_result :=
  if MAXPATHLEN <? strlen pathname then mret (inl (- ENAMETOOLONG))
  else if strlen pathname =? 0 then mret (inl (- EINVAL))
  else
    s ← get_state;
    let '(dir, rest) := start_of s pathname base in
    vref dir;;
    dir_namev_loop (S (String.length rest)) dir rest.

(** Returns the return value and, on 0, what was written to [*res_vnode].
    [pathname] is [None] for a NULL pointer. *)
Definition open_namev (pathname : option string) (flag : Z)
    (base : option vno) : M D (Z * option vno) :=
  match pathname with
  | None => panic
  | Some path =>
      r ← dir_namev path base;
      match r with
      | inl ret => mret (ret, None)
      | inr (namelen, name, result) =>
          match result with
          | None => fault
          | Some p =>
              vn ← vnode_at p;
              if negb (S_ISDIR (vn_mode vn)) then
                vput result;; mret (- ENOTDIR, None)
              else
                kmutex_lock;;
                '(ret, res) ← lookup result name namelen;
                if ret <? 0 then
                  if has_bits flag O_CREAT then
                    '(i, created) ← call_op OpCreate p
                                      (fs_create drv p (counted name namelen));
                    if i <? 0 then
                      vput result;; kmutex_unlock;; mret (i, None)
                    else
                      vput result;; kmutex_unlock;; mret (0, created)
                  else
                    vput result;; kmutex_unlock;; mret (ret, None)
                else
                  vput result;; kmutex_unlock;; mret (0, res)
          end
      end
  end.

(** ** The descriptor array and the open-file cache *)

(** [curproc->p_files[fd]], an array of [NFILES] slots: an access outside
    it is a fault. *)
Definition in_range (fd : Z) : bool := (0 <=? fd) && (fd <? NFILES).

Definition slot_get (fd : Z) : M D (option fno) := fun s =>
  if in_range fd then
    match p_files s !! Z.to_nat fd with
    | Some slot => ([], Done slot s)
    | None => ([], Fault)
    end
  else ([], Fault).

Definition slot_set (fd : Z) (file : option fno) : M D unit := fun s =>
  if in_range fd && bool_decide (Z.to_nat fd < length (p_files s))%nat then
    ([], Done tt (set_p_files s (<[Z.to_nat fd := file]> (p_files s))))
  else ([], Fault).

(** Modelled from the spec: the open-file cache is an external
    collaborator.  [fget fd] hands out a new reference to the open file of
    a valid descriptor and NULL for any other; [fput] gives one reference
    back, and the open file dies with its last reference, returning the
    reference it held on its vnode. *)
Definition fget (fd : Z) : M D (option fno) :=
  if in_range fd then
    slot ← slot_get fd;
    match slot with
    | None => mret None
    | Some f =>
        r ← file_at f;
        emit (EvFget f);;
        store_file f (f_with_refcount r (f_refcount r + 1));;
        mret (Some f)
    end
  else mret None.

Definition fput (file : option fno) : M D unit :=
  match file with
  | None => fault
  | Some f =>
      r ← file_at f;
      emit (EvFput f);;
      if f_refcount r - 1 =? 0 then
        vn ← vnode_at (f_vnode r);
        store_vnode (f_vnode r) (vn_with_refcount vn (vn_refcount vn - 1));;
        free_file f
      else store_file f (f_with_refcount r (f_refcount r - 1))
  end.

(** Modelled from the spec: the descriptor allocator is an external
    collaborator.  [get_empty_fd] returns the lowest free descriptor, zero
    included, and the negative sentinel [-EMFILE] when no slot is free. *)
Fixpoint first_free (l : list (option fno)) (i : Z) : option Z :=
  match l with
  | [] => None
  | None :: _ => Some i
  | Some _ :: r => first_free r (i + 1)
  end.

Definition get_empty_fd : M D Z := fun s =>
  match first_free (take (Z.to_nat NFILES) (p_files s)) 0 with
  | Some fd => ([], Done fd s)
  | None => ([], Done (- EMFILE) s)
  end.

Definition is_null {A} (p : option A) : bool :=
  match p with None => true | Some _ => false end.

(** [KASSERT(v->vn_ops->o)]. *)
Definition assert_op (v : vno) (o : vop) : M D unit :=
  vn ← vnode_at v;
  match vn_ops vn with
  | None => fault
  | Some _ => KASSERT (has_op vn o)
  end.

(** ** vfs_syscall.c: descriptor-based calls

    The operands of a guard [a || b || c] are evaluated from left to right
    as in C: where [!curproc->p_files[fd]] stands first the slot is read
    before the descriptor is compared with the bounds, where it stands last
    it is read only when the comparisons have let the descriptor through. *)

Definition do_read (fd : Z) (nbytes : Z) : M D Z :=
  slot ← slot_get fd;
  if is_null slot || (fd <? 0) || (NFILES <=? fd) then mret (- EBADF)
  else
    file ← fget fd;
    match file with
    | None => fault
    | Some f =>
        r ← file_at f;
        if negb (has_bits (f_mode r) FMODE_READ) then
          fput file;; mret (- EBADF)
        else
          vn ← vnode_at (f_vnode r);
          if S_ISDIR (vn_mode vn) then fput file;; mret (- EISDIR)
          else
            bytes ← call_op OpRead (f_vnode r)
                      (fs_read drv (f_vnode r) (f_pos r) nbytes);
            if bytes <? 0 then fput file;; mret bytes
            else
              r' ← file_at f;
              store_file f (f_with_pos r' (wrap_int (f_pos r' + bytes)));;
              fput file;;
              mret bytes
    end.

(** One of the three [if (whence == ...)] blocks of [do_lseek]: [Some v]
    when the block returns [v], [None] when control falls through.  The
    sums [f_pos + offset] and [vn_len + offset] are sums of 32-bit
    integers. *)
Definition seek_to (file : option fno) (f : fno) (target : Z)
  : M D (option Z) :=
  if target <? 0 then fput file;; mret (Some (- EINVAL))
  else
    r ← file_at f;
    store_file f (f_with_pos r target);;
    fput file;;
    mret None.

Definition do_lseek (fd : Z) (offset : Z) (whence : Z) : M D Z :=
  if (fd <? 0) || (NFILES <? fd) then mret (- EBADF)
  else
    slot ← slot_get fd;
    if is_null slot then mret (- EBADF)
    else if negb (whence =? SEEK_SET) && negb (whence =? SEEK_CUR)
          && negb (whence =? SEEK_END) then mret (- EINVAL)
  else
    file ← fget fd;
    KASSERT (negb (is_null file));;
    match file with
    | None => fault
    | Some f =>
        b1 ← (if whence =? SEEK_SET then seek_to file f offset
              else mret None);
        match b1 with
        | Some v => mret v
        | None =>
            b2 ← (if whence =? SEEK_CUR then
                    r ← file_at f; seek_to file f (wrap_int (f_pos r + offset))
                  else mret None);
            match b2 with
            | Some v => mret v
            | None =>
                b3 ← (if whence =? SEEK_END then
                        r ← file_at f;
                        vn ← vnode_at (f_vnode r);
                        seek_to file f (wrap_int (vn_len vn + offset))
                      else mret None);
                match b3 with
                | Some v => mret v
                | None => r ← file_at f; mret (f_pos r)
                end
            end
        end
    end.

Definition do_write (fd : Z) (nbytes : Z) : M D Z :=
  slot ← slot_get fd;
  if is_null slot || (fd <? 0) || (NFILES <? fd) then mret (- EBADF)
  else
    file ← fget fd;
    match file with
    | None => fault
    | Some f =>
        r ← file_at f;
        if negb (has_bits (f_mode r) FMODE_WRITE) then
          fput file;; mret (- EBADF)
        else
          seek ← (if has_bits (f_mode r) FMODE_APPEND then
                    e ← do_lseek fd 0 SEEK_END;
                    if e <? 0 then fput file;; mret (Some e) else mret None
                  else mret None);
          match seek with
          | Some e => mret e
          | None =>
              assert_op (f_vnode r) OpWrite;;
              r1 ← file_at f;
              written ← call_op OpWrite (f_vnode r1)
                          (fs_write drv (f_vnode r1) (f_pos r1) nbytes);
              if written <? 0 then fput file;; mret written
              else
                r2 ← file_at f;
                store_file f (f_with_pos r2 (wrap_int (f_pos r2 + written)));;
                fput file;;
                mret written
          end
    end.

Definition do_close (fd : Z) : M D Z :=
  if (fd <? 0) || (NFILES <? fd) then mret (- EBADF)
  else
    file ← fget fd;
    if is_null file then mret (- EBADF)
    else
      slot ← slot_get fd;
      if is_null slot then mret (- EBADF)
      else
        fput file;;
        fput file;;
        slot_set fd None;;
        mret 0.

Definition do_dup (fd : Z) : M D Z :=
  slot ← slot_get fd;
  if is_null slot || (fd <? 0) || (NFILES <? fd) then mret (- EBADF)
  else
    file ← fget fd;
    KASSERT (negb (is_null file));;
    dupfd ← get_empty_fd;
    if dupfd =? 0 then fput file;; mret (- EMFILE)
    else slot_set dupfd file;; mret dupfd.

Definition do_dup2 (ofd nfd : Z) : M D Z :=
  slot ← slot_get ofd;
  if is_null slot || (ofd <? 0) || (NFILES <? ofd) then mret (- EBADF)
  else if (nfd <? 0) || (NFILES <? nfd) then mret (- EBADF)
  else if negb (nfd =? ofd) then
    old ← slot_get nfd;
    closed ← (if negb (is_null old) then
                ret ← do_close nfd;
                if ret <? 0 then mret (Some ret) else mret None
              else mret None);
    match closed with
    | Some ret => mret ret
    | None => file ← fget ofd; slot_set nfd file;; mret nfd
    end
  else mret nfd.

(** [sizeof(dirent_t)], a constant of [fs/dirent.h]. *)
Variable SIZEOF_DIRENT : Z.

Definition do_getdent (fd : Z) : M D Z :=
  if (fd <? 0) || (NFILES <? fd) then mret (- EBADF)
  else
    slot ← slot_get fd;
    if is_null slot then mret (- EBADF)
    else
    file ← fget fd;
    KASSERT (negb (is_null file));;
    match file with
    | None => fault
    | Some f =>
        r ← file_at f;
        vn ← vnode_at (f_vnode r);
        if negb (S_ISDIR (vn_mode vn)) then fput file;; mret (- ENOTDIR)
        else
          assert_op (f_vnode r) OpReaddir;;
          bytes ← call_op OpReaddir (f_vnode r)
                    (fs_readdir drv (f_vnode r) (f_pos r));
          r' ← file_at f;
          store_file f (f_with_pos r' (wrap_int (f_pos r' + bytes)));;
          if bytes <=? 0 then fput file;; mret bytes
          else fput file;; mret SIZEOF_DIRENT
    end.

(** ** vfs_syscall.c: path-based calls

    A [path] argument is [None] for a NULL pointer. *)

Definition do_mknod (path : option string) (mode : Z) (devid : Z) : M D Z :=
  match path with
  | None => mret (- EINVAL)
  | Some p =>
      if MAXPATHLEN <? strlen p then mret (- ENAMETOOLONG)
      else if negb (mode =? S_IFCHR) && negb (mode =? S_IFBLK) then
        mret (- EINVAL)
      else
        r ← dir_namev p None;
        match r with
        | inl ret => mret ret
        | inr (namelen, name, res_vnode) =>
            match res_vnode with
            | None => mret (- ENOENT)
            | Some pv =>
                if NAME_LEN <? namelen then mret (- ENAMETOOLONG)
                else
                  vn ← vnode_at pv;
                  if negb (S_ISDIR (vn_mode vn)) then
                    vput res_vnode;; mret (- ENOTDIR)
                  else
                    assert_op pv OpLookup;;
                    '(ret2, result) ← lookup res_vnode name namelen;
                    if ret2 =? 0 then
                      vput res_vnode;; vput result;; mret (- EEXIST)
                    else
                      vput res_vnode;;
                      assert_op pv OpMknod;;
                      call_op OpMknod pv
                        (fs_mknod drv pv (counted name namelen) mode devid)
            end
        end
  end.

Definition do_mkdir (path : option string) : M D Z :=
  match path with
  | None => mret (- EINVAL)
  | Some p =>
      if MAXPATHLEN <? strlen p then mret (- ENAMETOOLONG)
      else
        r ← dir_namev p None;
        match r with
        | inl ret => mret ret
        | inr (namelen, name, res_vnode) =>
            match res_vnode with
            | None => mret (- ENOENT)
            | Some pv =>
                vn ← vnode_at pv;
                if negb (S_ISDIR (vn_mode vn)) then
                  vput res_vnode;; mret (- ENOTDIR)
                else if NAME_LEN <? namelen then
                  vput res_vnode;; mret (- ENAMETOOLONG)
                else
                  assert_op pv OpLookup;;
                  '(ret2, result) ← lookup res_vnode name namelen;
                  if ret2 =? 0 then
                    vput res_vnode;; vput result;; mret (- EEXIST)
                  else
                    assert_op pv OpMkdir;;
                    ret3 ← call_op OpMkdir pv
                             (fs_mkdir drv pv (counted name namelen));
                    vput res_vnode;;
                    mret ret3
            end
        end
  end.

Definition do_rmdir (path : option string) : M D Z :=
  match path with
  | None => panic
  | Some p =>
      if MAXPATHLEN <? strlen p then mret (- ENAMETOOLONG)
      else
        r ← dir_namev p None;
        match r with
        | inl ret => mret ret
        | inr (namelen, name, res_vnode) =>
            match res_vnode with
            | None => mret (- ENOENT)
            | Some pv =>
                if NAME_LEN <? namelen then
                  vput res_vnode;; mret (- ENAMETOOLONG)
                else
                  vn ← vnode_at pv;
                  if negb (S_ISDIR (vn_mode vn)) then
                    vput res_vnode;; mret (- ENOTDIR)
                  else if String.eqb name "." then
                    vput res_vnode;; mret (- EINVAL)
                  else if String.eqb name ".." then
                    vput res_vnode;; mret (- ENOTEMPTY)
                  else
                    match vn_ops vn with
                    | None => fault
                    | Some _ =>
                        if negb (has_op vn OpRmdir) then
                          vput res_vnode;; mret (- ENOTDIR)
                        else
                          assert_op pv OpRmdir;;
                          ret3 ← call_op OpRmdir pv
                                   (fs_rmdir drv pv (counted name namelen));
                          vput res_vnode;;
                          mret ret3
                    end
            end
        end
  end.

Definition do_unlink (path : option string) : M D Z :=
  match path with
  | None => mret (- EINVAL)
  | Some p =>
      if MAXPATHLEN <? strlen p then mret (- ENAMETOOLONG)
      else
        r ← dir_namev p None;
        match r with
        | inl ret => mret ret
        | inr (namelen, name, res_vnode) =>
            if NAME_LEN <? namelen then mret (- ENAMETOOLONG)
            else
              '(ret, result) ← lookup res_vnode name namelen;
              if ret <? 0 then vput res_vnode;; mret ret
              else
                match result, res_vnode with
                | Some t, Some pv =>
                    tvn ← vnode_at t;
                    if S_ISDIR (vn_mode tvn) then
                      vput res_vnode;; vput result;; mret (- EPERM)
                    else
                      ret' ← call_op OpUnlink pv
                               (fs_unlink drv pv (counted name namelen));
                      vput res_vnode;;
                      vput result;;
                      mret ret'
                | _, _ => fault
                end
        end
  end.

Definition do_link (from to : option string) : M D Z :=
  match from, to with
  | Some pfrom, Some pto =>
      if (MAXPATHLEN <? strlen pfrom) || (MAXPATHLEN <? strlen pto) then
        mret (- ENAMETOOLONG)
      else
        '(ret1, fromNode) ← open_namev from 0 None;
        if ret1 <? 0 then mret ret1
        else
          r ← dir_namev pto None;
          match r with
          | inl ret2 => vput fromNode;; mret ret2
          | inr (namelen, name, toNode) =>
              '(ret3, result) ← lookup toNode name namelen;
              if ret3 =? 0 then
                vput fromNode;; vput toNode;; vput result;; mret (- EEXIST)
              else
                match toNode with
                | Some tv =>
                    tvn ← vnode_at tv;
                    match vn_ops tvn with
                    | None => fault
                    | Some _ =>
                        if negb (has_op tvn OpLink) then
                          vput fromNode;; vput toNode;; mret (- ENOTDIR)
                        else
                          ret4 ← call_op OpLink tv
                                   (fs_link drv fromNode tv
                                      (counted name namelen));
                          vput fromNode;;
                          vput toNode;;
                          mret ret4
                    end
                | None => fault
                end
          end
  | _, _ => mret (- EINVAL)
  end.

Definition do_chdir (path : option string) : M D Z :=
  match path with
  | None => mret (- EINVAL)
  | Some p =>
      if MAXPATHLEN <? strlen p then mret (- ENAMETOOLONG)
      else
        '(ret, res_vnode) ← open_namev path 0 None;
        if ret <? 0 then mret ret
        else
          match res_vnode with
          | None => mret (- ENOENT)
          | Some v =>
              vn ← vnode_at v;
              if negb (S_ISDIR (vn_mode vn)) then
                vput res_vnode;; mret (- ENOTDIR)
              else
                s ← get_state;
                vput (p_cwd s);;
                store_cwd res_vnode;;
                mret 0
          end
  end.

(** [buf] is [None] for a NULL pointer; what the driver writes to the
    buffer is left out. *)
Definition do_stat (path : option string) (buf : option unit) : M D Z :=
  match path with
  | None => mret (- EINVAL)
  | Some p =>
      if is_null buf then mret (- EINVAL)
      else if MAXPATHLEN <? strlen p then mret (- ENAMETOOLONG)
      else
        r ← dir_namev p None;
        match r with
        | inl ret => mret ret
        | inr (namelen, name, res_vnode) =>
            if NAME_LEN <? namelen then
              vput res_vnode;; mret (- ENAMETOOLONG)
            else
              match res_vnode with
              | None => mret (- ENOENT)
              | Some pv =>
                  vn ← vnode_at pv;
                  if negb (S_ISDIR (vn_mode vn)) then
                    vput res_vnode;; mret (- ENOTDIR)
                  else
                    '(ret, result) ← lookup res_vnode name (strlen name);
                    if negb (ret =? 0) then vput res_vnode;; mret ret
                    else
                      match result with
                      | None => vput res_vnode;; mret (- ENOENT)
                      | Some t =>
                          assert_op pv OpStat;;
                          ret' ← call_op OpStat pv (fs_stat drv t);
                          vput res_vnode;;
                          vput result;;
                          mret ret'
                      end
              end
        end
  end.

(** When [dir_namev] fails, [vput(node)] is applied to a pointer that was
    never written: a fault. *)
Definition do_rename (oldname newname : option string) : M D Z :=
  KASSERT (negb (is_null oldname) && negb (is_null newname));;
  ret ← do_link oldname newname;
  if ret <? 0 then mret ret
  else
    match oldname with
    | None => fault
    | Some old =>
        r ← dir_namev old None;
        match r with
        | inl _ => fault
        | inr (namelen, name, node) =>
            '(ret1, result) ← lookup node name namelen;
            ret2 ← (if ret1 =? 0 then
                      vput result;;
                      match result with
                      | None => fault
                      | Some t =>
                          tvn ← vnode_at t;
                          if S_ISDIR (vn_mode tvn) then do_rmdir oldname
                          else do_unlink oldname
                      end
                    else mret ret1);
            vput node;;
            mret ret2
        end
    end.

End Core.

(** ** A small in-memory filesystem

    A driver to run the code on: directories are lists of entries
    [(directory, name, child)] kept in the driver's private data. *)
Module RamFS.

Record data := {
  dirents : list (vno * string * vno);
  disk_ok : bool
}.

Definition dir_ops : list vop :=
  [OpLookup; OpCreate; OpMknod; OpMkdir; OpRmdir; OpUnlink; OpLink;
   OpReaddir; OpStat].
Definition file_ops : list vop := [OpRead; OpWrite; OpStat].

Definition find_entry (d : vno) (name : string)
    (l : list (vno * string * vno)) : option vno :=
  match List.find (fun e => Nat.eqb (fst (fst e)) d && String.eqb (snd (fst e)) name) l with
  | Some e => Some (snd e)
  | None => None
  end.

Definition drop_entry (d : vno) (name : string)
    (l : list (vno * string * vno)) : list (vno * string * vno) :=
  List.filter (fun e => negb (Nat.eqb (fst (fst e)) d && String.eqb (snd (fst e)) name)) l.

Definition with_dirents (fs : fs_t data) (l : list (vno * string * vno))
  : fs_t data :=
  {| fs_vnodes := fs_vnodes fs;
     fs_data := {| dirents := l; disk_ok := disk_ok (fs_data fs) |} |}.

Definition with_vnode (fs : fs_t data) (v : vno) (vn : vnode_t) : fs_t data :=
  {| fs_vnodes := <[v := vn]> (fs_vnodes fs); fs_data := fs_data fs |}.

(** The first key above every vnode of the table. *)
Definition fresh (fs : fs_t data) : vno :=
  S (map_fold (fun k _ acc => Nat.max k acc) O (fs_vnodes fs)).

Definition new_vnode (mode : Z) (refs : Z) : vnode_t :=
  {| vn_ops := Some (if S_ISDIR mode then dir_ops else file_ops);
     vn_mode := mode; vn_len := 0; vn_refcount := refs |}.

Definition ram_lookup (d : vno) (name : string) (fs : fs_t data)
  : fs_t data * (Z * option vno) :=
  match find_entry d name (dirents (fs_data fs)) with
  | Some c =>
      match fs_vnodes fs !! c with
      | Some vn =>
          (with_vnode fs c (vn_with_refcount vn (vn_refcount vn + 1)),
           (0, Some c))
      | None => (fs, (- ENOENT, None))
      end
  | None => (fs, (- ENOENT, None))
  end.

Definition ram_add (d : vno) (name : string) (mode : Z) (refs : Z)
    (fs : fs_t data) : fs_t data * vno :=
  let c := fresh fs in
  (with_dirents (with_vnode fs c (new_vnode mode refs))
     ((d, name, c) :: dirents (fs_data fs)), c).

Definition ram_create (d : vno) (name : string) (fs : fs_t data)
  : fs_t data * (Z * option vno) :=
  let '(fs', c) := ram_add d name S_IFREG 1 fs in (fs', (0, Some c)).

Definition ram_mknod (d : vno) (name : string) (mode devid : Z)
    (fs : fs_t data) : fs_t data * Z :=
  (fst (ram_add d name mode 0 fs), 0).

Definition ram_mkdir (d : vno) (name : string) (fs : fs_t data)
  : fs_t data * Z :=
  (fst (ram_add d name S_IFDIR 0 fs), 0).

Definition ram_remove (d : vno) (name : string) (fs : fs_t data)
  : fs_t data * Z :=
  match find_entry d name (dirents (fs_data fs)) with
  | Some _ => (with_dirents fs (drop_entry d name (dirents (fs_data fs))), 0)
  | None => (fs, - ENOENT)
  end.

Definition ram_link (from : option vno) (d : vno) (name : string)
    (fs : fs_t data) : fs_t data * Z :=
  match from with
  | Some c => (with_dirents fs ((d, name, c) :: dirents (fs_data fs)), 0)
  | None => (fs, - EINVAL)
  end.

Definition ram_read (v : vno) (off n : Z) (fs : fs_t data) : fs_t data * Z :=
  match fs_vnodes fs !! v with
  | Some vn => (fs, Z.max 0 (Z.min n (vn_len vn - off)))
  | None => (fs, - ENOENT)
  end.

Definition ram_write (v : vno) (off n : Z) (fs : fs_t data) : fs_t data * Z :=
  match fs_vnodes fs !! v with
  | Some vn =>
      (with_vnode fs v
         {| vn_ops := vn_ops vn; vn_mode := vn_mode vn;
            vn_len := Z.max (vn_len vn) (off + n);
            vn_refcount := vn_refcount vn |}, n)
  | None => (fs, - ENOENT)
  end.

(** One entry per call, one unit of offset per entry; [-5] is the I/O
    error of a backing store that cannot be read. *)
Definition ram_readdir (v : vno) (off : Z) (fs : fs_t data) : fs_t data * Z :=
  if disk_ok (fs_data fs) then
    let n := length (List.filter (fun e => Nat.eqb (fst (fst e)) v)
                       (dirents (fs_data fs))) in
    (fs, if off <? Z.of_nat n then 1 else 0)
  else (fs, - 5).

Definition ram_stat (v : vno) (fs : fs_t data) : fs_t data * Z :=
  match fs_vnodes fs !! v with
  | Some _ => (fs, 0)
  | None => (fs, - ENOENT)
  end.

Definition driver : vfs_driver data := {|
  fs_lookup := ram_lookup;
  fs_create := ram_create;
  fs_mknod := ram_mknod;
  fs_mkdir := ram_mkdir;
  fs_rmdir := ram_remove;
  fs_unlink := ram_remove;
  fs_link := ram_link;
  fs_read := ram_read;
  fs_write := ram_write;
  fs_readdir := ram_readdir;
  fs_stat := ram_stat
|}.

(** The sizes of the kernel's headers.  A [dirent_t] is an inode number
    and an offset of four bytes each and a name of [NAME_LEN + 1]
    characters, padded to a multiple of four bytes. *)
Definition NAME_LEN : Z := 28.
Definition MAXPATHLEN : Z := 1024.
Definition NFILES : Z := 32.
Definition SIZEOF_DIRENT : Z := 40.

Definition dir_vnode (refs : Z) : vnode_t := new_vnode S_IFDIR refs.
Definition reg_vnode (refs len : Z) : vnode_t :=
  {| vn_ops := Some file_ops; vn_mode := S_IFREG; vn_len := len;
     vn_refcount := refs |}.

(** A tree [/a/b/c] and [/a/f]: vnode 0 is the root, 1 is [/a], 2 is
    [/a/b], 3 is the regular file [/a/b/c], 4 is the regular file [/a/f].
    The root is held by [vfs_root_vn] and by the working directory.
    Descriptor 1 is open on [/a/f] for reading and writing, descriptor 2
    on the directory [/a]; every other slot is free. *)
Definition boot : kstate data := {|
  k_fs := {|
    fs_vnodes :=
      <[0%nat := dir_vnode 2]> (<[1%nat := dir_vnode 1]> (<[2%nat := dir_vnode 0]>
        (<[3%nat := reg_vnode 0 10]> (<[4%nat := reg_vnode 1 100]> ∅))));
    fs_data := {|
      dirents := [(0, "a", 1); (1, "b", 2); (2, "c", 3); (1, "f", 4)]%nat;
      disk_ok := true |} |};
  k_files :=
    <[0%nat := {| f_pos := 0; f_mode := 3; f_refcount := 1; f_vnode := 4%nat |}]>
      (<[1%nat := {| f_pos := 0; f_mode := 1; f_refcount := 1; f_vnode := 1%nat |}]> ∅);
  p_files := None :: Some 0%nat :: Some 1%nat :: replicate 29 None;
  p_cwd := Some 0%nat;
  vfs_root_vn := Some 0%nat
|}.

(** A path whose only component, 29 characters long, exceeds [NAME_LEN]. *)
Definition overlong : string := "/aaaaaaaaaaaaaaaaaaaaaaaaaaaaa".

(** [boot] on a backing store that cannot be read. *)
Definition boot_io_error : kstate data :=
  set_fs boot {| fs_vnodes := fs_vnodes (k_fs boot);
                 fs_data := {| dirents := dirents (fs_data (k_fs boot));
                               disk_ok := false |} |}.

(** [boot] with every descriptor open on the file [/a/f]. *)
Definition boot_full : kstate data :=
  set_p_files
    (set_files boot
       (<[0%nat := {| f_pos := 0; f_mode := 3; f_refcount := 32;
                      f_vnode := 4%nat |}]> (k_files boot)))
    (replicate 32 (Some 0%nat)).

(** [boot] with one more vnode, 5: a directory whose operations table has
    no lookup entry. *)
Definition bare_dir : vnode_t :=
  {| vn_ops := Some [OpMkdir]; vn_mode := S_IFDIR; vn_len := 0;
     vn_refcount := 1 |}.

Definition boot_bare : kstate data :=
  set_vnodes boot (<[5%nat := bare_dir]> (fs_vnodes (k_fs boot))).

(** The records of the two open files of [boot]. *)
Definition file_f : file_t :=
  {| f_pos := 0; f_mode := 3; f_refcount := 1; f_vnode := 4%nat |}.
Definition file_a : file_t :=
  {| f_pos := 0; f_mode := 1; f_refcount := 1; f_vnode := 1%nat |}.

(** [boot] with descriptor 0 open on [/a/f] as well; the lowest free
    descriptor is 3. *)
Definition boot_busy : kstate data :=
  set_p_files
    (set_files boot (<[0%nat := f_with_refcount file_f 2]> (k_files boot)))
    (Some 0%nat :: Some 0%nat :: Some 1%nat :: replicate 29 None).

(** [boot] with [/a/f] open for appending, at offset 5 of its 100 bytes. *)
Definition file_app : file_t :=
  {| f_pos := 5; f_mode := 7; f_refcount := 1; f_vnode := 4%nat |}.
Definition boot_append : kstate data :=
  set_files boot (<[0%nat := file_app]> (k_files boot)).

(** [boot] with [/a/f] open for writing only. *)
Definition file_wo : file_t :=
  {| f_pos := 0; f_mode := 2; f_refcount := 1; f_vnode := 4%nat |}.
Definition boot_wronly : kstate data :=
  set_files boot (<[0%nat := file_wo]> (k_files boot)).

(** [boot] after a change of directory to [/a]: the root is held by
    [vfs_root_vn] only, [/a] by descriptor 2 and by the working
    directory. *)
Definition boot_in_a : kstate data :=
  set_p_cwd
    (set_vnodes boot
       (<[0%nat := dir_vnode 1]> (<[1%nat := dir_vnode 2]>
          (fs_vnodes (k_fs boot)))))
    (Some 1%nat).

(** A path of 1025 characters, one more than [MAXPATHLEN]. *)
Definition long_path : string :=
  string_of_list_ascii (repeat "a"%char 1025).

(** The state a run ends in. *)
Definition state_after {A} (run : list event * outcome data A) : kstate data :=
  match snd run with
  | Done _ s => s
  | _ => boot
  end.

End RamFS.

(** ** Vocabulary of the properties *)

(** *** Reference accounting on a trace *)

Definition is_vref (v : vno) (e : event) : bool :=
  match e with EvVref w => Nat.eqb w v | _ => false end.
Definition is_vput (v : vno) (e : event) : bool :=
  match e with EvVput w => Nat.eqb w v | _ => false end.
Definition is_fget (f : fno) (e : event) : bool :=
  match e with EvFget g => Nat.eqb g f | _ => false end.
Definition is_fput (f : fno) (e : event) : bool :=
  match e with EvFput g => Nat.eqb g f | _ => false end.

Definition count_ev (p : event -> bool) (tr : list event) : nat :=
  length (List.filter p tr).


(** *** The namespace lock along a trace *)

(** The driver operations that change a directory. *)
Definition mutates (o : vop) : bool :=
  match o with
  | OpCreate | OpMknod | OpMkdir | OpRmdir | OpUnlink | OpLink => true
  | _ => false
  end.

(** Every driver mutation of the trace is made with [vfsm] held. *)
Fixpoint mutations_locked (held : bool) (tr : list event) : bool :=
  match tr with
  | [] => true
  | EvLock :: r => mutations_locked true r
  | EvUnlock :: r => mutations_locked false r
  | EvOp o _ :: r => (negb (mutates o) || held) && mutations_locked held r
  | _ :: r => mutations_locked held r
  end.

(** The discipline the code follows: [vfsm] is taken only when free and
    released only when held; [create] is called with the lock held; [mknod],
    [mkdir], [rmdir], [unlink] and [link] are called without it.  The result
    is the state of the lock after the trace, or [None] when the trace
    departs from the discipline. *)
Fixpoint lock_scan (held : bool) (tr : list event) : option bool :=
  match tr with
  | [] => Some held
  | EvLock :: r => if held then None else lock_scan true r
  | EvUnlock :: r => if held then lock_scan false r else None
  | EvOp o _ :: r =>
      if mutates o then
        if Bool.eqb held (vop_eqb o OpCreate) then lock_scan held r else None
      else lock_scan held r
  | _ :: r => lock_scan held r
  end.

(** A run follows the discipline from a free lock, and leaves the lock free
    when it returns. *)
Definition lock_discipline {D A} (run : list event * outcome D A) : Prop :=
  match lock_scan false (fst run), snd run with
  | None, _ => False
  | Some held, Done _ _ => held = false
  | Some _, _ => True
  end.

(** Events that leave the lock alone and change no directory. *)
Definition neutral (e : event) : Prop :=
  match e with
  | EvLock | EvUnlock => False
  | EvOp o _ => mutates o = false
  | _ => True
  end.


(** Every event a computation emits, from any state and whatever its
    outcome, satisfies [Q]. *)
Definition only {D A} (Q : event -> Prop) (m : M D A) : Prop :=
  forall s, Forall Q (fst (m s)).

(** From lock state [h] the computation follows the discipline of
    [lock_scan], and leaves the lock in state [h'] when it returns. *)
Definition locks {D A} (h : bool) (m : M D A) (h' : bool) : Prop :=
  forall s,
    match lock_scan h (fst (m s)), snd (m s) with
    | None, _ => False
    | Some hm, Done _ _ => hm = h'
    | Some _, _ => True
    end.

(** *** Paths as lists of components *)

(** The pieces of [s] between its slashes; there is always a last piece,
    empty when [s] is empty or ends in a slash. *)
Fixpoint split_slash (s : string) : list string :=
  match s with
  | EmptyString => [EmptyString]
  | String a r =>
      if Ascii.eqb a "/" then EmptyString :: split_slash r
      else match split_slash r with
           | x :: xs => String a x :: xs
           | [] => [String a EmptyString]
           end
  end.

Definition strip_root (p : string) : string :=
  match p with
  | String "/" r => r
  | _ => p
  end.

Definition components (p : string) : list string := split_slash (strip_root p).

(** The components that are followed by a slash, and the final one. *)
Definition intermediate (p : string) : list string := removelast (components p).
Definition basename (p : string) : string := List.last (components p) EmptyString.



Section Resolution.
Context {D : Type} (drv : vfs_driver D).
Variable NAME_LEN : Z.

(** The pointer loop of [dir_namev] as a recursion over the components
    that are followed by a slash: before each component the current
    directory must be a directory (else it is released and the walk fails
    with ENOTDIR; a NULL directory fails with ENOENT), the component must fit
    in NAME_LEN (else ENAMETOOLONG); [lookup] is called as the loop calls
    it, on the pointer to the component in the path, so on a string in which
    the component is followed by its slash, with the length of the
    component; a failure is propagated after releasing the directory, a
    success releases it and adopts the result.  The value is the error, or
    the directory reached. *)
Fixpoint resolve_components (cs : list string) (dir : option vno)
  : M D (Z + option vno) :=
  match cs with
  | [] => mret (inr dir)
  | c :: rest =>
      match dir with
      | None => mret (inl (- ENOENT))
      | Some d =>
          vn ← vnode_at d;
          if negb (S_ISDIR (vn_mode vn)) then vput dir;; mret (inl (- ENOTDIR))
          else if NAME_LEN <? strlen c then
            vput dir;; mret (inl (- ENAMETOOLONG))
          else
            '(ret, next) ← lookup drv NAME_LEN dir (c ++ "/")%string (strlen c);
            if ret <? 0 then vput dir;; mret (inl ret)
            else vput dir;; resolve_components rest next
      end
  end.


(** What the walk leaves for the final component [base], which is not
    looked up: an empty one is returned as it is; before a non-empty one the
    directory reached is checked once more. *)
Definition return_basename (r : Z + option vno) (base : string)
  : M D namev_result :=
  match r with
  | inl e => mret (inl e)
  | inr dir =>
      if String.eqb base "" then mret (inr (strlen base, base, dir))
      else
        match dir with
        | None => mret (inl (- ENOENT))
        | Some d =>
            vn ← vnode_at d;
            if negb (S_ISDIR (vn_mode vn)) then vput dir;; mret (inl (- ENOTDIR))
            else mret (inr (strlen base, base, dir))
        end
  end.


End Resolution.

(** *** Valid descriptors *)

(** Descriptor [fd] is open on the file [f]: the slot holds [f], the open
    file is live, with the reference of the slot among its references, and
    so is its vnode. *)
Definition open_on {D} (NFILES : Z) (s : kstate D) (fd : Z) (f : fno) : Prop :=
  0 <= fd < NFILES /\
  p_files s !! Z.to_nat fd = Some (Some f) /\
  exists r, k_files s !! f = Some r /\ 1 <= f_refcount r
            /\ is_Some (fs_vnodes (k_fs s) !! f_vnode r).

(** *** Vocabulary of the further properties *)

(** Descriptor [fd] is open on the file [f], whose record is [r]. *)
Definition open_file {D} (NFILES : Z) (s : kstate D) (fd : Z) (f : fno)
    (r : file_t) : Prop :=
  0 <= fd < NFILES /\
  p_files s !! Z.to_nat fd = Some (Some f) /\
  k_files s !! f = Some r /\
  1 <= f_refcount r.

(** The offset [do_lseek] aims at; the two sums are made in 32 bits. *)
Definition seek_target (whence offset : Z) (r : file_t) (vn : vnode_t) : Z :=
  if whence =? SEEK_SET then offset
  else if whence =? SEEK_CUR then wrap_int (f_pos r + offset)
  else wrap_int (vn_len vn + offset).

(** References of the open file [f] taken minus references given back
    along a trace. *)
Definition file_net (f : fno) (tr : list event) : Z :=
  Z.of_nat (count_ev (is_fget f) tr) - Z.of_nat (count_ev (is_fput f) tr).

(** Events of the open-file cache. *)
Definition fd_event (e : event) : Prop :=
  match e with
  | EvFget _ | EvFput _ => True
  | _ => False
  end.

(** Events that change no directory. *)
Definition read_only (e : event) : Prop :=
  match e with
  | EvOp o _ => mutates o = false
  | _ => True
  end.

(** Events other than those of the open-file cache. *)
Definition not_fd_event (e : event) : Prop :=
  match e with
  | EvFget _ | EvFput _ => False
  | _ => True
  end.

(** Events of name resolution: references of vnodes, calls of [lookup] and
    of the driver's lookup operation, nothing else. *)
Definition namev_event (e : event) : Prop :=
  match e with
  | EvVref _ | EvVput _ | EvLookup _ _ => True
  | EvOp o _ => vop_eqb o OpLookup = true
  | _ => False
  end.

(** What a pointer returned by [fget] is worth in references of the open
    file [g]. *)
Definition credit (g : fno) (file : option fno) : Z :=
  match file with
  | Some f => if Nat.eqb f g then 1 else 0
  | None => 0
  end.

(** Reference accounting of the open file [g] along a computation: when it
    is entered at balance [n] and returns the value [a], the balance is
    [post a]. *)
Definition nets {D A} (g : fno) (n : Z) (m : M D A) (post : A -> Z) : Prop :=
  forall s,
    match snd (m s) with
    | Done a _ => n + file_net g (fst (m s)) = post a
    | _ => True
    end.

(** * Properties *)

(** ** Running computations *)

Section Runs.
Context {D : Type}.

Lemma run_ret {A} (a : A) (s : kstate D) :
  (mret a : M D A) s = ([], Done a s).
Proof. reflexivity. Qed.

Lemma run_bind {A B} (m : M D A) (f : A -> M D B) s t1 a s1 t2 o :
  m s = (t1, Done a s1) ->
  f a s1 = (t2, o) ->
  (m ≫= f) s = (t1 ++ t2, o).
Proof.
  intros Hm Hf. unfold mbind, M_bind. rewrite Hm, Hf. reflexivity.
Qed.

Lemma bind_cong {A B} (m m' : M D A) (f g : A -> M D B) s :
  m s = m' s -> (forall a s1, f a s1 = g a s1) -> (m ≫= f) s = (m' ≫= g) s.
Proof.
  intros Hm Hf. unfold mbind, M_bind. rewrite Hm.
  destruct (m' s) as [t1 [a s1| |]]; try reflexivity.
  rewrite Hf. reflexivity.
Qed.

Lemma bind_ext {A B} (m : M D A) (f g : A -> M D B) s :
  (forall a s', f a s' = g a s') -> (m ≫= f) s = (m ≫= g) s.
Proof.
  intros Hfg. unfold mbind, M_bind. destruct (m s) as [t1 [a s1| |]]; auto.
  rewrite Hfg. reflexivity.
Qed.

Lemma bind_assoc {A B C} (m : M D A) (f : A -> M D B) (g : B -> M D C) s :
  ((m ≫= f) ≫= g) s = (m ≫= (fun a => f a ≫= g)) s.
Proof.
  unfold mbind, M_bind. destruct (m s) as [t1 [a s1| |]]; auto.
  destruct (f a s1) as [t2 [b s2| |]]; auto.
  destruct (g b s2) as [t3 o]. rewrite app_assoc. reflexivity.
Qed.

Lemma bind_ret_l {A B} (a : A) (f : A -> M D B) s :
  ((mret a : M D A) ≫= f) s = f a s.
Proof.
  unfold mbind, M_bind, mret, M_ret. destruct (f a s); reflexivity.
Qed.

Lemma run_vnode_at (s : kstate D) (v : vno) (vn : vnode_t) :
  fs_vnodes (k_fs s) !! v = Some vn -> vnode_at v s = ([], Done vn s).
Proof. intros Hv. unfold vnode_at. rewrite Hv. reflexivity. Qed.

Lemma run_file_at (s : kstate D) (f : fno) (r : file_t) :
  k_files s !! f = Some r -> file_at f s = ([], Done r s).
Proof. intros Hf. unfold file_at. rewrite Hf. reflexivity. Qed.

Lemma run_emit (e : event) (s : kstate D) : emit e s = ([e], Done tt s).
Proof. reflexivity. Qed.

Lemma run_vref (s : kstate D) (v : vno) (vn : vnode_t) :
  fs_vnodes (k_fs s) !! v = Some vn ->
  vref (Some v) s =
    ([EvVref v],
     Done tt (set_vnodes s (<[v := vn_with_refcount vn (vn_refcount vn + 1)]>
                              (fs_vnodes (k_fs s))))).
Proof.
  intros Hv. unfold vref, mbind, M_bind, vnode_at, emit, store_vnode.
  rewrite Hv. reflexivity.
Qed.

Lemma run_vput (s : kstate D) (v : vno) (vn : vnode_t) :
  fs_vnodes (k_fs s) !! v = Some vn ->
  vput (Some v) s =
    ([EvVput v],
     Done tt (set_vnodes s (<[v := vn_with_refcount vn (vn_refcount vn - 1)]>
                              (fs_vnodes (k_fs s))))).
Proof.
  intros Hv. unfold vput, mbind, M_bind, vnode_at, emit, store_vnode.
  rewrite Hv. reflexivity.
Qed.

Lemma vnode_refs_set (s : kstate D) (v : vno) (vn : vnode_t) :
  vnode_refs (set_vnodes s (<[v := vn]> (fs_vnodes (k_fs s)))) v
  = vn_refcount vn.
Proof. unfold vnode_refs. simpl. rewrite lookup_insert_eq. reflexivity. Qed.

Lemma vnode_refs_lookup (s : kstate D) (v : vno) (vn : vnode_t) :
  fs_vnodes (k_fs s) !! v = Some vn -> vnode_refs s v = vn_refcount vn.
Proof. intros Hv. unfold vnode_refs. rewrite Hv. reflexivity. Qed.

End Runs.

(** One step of a run: the first computation of a bind, then the rest. *)
Ltac run_with H := eapply run_bind; [ exact H | cbv beta ].
Ltac run_by tac := eapply run_bind; [ tac | cbv beta ].

(** ** What a computation may emit *)

Section Emissions.
Context {D : Type}.
Variable Q : event -> Prop.

Lemma only_ret {A} (a : A) : only Q (mret a : M D A).
Proof. intros s. constructor. Qed.

Lemma only_panic {A} : only Q (panic : M D A).
Proof. intros s. constructor. Qed.

Lemma only_fault {A} : only Q (fault : M D A).
Proof. intros s. constructor. Qed.

Lemma only_bind {A B} (m : M D A) (f : A -> M D B) :
  only Q m -> (forall a, only Q (f a)) -> only Q (m ≫= f).
Proof.
  intros Hm Hf s. unfold mbind, M_bind. specialize (Hm s).
  destruct (m s) as [t1 [a s1| |]]; simpl in *; auto.
  specialize (Hf a s1). destruct (f a s1) as [t2 o]. simpl in *.
  apply Forall_app. auto.
Qed.

Lemma only_emit (e : event) : Q e -> only Q (emit e : M D unit).
Proof. intros He s. simpl. auto. Qed.

Lemma only_KASSERT (b : bool) : only Q (KASSERT b : M D unit).
Proof. destruct b; [apply only_ret | apply only_panic]. Qed.

Lemma only_vnode_at (v : vno) : only Q (vnode_at v : M D vnode_t).
Proof. intros s. unfold vnode_at. case_match; constructor. Qed.

Lemma only_store_vnode (v : vno) (vn : vnode_t) :
  only Q (store_vnode v vn : M D unit).
Proof. intros s. constructor. Qed.

Lemma only_get_state : only Q (get_state : M D (kstate D)).
Proof. intros s. constructor. Qed.

Lemma only_drv_call {A} (f : fs_t D -> fs_t D * A) : only Q (drv_call f).
Proof. intros s. unfold drv_call. destruct (f (k_fs s)). constructor. Qed.

Lemma only_vref (p : option vno) :
  (forall v, Q (EvVref v)) -> only Q (vref p : M D unit).
Proof.
  intros HQ. destruct p as [v|]; [|apply only_fault]. unfold vref.
  apply only_bind; [apply only_vnode_at|]. intros vn.
  apply only_bind; [apply only_emit, HQ|]. intros _. apply only_store_vnode.
Qed.

Lemma only_vput (p : option vno) :
  (forall v, Q (EvVput v)) -> only Q (vput p : M D unit).
Proof.
  intros HQ. destruct p as [v|]; [|apply only_fault]. unfold vput.
  apply only_bind; [apply only_vnode_at|]. intros vn.
  apply only_bind; [apply only_emit, HQ|]. intros _. apply only_store_vnode.
Qed.

Lemma only_call_op {A} (o : vop) (v : vno) (f : fs_t D -> fs_t D * A) :
  Q (EvOp o v) -> only Q (call_op o v f).
Proof.
  intros HQ. unfold call_op. apply only_bind; [apply only_vnode_at|].
  intros vn. destruct (has_op vn o); [|apply only_fault].
  apply only_bind; [apply only_emit, HQ|]. intros _. apply only_drv_call.
Qed.

Lemma only_assert_op (v : vno) (o : vop) : only Q (assert_op v o : M D unit).
Proof.
  unfold assert_op. apply only_bind; [apply only_vnode_at|]. intros vn.
  destruct (vn_ops vn); [apply only_KASSERT | apply only_fault].
Qed.

End Emissions.



(** Emission goals are settled along the syntax of the computation. *)
Ltac only_prim :=
  first
    [ apply only_ret | apply only_panic | apply only_fault
    | apply only_KASSERT | apply only_vnode_at
    | apply only_store_vnode | apply only_get_state | apply only_drv_call
    | apply only_assert_op
    | apply only_vref; intros; exact I
    | apply only_vput; intros; exact I
    | apply only_emit; first [exact I | reflexivity]
    | apply only_call_op; first [exact I | reflexivity]
    | assumption ].

Ltac only_step :=
  lazymatch goal with
  | |- only _ (mbind _ _) => apply only_bind; [| intros; cbv beta]
  | |- only _ (if ?b then _ else _) => destruct b
  | |- only _ (match ?x with _ => _ end) => destruct x
  | |- _ => only_prim
  end.

Ltac only_auto := repeat only_step.

(** ** Single-component lookup and the root path *)

Section LookupFacts.
Context {D : Type} (drv : vfs_driver D).
Variables NAME_LEN MAXPATHLEN : Z.

(** C9, as the code has it: in a directory whose operations table has no
    lookup entry, looking up a proper name (not empty, not ".", within
    NAME_LEN) fails the assertion [KASSERT(dir->vn_ops->lookup)] and the
    kernel panics; the [-ENOTDIR] branch below the assertion is never
    reached. *)
Theorem lookup_without_entry_panics
    (s : kstate D) (d : vno) (vn : vnode_t) (tbl : list vop)
    (name : string) (len : Z) :
  fs_vnodes (k_fs s) !! d = Some vn ->
  S_ISDIR (vn_mode vn) = true ->
  vn_ops vn = Some tbl ->
  has_op vn OpLookup = false ->
  0 < len <= NAME_LEN ->
  name <> "."%string ->
  lookup drv NAME_LEN (Some d) name len s
  = ([EvLookup d (counted name len)], Panic).
Proof.
  intros Hv Hdir Hops Hno Hlen Hname.
  unfold lookup, mbind, M_bind, emit, vnode_at. rewrite Hv, Hdir. simpl.
  replace (NAME_LEN <? len) with false by lia.
  replace (len =? 0) with false by lia.
  apply String.eqb_neq in Hname. rewrite Hname. simpl.
  rewrite Hops, Hno. reflexivity.
Qed.

(** The empty-name alias of [lookup]. *)
Lemma run_lookup_empty (s : kstate D) (d : vno) (vn : vnode_t) :
  0 <= NAME_LEN ->
  fs_vnodes (k_fs s) !! d = Some vn ->
  S_ISDIR (vn_mode vn) = true ->
  lookup drv NAME_LEN (Some d) EmptyString 0 s
  = ([EvLookup d EmptyString; EvVref d],
     Done (0, Some d)
       (set_vnodes s (<[d := vn_with_refcount vn (vn_refcount vn + 1)]>
                        (fs_vnodes (k_fs s))))).
Proof.
  intros Hname Hv Hdir. unfold lookup.
  change [EvLookup d EmptyString; EvVref d]
    with ([EvLookup d (counted EmptyString 0)] ++ [] ++ [EvVref d] ++ []).
  run_by ltac:(apply run_emit). run_by ltac:(apply run_vnode_at, Hv).
  rewrite Hdir. replace (NAME_LEN <? 0) with false by lia.
  cbn [negb String.eqb Z.eqb orb].
  run_by ltac:(apply run_vref, Hv). apply run_ret.
Qed.

(** C10: the root path resolves.  [dir_namev] on "/" returns the root vnode
    as parent with the empty basename of length 0, having taken one
    reference on the root; and when the root is a directory, [open_namev] on
    "/" without flags returns the root itself through the empty-name alias
    of [lookup], the caller owning one reference, the namespace lock taken
    and released. *)
Theorem root_path_resolves
    (s : kstate D) (base : option vno) (root : vno) (vn : vnode_t) :
  1 <= MAXPATHLEN ->
  0 <= NAME_LEN ->
  vfs_root_vn s = Some root ->
  fs_vnodes (k_fs s) !! root = Some vn ->
  (exists s1,
      dir_namev drv NAME_LEN MAXPATHLEN "/" base s
      = ([EvVref root], Done (inr (0, EmptyString, Some root)) s1)
      /\ vnode_refs s1 root = vnode_refs s root + 1)
  /\ (S_ISDIR (vn_mode vn) = true ->
      exists s2,
        open_namev drv NAME_LEN MAXPATHLEN (Some "/"%string) 0 base s
        = ([EvVref root; EvLock; EvLookup root EmptyString; EvVref root;
            EvVput root; EvUnlock],
           Done (0, Some root) s2)
        /\ vnode_refs s2 root = vnode_refs s root + 1).
Proof.
  intros Hmax Hname Hroot Hv.
  set (vn1 := vn_with_refcount vn (vn_refcount vn + 1)).
  set (s1 := set_vnodes s (<[root := vn1]> (fs_vnodes (k_fs s)))).
  assert (Hd : dir_namev drv NAME_LEN MAXPATHLEN "/" base s
               = ([EvVref root], Done (inr (0, EmptyString, Some root)) s1)).
  { unfold dir_namev. change (strlen "/") with 1.
    replace (MAXPATHLEN <? 1) with false by lia.
    change (1 =? 0) with false. cbv iota.
    change [EvVref root] with ([] ++ [EvVref root] ++ []).
    run_by ltac:(reflexivity). cbn [start_of]. rewrite Hroot.
    run_by ltac:(apply run_vref, Hv). reflexivity. }
  assert (Href : vnode_refs s root = vn_refcount vn)
    by (apply vnode_refs_lookup, Hv).
  split.
  - exists s1. split; [exact Hd|].
    unfold s1. rewrite vnode_refs_set, Href. reflexivity.
  - intros Hdir.
    assert (Hv1 : fs_vnodes (k_fs s1) !! root = Some vn1)
      by (unfold s1; simpl; apply lookup_insert_eq).
    set (vn2 := vn_with_refcount vn1 (vn_refcount vn1 + 1)).
    set (s2 := set_vnodes s1 (<[root := vn2]> (fs_vnodes (k_fs s1)))).
    assert (Hv2 : fs_vnodes (k_fs s2) !! root = Some vn2)
      by (unfold s2; simpl; apply lookup_insert_eq).
    eexists. split.
    + unfold open_namev.
      change [EvVref root; EvLock; EvLookup root EmptyString; EvVref root;
              EvVput root; EvUnlock]
        with ([EvVref root] ++ [] ++ [EvLock]
              ++ [EvLookup root EmptyString; EvVref root]
              ++ [EvVput root] ++ [EvUnlock] ++ []).
      run_with Hd. run_by ltac:(apply run_vnode_at, Hv1).
      change (vn_mode vn1) with (vn_mode vn). rewrite Hdir. cbn [negb].
      run_by ltac:(apply run_emit).
      run_by ltac:(apply (run_lookup_empty s1 root vn1 Hname Hv1 Hdir)).
      change (0 <? 0) with false. cbv iota.
      run_by ltac:(apply run_vput, Hv2). run_by ltac:(apply run_emit).
      apply run_ret.
    + rewrite vnode_refs_set, Href. simpl. lia.
Qed.

End LookupFacts.

(** ** Descriptors and open files *)

Section DescriptorFacts.
Context {D : Type}.
Variable NFILES : Z.

Lemma run_slot_get (s : kstate D) (fd : Z) (slot : option fno) :
  0 <= fd < NFILES ->
  p_files s !! Z.to_nat fd = Some slot ->
  slot_get NFILES fd s = ([], Done slot s).
Proof.
  intros Hfd Hslot. unfold slot_get, in_range.
  replace (0 <=? fd) with true by lia. replace (fd <? NFILES) with true by lia.
  simpl. rewrite Hslot. reflexivity.
Qed.

Lemma run_fget (s : kstate D) (fd : Z) (f : fno) (r : file_t) :
  0 <= fd < NFILES ->
  p_files s !! Z.to_nat fd = Some (Some f) ->
  k_files s !! f = Some r ->
  fget NFILES fd s
  = ([EvFget f],
     Done (Some f)
       (set_files s (<[f := f_with_refcount r (f_refcount r + 1)]> (k_files s)))).
Proof.
  intros Hfd Hslot Hf. unfold fget, in_range.
  replace (0 <=? fd) with true by lia. replace (fd <? NFILES) with true by lia.
  cbn [andb].
  change [EvFget f] with ([] ++ [] ++ [EvFget f] ++ [] ++ []).
  run_by ltac:(apply run_slot_get; eassumption).
  run_by ltac:(apply run_file_at, Hf). run_by ltac:(apply run_emit).
  run_by ltac:(reflexivity). apply run_ret.
Qed.

(** [fput] on a file that keeps other references. *)
Lemma run_fput_keep (s : kstate D) (f : fno) (r : file_t) :
  k_files s !! f = Some r ->
  f_refcount r - 1 <> 0 ->
  fput (Some f) s
  = ([EvFput f],
     Done tt
       (set_files s (<[f := f_with_refcount r (f_refcount r - 1)]> (k_files s)))).
Proof.
  intros Hf Hn. unfold fput.
  change [EvFput f] with ([] ++ [EvFput f] ++ []).
  run_by ltac:(apply run_file_at, Hf). run_by ltac:(apply run_emit).
  replace (f_refcount r - 1 =? 0) with false by lia. reflexivity.
Qed.

(** [fput] of the last reference: the open file is freed and its vnode
    reference returned. *)
Lemma run_fput_last (s : kstate D) (f : fno) (r : file_t) (vn : vnode_t) :
  k_files s !! f = Some r ->
  f_refcount r - 1 = 0 ->
  fs_vnodes (k_fs s) !! f_vnode r = Some vn ->
  exists s',
    fput (Some f) s = ([EvFput f], Done tt s')
    /\ k_files s' = delete f (k_files s)
    /\ p_files s' = p_files s.
Proof.
  intros Hf Hn Hv. eexists. split; [|split].
  - unfold fput.
    change [EvFput f] with ([] ++ [EvFput f] ++ [] ++ [] ++ []).
    run_by ltac:(apply run_file_at, Hf). run_by ltac:(apply run_emit).
    replace (f_refcount r - 1 =? 0) with true by lia.
    run_by ltac:(apply run_vnode_at, Hv). run_by ltac:(reflexivity).
    reflexivity.
  - reflexivity.
  - reflexivity.
Qed.

Lemma run_slot_set (s : kstate D) (fd : Z) (old new : option fno) :
  0 <= fd < NFILES ->
  p_files s !! Z.to_nat fd = Some old ->
  slot_set NFILES fd new s
  = ([], Done tt (set_p_files s (<[Z.to_nat fd := new]> (p_files s)))).
Proof.
  intros Hfd Hslot. unfold slot_set, in_range.
  replace (0 <=? fd) with true by lia. replace (fd <? NFILES) with true by lia.
  apply lookup_lt_Some in Hslot.
  rewrite bool_decide_eq_true_2 by exact Hslot. reflexivity.
Qed.

Lemma file_refs_lookup (s : kstate D) (f : fno) (r : file_t) :
  k_files s !! f = Some r -> file_refs s f = f_refcount r.
Proof. intros Hf. unfold file_refs. rewrite Hf. reflexivity. Qed.

(** C2: closing a valid descriptor returns 0, empties the slot, and over
    the whole call (the [fget] of the function counted: one acquisition, two
    releases) the open file loses exactly one reference, the one of the
    slot. *)
Theorem do_close_releases_slot_reference (s : kstate D) (fd : Z) (f : fno) :
  open_on NFILES s fd f ->
  exists s',
    do_close NFILES fd s = ([EvFget f; EvFput f; EvFput f], Done 0 s')
    /\ p_files s' !! Z.to_nat fd = Some None
    /\ file_refs s' f = file_refs s f - 1
    /\ count_ev (is_fget f) [EvFget f; EvFput f; EvFput f] = 1%nat
    /\ count_ev (is_fput f) [EvFget f; EvFput f; EvFput f] = 2%nat.
Proof.
  intros (Hfd & Hslot & r & Hf & Hn & [vn Hv]).
  set (r1 := f_with_refcount r (f_refcount r + 1)).
  set (s1 := set_files s (<[f := r1]> (k_files s))).
  assert (Hf1 : k_files s1 !! f = Some r1)
    by (unfold s1; simpl; apply lookup_insert_eq).
  set (r2 := f_with_refcount r1 (f_refcount r1 - 1)).
  set (s2 := set_files s1 (<[f := r2]> (k_files s1))).
  assert (Hf2 : k_files s2 !! f = Some r2)
    by (unfold s2; simpl; apply lookup_insert_eq).
  assert (Hr2 : f_refcount r2 = f_refcount r) by (simpl; lia).
  assert (Hcount : count_ev (is_fget f) [EvFget f; EvFput f; EvFput f] = 1%nat
                   /\ count_ev (is_fput f) [EvFget f; EvFput f; EvFput f] = 2%nat).
  { unfold count_ev. simpl. rewrite Nat.eqb_refl. simpl. auto. }
  assert (Hprefix : forall s3,
    fput (Some f) s2 = ([EvFput f], Done tt s3) ->
    p_files s3 = p_files s ->
    do_close NFILES fd s
    = ([EvFget f; EvFput f; EvFput f],
       Done 0 (set_p_files s3 (<[Z.to_nat fd := None]> (p_files s3))))).
  { intros s3 Hlast Hp3. unfold do_close.
    replace (fd <? 0) with false by lia. replace (NFILES <? fd) with false by lia.
    cbn [orb].
    change [EvFget f; EvFput f; EvFput f]
      with ([EvFget f] ++ [] ++ [EvFput f] ++ [EvFput f] ++ [] ++ []).
    run_by ltac:(apply run_fget; eassumption). cbn [is_null].
    run_by ltac:(apply run_slot_get; [exact Hfd | exact Hslot]). cbn [is_null].
    run_by ltac:(apply (run_fput_keep s1 f r1 Hf1); simpl; lia).
    run_with Hlast.
    run_by ltac:(apply (run_slot_set s3 fd (Some f)); [exact Hfd|];
                 rewrite Hp3; exact Hslot).
    apply run_ret. }
  assert (Hlen : (Z.to_nat fd < length (p_files s))%nat)
    by (eapply lookup_lt_Some; exact Hslot).
  rewrite (file_refs_lookup s f r Hf).
  destruct (Z.eq_dec (f_refcount r) 1) as [Hone | Hmore].
  - destruct (run_fput_last s2 f r2 vn Hf2) as (s3 & Hlast & Hk3 & Hp3).
    { lia. } { exact Hv. }
    eexists. split; [apply (Hprefix s3 Hlast Hp3)|]. split; [|split].
    + simpl. rewrite Hp3. apply list_lookup_insert_eq. exact Hlen.
    + unfold file_refs. simpl. rewrite Hk3, lookup_delete_eq. lia.
    + exact Hcount.
  - eexists. split.
    + apply Hprefix; [apply (run_fput_keep s2 f r2 Hf2); lia | reflexivity].
    + split; [|split].
      * simpl. apply list_lookup_insert_eq. exact Hlen.
      * unfold file_refs. simpl. rewrite lookup_insert_eq. simpl. lia.
      * exact Hcount.
Qed.

End DescriptorFacts.

(** ** Paths: the pointer loop against the list of components *)

Section StringFacts.

Lemma split_slash_nonempty (s : string) : split_slash s <> [].
Proof.
  destruct s as [|a r]; simpl; [discriminate|].
  destruct (Ascii.eqb a "/"); [discriminate|].
  destruct (split_slash r); discriminate.
Qed.

Lemma strchr_none (s : string) :
  strchr s "/" = None -> split_slash s = [s].
Proof.
  induction s as [|a r IH]; simpl; [reflexivity|].
  destruct (Ascii.eqb a "/"); [discriminate|].
  destruct (strchr r "/") eqn:E; [discriminate|].
  intros _. rewrite IH by reflexivity. reflexivity.
Qed.

Lemma strchr_some (s : string) (i : nat) :
  strchr s "/" = Some i ->
  split_slash s = str_take i s :: split_slash (str_advance (S i) s)
  /\ s = (str_take i s ++ String "/" (str_advance (S i) s))%string
  /\ String.length (str_take i s) = i
  /\ (String.length (str_advance (S i) s) < String.length s)%nat.
Proof.
  revert i. induction s as [|a r IH]; simpl; [discriminate|].
  intros i. destruct (Ascii.eqb a "/") eqn:Ea.
  - intros [= <-]. apply Ascii.eqb_eq in Ea. subst a.
    cbn [str_take str_advance String.length String.append].
    assert (Hadv : str_advance 0 r = r) by (destruct r; reflexivity).
    rewrite Hadv. repeat split; auto.
  - destruct (strchr r "/") as [j|] eqn:E; [|discriminate].
    simpl. intros [= <-]. destruct (IH j eq_refl) as (Hs & Hr & Hl & Hlt).
    cbn [str_take str_advance String.length String.append]. rewrite Hs.
    split; [reflexivity|].
    split; [change (String a r = String a (str_take j r ++ String "/" (str_advance (S j) r))%string);
            f_equal; exact Hr|].
    split; [f_equal; exact Hl | lia].
Qed.

Lemma counted_prefix (c rest : string) :
  counted (c ++ rest) (strlen c) = c.
Proof.
  unfold counted, strlen. rewrite Nat2Z.id.
  induction c as [|a c IH]; simpl.
  - destruct rest; reflexivity.
  - rewrite IH. reflexivity.
Qed.

Lemma component_not_dot (c rest : string) :
  String.eqb (c ++ String "/" rest) "." = false.
Proof.
  destruct c as [|a c]; simpl; [reflexivity|].
  destruct (Ascii.eqb a "."); [|reflexivity].
  destruct c; reflexivity.
Qed.

Lemma removelast_cons {A} (x : A) (l : list A) :
  l <> [] -> removelast (x :: l) = x :: removelast l.
Proof. destruct l; [congruence | reflexivity]. Qed.

Lemma last_cons {A} (x d : A) (l : list A) :
  l <> [] -> List.last (x :: l) d = List.last l d.
Proof. destruct l; [congruence | reflexivity]. Qed.


End StringFacts.

Section PathFacts.
Context {D : Type} (drv : vfs_driver D).
Variables NAME_LEN MAXPATHLEN : Z.

(** What follows the slash of a component has no part in its lookup. *)
Lemma lookup_rest_irrelevant (dir : option vno) (c rest : string) s :
  lookup drv NAME_LEN dir (c ++ String "/" rest) (strlen c) s
  = lookup drv NAME_LEN dir (c ++ "/") (strlen c) s.
Proof.
  unfold lookup. destruct dir as [d|]; [|reflexivity].
  rewrite !counted_prefix, !component_not_dot. reflexivity.
Qed.

(** The pointer loop is the walk over the components between the slashes,
    followed by the return of the last one; the fuel given by [dir_namev] is
    never used up. *)
Lemma dir_namev_loop_walk (fuel : nat) :
  forall (cur : string) (dir : option vno) (s : kstate D),
    (String.length cur < fuel)%nat ->
    dir_namev_loop drv NAME_LEN fuel dir cur s
    = (resolve_components drv NAME_LEN (removelast (split_slash cur)) dir
       ≫= fun r => return_basename r (List.last (split_slash cur) EmptyString)) s.
Proof.
  induction fuel as [|fuel IH]; intros cur dir s Hfuel; [lia|].
  cbn [dir_namev_loop].
  destruct (String.eqb cur "") eqn:He.
  - apply String.eqb_eq in He. subst cur. cbn [split_slash removelast List.last].
    cbn [resolve_components]. rewrite bind_ret_l. reflexivity.
  - destruct (strchr cur "/") as [i|] eqn:Es.
    + destruct (strchr_some cur i Es) as (Hsplit & Hcur & Hlen & Hlt).
      rewrite Hsplit.
      rewrite removelast_cons, last_cons by apply split_slash_nonempty.
      remember (str_take i cur) as c eqn:Hc.
      remember (str_advance (S i) cur) as rest eqn:Hrest.
      clear Hc Hrest Hsplit He Es. cbn [resolve_components].
      destruct dir as [d|]; [|rewrite bind_ret_l; reflexivity].
      rewrite bind_assoc. apply bind_ext. intros vn s1.
      assert (Hstrlen : strlen c = Z.of_nat i) by (unfold strlen; congruence).
      rewrite Hstrlen.
      destruct (negb (S_ISDIR (vn_mode vn))).
      { rewrite bind_assoc. apply bind_ext. intros _ s2.
        rewrite bind_ret_l. reflexivity. }
      destruct (NAME_LEN <? Z.of_nat i).
      { rewrite bind_assoc. apply bind_ext. intros _ s2.
        rewrite bind_ret_l. reflexivity. }
      rewrite bind_assoc.
      transitivity
        ((lookup drv NAME_LEN (Some d) (c ++ "/") (strlen c)
          ≫= fun '(ret, result) =>
               if ret <? 0 then vput (Some d);; mret (inl ret)
               else vput (Some d);;
                    dir_namev_loop drv NAME_LEN fuel result rest) s1).
      { unfold mbind at 1 3, M_bind at 1 3.
        rewrite Hcur at 1. rewrite <- Hstrlen.
        rewrite lookup_rest_irrelevant. reflexivity. }
      rewrite Hstrlen. apply bind_ext. intros [ret next] s2.
      destruct (ret <? 0).
      { rewrite bind_assoc. apply bind_ext. intros _ s3.
        rewrite bind_ret_l. reflexivity. }
      rewrite bind_assoc. apply bind_ext. intros _ s3.
      apply IH. lia.
    + rewrite (strchr_none cur Es). cbn [removelast List.last resolve_components].
      rewrite bind_ret_l. unfold return_basename. rewrite He. reflexivity.
Qed.






Lemma start_of_rest (s : kstate D) (p : string) (base : option vno) :
  snd (start_of s p base) = strip_root p.
Proof.
  destruct p as [|[[] [] [] [] [] [] [] []] r]; destruct base; reflexivity.
Qed.







End PathFacts.

(** ** The namespace lock *)

Section LockFacts.
Context {D : Type} (drv : vfs_driver D).
Variables NAME_LEN MAXPATHLEN : Z.

(** Name resolution takes no lock and changes no directory. *)
Lemma lookup_neutral (dir : option vno) (name : string) (len : Z) :
  only neutral (lookup drv NAME_LEN dir name len).
Proof. unfold lookup. only_auto. Qed.

Lemma dir_namev_loop_neutral (fuel : nat) :
  forall dir cur, only neutral (dir_namev_loop drv NAME_LEN fuel dir cur).
Proof.
  induction fuel as [|fuel IH]; intros dir cur; cbn [dir_namev_loop].
  - apply only_fault.
  - pose proof lookup_neutral as Hl. pose proof IH as IH'.
    repeat first [ apply IH' | apply Hl | only_step ].
Qed.

Lemma dir_namev_neutral (pathname : string) (base : option vno) :
  only neutral (dir_namev drv NAME_LEN MAXPATHLEN pathname base).
Proof.
  unfold dir_namev. pose proof dir_namev_loop_neutral as Hl.
  repeat first [ apply Hl | only_step ].
Qed.

Lemma lock_scan_app (h : bool) (a b : list event) :
  lock_scan h (a ++ b)
  = match lock_scan h a with
    | Some h1 => lock_scan h1 b
    | None => None
    end.
Proof.
  revert h. induction a as [|e a IH]; intros h; [reflexivity|].
  destruct e; simpl; try apply IH.
  - destruct h; [reflexivity | apply IH].
  - destruct h; [apply IH | reflexivity].
  - destruct (mutates o); [|apply IH].
    destruct (Bool.eqb h (vop_eqb o OpCreate)); [apply IH | reflexivity].
Qed.

Lemma lock_scan_neutral (h : bool) (tr : list event) :
  Forall neutral tr -> lock_scan h tr = Some h.
Proof.
  induction 1 as [|e tr He _ IH]; [reflexivity|].
  destruct e; simpl in *; try contradiction; try exact IH.
  rewrite He. exact IH.
Qed.

Lemma locks_ret {A} (h : bool) (a : A) : locks h (mret a : M D A) h.
Proof. intros s. reflexivity. Qed.

Lemma locks_bind {A B} (h h1 h2 : bool) (m : M D A) (f : A -> M D B) :
  locks h m h1 -> (forall a, locks h1 (f a) h2) -> locks h (m ≫= f) h2.
Proof.
  intros Hm Hf s. specialize (Hm s). unfold mbind, M_bind.
  destruct (m s) as [t1 [a s1| |]]; simpl in *.
  - specialize (Hf a s1). destruct (f a s1) as [t2 o]. simpl in *.
    rewrite lock_scan_app. destruct (lock_scan h t1); [|contradiction].
    subst. exact Hf.
  - destruct (lock_scan h t1); auto.
  - destruct (lock_scan h t1); auto.
Qed.

Lemma locks_neutral {A} (h : bool) (m : M D A) :
  only neutral m -> locks h m h.
Proof.
  intros Hm s. rewrite (lock_scan_neutral h _ (Hm s)).
  destruct (snd (m s)); auto.
Qed.

Lemma locks_lock : locks false (kmutex_lock : M D unit) true.
Proof. intros s. reflexivity. Qed.

Lemma locks_unlock : locks true (kmutex_unlock : M D unit) false.
Proof. intros s. reflexivity. Qed.

(** A driver call through the operations table: [create] under the lock,
    the other mutations without it. *)
Lemma locks_call_op {A} (h : bool) (o : vop) (v : vno)
    (f : fs_t D -> fs_t D * A) :
  mutates o = true ->
  h = vop_eqb o OpCreate ->
  locks h (call_op o v f) h.
Proof.
  intros Hmut Hh s. unfold call_op, mbind, M_bind, vnode_at.
  destruct (fs_vnodes (k_fs s) !! v) as [vn|]; [|exact I].
  destruct (has_op vn o); [|exact I].
  unfold emit, drv_call. destruct (f (k_fs s)) as [fs' a]. simpl.
  rewrite Hmut. subst h. rewrite Bool.eqb_reflx. reflexivity.
Qed.

Lemma locks_panic {A} (h h' : bool) : locks h (panic : M D A) h'.
Proof. intros s. exact I. Qed.

Lemma locks_fault {A} (h h' : bool) : locks h (fault : M D A) h'.
Proof. intros s. exact I. Qed.

(** Lock goals are settled along the syntax of the computation: each step
    of a bind either is one of the calls below or is neutral. *)
Ltac locks_prim :=
  first
    [ apply locks_ret | apply locks_panic | apply locks_fault
    | apply locks_lock | apply locks_unlock
    | apply locks_call_op; reflexivity
    | assumption
    | apply locks_neutral;
      first [ apply lookup_neutral | apply dir_namev_neutral
            | solve [only_auto] ] ].

Ltac locks_step :=
  lazymatch goal with
  | |- locks _ (mbind _ _) _ => eapply locks_bind; [locks_prim | intros; cbv beta]
  | |- locks _ (if ?b then _ else _) _ => destruct b
  | |- locks _ (match ?x with _ => _ end) _ => destruct x
  | |- _ => locks_prim
  end.

Ltac locks_auto := repeat locks_step.

Lemma locks_open_namev (path : option string) (flag : Z) (base : option vno) :
  locks false (open_namev drv NAME_LEN MAXPATHLEN path flag base) false.
Proof. unfold open_namev. locks_auto. Qed.

Lemma locks_do_mknod (path : option string) (mode devid : Z) :
  locks false (do_mknod drv NAME_LEN MAXPATHLEN path mode devid) false.
Proof. unfold do_mknod. locks_auto. Qed.

Lemma locks_do_mkdir (path : option string) :
  locks false (do_mkdir drv NAME_LEN MAXPATHLEN path) false.
Proof. unfold do_mkdir. locks_auto. Qed.

Lemma locks_do_rmdir (path : option string) :
  locks false (do_rmdir drv NAME_LEN MAXPATHLEN path) false.
Proof. unfold do_rmdir. locks_auto. Qed.

Lemma locks_do_unlink (path : option string) :
  locks false (do_unlink drv NAME_LEN MAXPATHLEN path) false.
Proof. unfold do_unlink. locks_auto. Qed.

Lemma locks_do_link (from to : option string) :
  locks false (do_link drv NAME_LEN MAXPATHLEN from to) false.
Proof.
  unfold do_link. destruct from as [pfrom|], to as [pto|]; try locks_prim.
  destruct ((MAXPATHLEN <? strlen pfrom) || (MAXPATHLEN <? strlen pto));
    [locks_prim|].
  eapply locks_bind; [apply locks_open_namev | intros; cbv beta].
  locks_auto.
Qed.

(** C6, as the code has it: of the namespace-mutating paths only the create
    window of [open_namev] calls the driver with [vfsm] held; [do_mknod],
    [do_mkdir], [do_rmdir], [do_unlink] and [do_link] call their driver
    operation without the lock (in [do_link] the lock taken inside
    [open_namev] is released before the link operation).  Each of the six
    takes the lock only when it is free and returns with the lock free, on
    every exit path. *)
Theorem namespace_lock_discipline
    (s : kstate D) (path from to : option string) (flag mode devid : Z)
    (base : option vno) :
  lock_discipline (open_namev drv NAME_LEN MAXPATHLEN path flag base s)
  /\ lock_discipline (do_mknod drv NAME_LEN MAXPATHLEN path mode devid s)
  /\ lock_discipline (do_mkdir drv NAME_LEN MAXPATHLEN path s)
  /\ lock_discipline (do_rmdir drv NAME_LEN MAXPATHLEN path s)
  /\ lock_discipline (do_unlink drv NAME_LEN MAXPATHLEN path s)
  /\ lock_discipline (do_link drv NAME_LEN MAXPATHLEN from to s).
Proof.
  repeat split.
  - apply (locks_open_namev path flag base s).
  - apply (locks_do_mknod path mode devid s).
  - apply (locks_do_mkdir path s).
  - apply (locks_do_rmdir path s).
  - apply (locks_do_unlink path s).
  - apply (locks_do_link from to s).
Qed.

End LockFacts.

(** ** Runs on the in-memory filesystem *)

Import RamFS.

(** C1, at its failing input: with a basename longer than NAME_LEN,
    [do_unlink] and [do_mknod] return [-ENAMETOOLONG] holding the reference
    that [dir_namev] took on the parent directory (here the root): one
    acquisition, no release, and the root's count is one higher on return. *)
Theorem error_exit_leaks_parent_reference :
  let unlinked := do_unlink driver NAME_LEN MAXPATHLEN (Some overlong) boot in
  let made := do_mknod driver NAME_LEN MAXPATHLEN (Some overlong) S_IFCHR 7 boot in
  (fst unlinked = [EvVref 0%nat]
   /\ count_ev (is_vref 0%nat) (fst unlinked) = 1%nat
   /\ count_ev (is_vput 0%nat) (fst unlinked) = 0%nat
   /\ match snd unlinked with
      | Done r s' => r = - ENAMETOOLONG
                     /\ vnode_refs s' 0%nat = vnode_refs boot 0%nat + 1
      | _ => False
      end)
  /\ (fst made = [EvVref 0%nat]
      /\ match snd made with
         | Done r s' => r = - ENAMETOOLONG
                        /\ vnode_refs s' 0%nat = vnode_refs boot 0%nat + 1
         | _ => False
         end).
Proof. vm_compute. repeat split; reflexivity. Qed.

(** Closing descriptor 1 of [boot], the only reference of file 0. *)
Lemma do_close_releases_slot_reference_witness :
  exists s',
    do_close NFILES 1 boot = ([EvFget 0%nat; EvFput 0%nat; EvFput 0%nat], Done 0 s')
    /\ p_files s' !! Z.to_nat 1 = Some None
    /\ file_refs s' 0%nat = file_refs boot 0%nat - 1
    /\ count_ev (is_fget 0%nat) [EvFget 0%nat; EvFput 0%nat; EvFput 0%nat] = 1%nat
    /\ count_ev (is_fput 0%nat) [EvFget 0%nat; EvFput 0%nat; EvFput 0%nat] = 2%nat.
Proof.
  apply (do_close_releases_slot_reference NFILES boot 1 0%nat).
  unfold open_on. split; [unfold NFILES; lia|]. split; [reflexivity|].
  eexists. split; [vm_compute; reflexivity|].
  split; [simpl; lia|]. eexists. vm_compute. reflexivity.
Defined.

(** C3, at its failing inputs, for any driver and any state: [do_read],
    [do_write], [do_dup] and [do_dup2] index [p_files] with the descriptor
    before they compare it with the bounds, so descriptor -1 is a read
    outside the array; all six calls that test [fd > NFILES] or read the
    slot first let descriptor NFILES through to a read one past the array.
    Only [do_close] returns [-EBADF] for both, through the NULL of [fget]. *)
Theorem out_of_range_descriptor_reaches_slot
    {D : Type} (drv : vfs_driver D) (s : kstate D) (n : Z) :
  (do_read drv NFILES (-1) n s = ([], Fault)
   /\ do_write drv NFILES (-1) n s = ([], Fault)
   /\ do_dup NFILES (-1) s = ([], Fault)
   /\ do_dup2 NFILES (-1) 0 s = ([], Fault))
  /\ (do_read drv NFILES NFILES n s = ([], Fault)
      /\ do_write drv NFILES NFILES n s = ([], Fault)
      /\ do_dup NFILES NFILES s = ([], Fault)
      /\ do_dup2 NFILES NFILES 0 s = ([], Fault)
      /\ do_lseek NFILES NFILES 0 SEEK_SET s = ([], Fault)
      /\ do_getdent drv NFILES SIZEOF_DIRENT NFILES s = ([], Fault))
  /\ (do_close NFILES (-1) s = ([], Done (- EBADF) s)
      /\ do_close NFILES NFILES s = ([], Done (- EBADF) s)).
Proof. repeat split; reflexivity. Qed.

(** C4, at its failing input: descriptor 0 is free, [get_empty_fd] returns
    it, and [do_dup] of the open descriptor 1 takes the 0 for a failure: it
    gives the reference back and returns [-EMFILE], leaving slot 0 empty.
    With no free slot the negative sentinel is taken for a descriptor and
    the store goes outside the array. *)
Theorem do_dup_refuses_descriptor_zero :
  p_files boot !! 0%nat = Some None
  /\ get_empty_fd NFILES boot = ([], Done 0 boot)
  /\ fst (do_dup NFILES 1 boot) = [EvFget 0%nat; EvFput 0%nat]
  /\ match snd (do_dup NFILES 1 boot) with
     | Done r s' => r = - EMFILE /\ p_files s' !! 0%nat = Some None
                    /\ file_refs s' 0%nat = file_refs boot 0%nat
     | _ => False
     end
  /\ get_empty_fd NFILES boot_full = ([], Done (- EMFILE) boot_full)
  /\ do_dup NFILES 1 boot_full = ([EvFget 0%nat], Fault).
Proof. vm_compute. repeat split; reflexivity. Qed.

(** C5, at its failing input: creating the device node [/a/tty],
    [do_mknod] releases the parent directory [/a] (vnode 1) and then calls
    the driver's mknod on it. *)
Theorem do_mknod_releases_parent_before_driver :
  fst (do_mknod driver NAME_LEN MAXPATHLEN (Some "/a/tty"%string) S_IFCHR 7 boot)
  = [EvVref 0%nat; EvLookup 0%nat "a"; EvOp OpLookup 0%nat; EvVput 0%nat;
     EvLookup 1%nat "tty"; EvOp OpLookup 1%nat;
     EvVput 1%nat; EvOp OpMknod 1%nat]
  /\ match snd (do_mknod driver NAME_LEN MAXPATHLEN (Some "/a/tty"%string)
                  S_IFCHR 7 boot) with
     | Done r _ => r = 0
     | _ => False
     end.
Proof. vm_compute. split; reflexivity. Qed.

(** The claim of C6 fails on [do_mkdir]: creating [/a/d], the driver's
    mkdir is called on [/a] and the lock is never taken. *)
Lemma do_mkdir_calls_driver_unlocked :
  fst (do_mkdir driver NAME_LEN MAXPATHLEN (Some "/a/d"%string) boot)
  = [EvVref 0%nat; EvLookup 0%nat "a"; EvOp OpLookup 0%nat; EvVput 0%nat;
     EvLookup 1%nat "d"; EvOp OpLookup 1%nat;
     EvOp OpMkdir 1%nat; EvVput 1%nat]
  /\ mutations_locked false
       (fst (do_mkdir driver NAME_LEN MAXPATHLEN (Some "/a/d"%string) boot))
     = false.
Proof. vm_compute. split; reflexivity. Qed.

(** C7, at its failing input: the directory behind descriptor 2 cannot be
    read, the driver's readdir returns the error -5, and [do_getdent] has
    added it to [f_pos] before testing it: the call returns -5 and leaves
    the open file (file 1) at offset -5. *)
Theorem do_getdent_error_moves_f_pos :
  (f_pos <$> k_files boot_io_error !! 1%nat) = Some 0
  /\ fst (do_getdent driver NFILES SIZEOF_DIRENT 2 boot_io_error)
     = [EvFget 1%nat; EvOp OpReaddir 1%nat; EvFput 1%nat]
  /\ match snd (do_getdent driver NFILES SIZEOF_DIRENT 2 boot_io_error) with
     | Done r s' => r = - 5 /\ (f_pos <$> k_files s' !! 1%nat) = Some (- 5)
     | _ => False
     end.
Proof. vm_compute. repeat split; reflexivity. Qed.



(** Looking up [x] in the directory of [boot_bare] that has no lookup
    entry. *)
Lemma lookup_without_entry_panics_witness :
  lookup driver NAME_LEN (Some 5%nat) "x" 1 boot_bare
  = ([EvLookup 5%nat (counted "x" 1)], Panic).
Proof.
  apply (lookup_without_entry_panics driver NAME_LEN boot_bare 5%nat bare_dir
           [OpMkdir] "x" 1).
  - vm_compute. reflexivity.
  - reflexivity.
  - reflexivity.
  - reflexivity.
  - unfold NAME_LEN. lia.
  - discriminate.
Defined.

(** The root path on [boot], whose root (vnode 0) is a directory. *)
Lemma root_path_resolves_witness :
  (exists s1,
      dir_namev driver NAME_LEN MAXPATHLEN "/" None boot
      = ([EvVref 0%nat], Done (inr (0, EmptyString, Some 0%nat)) s1)
      /\ vnode_refs s1 0%nat = vnode_refs boot 0%nat + 1)
  /\ (exists s2,
        open_namev driver NAME_LEN MAXPATHLEN (Some "/"%string) 0 None boot
        = ([EvVref 0%nat; EvLock; EvLookup 0%nat EmptyString; EvVref 0%nat;
            EvVput 0%nat; EvUnlock],
           Done (0, Some 0%nat) s2)
        /\ vnode_refs s2 0%nat = vnode_refs boot 0%nat + 1).
Proof.
  destruct (root_path_resolves driver NAME_LEN MAXPATHLEN boot None 0%nat
              (dir_vnode 2)) as [Hdir Hopen].
  - unfold MAXPATHLEN. lia.
  - unfold NAME_LEN. lia.
  - reflexivity.
  - vm_compute. reflexivity.
  - split; [exact Hdir | apply Hopen; reflexivity].
Defined.

(** * Further properties *)

(** ** Open files: borrowing a reference *)

Section FileRuns.
Context {D : Type}.
Variable NFILES : Z.

(** A sum that fits in 32 bits is the mathematical sum. *)
Lemma wrap_int_id (z : Z) : INT_MIN <= z <= INT_MAX -> wrap_int z = z.
Proof.
  unfold INT_MIN, INT_MAX, wrap_int. intros Hz.
  rewrite Z.mod_small by lia. lia.
Qed.

Lemma run_trace_eq {A} (run : list event * outcome D A) t t' o :
  run = (t', o) -> t' = t -> run = (t, o).
Proof. intros -> ->. reflexivity. Qed.

Lemma run_result_eq {A} (run : list event * outcome D A) t t' (a : A) s s' :
  run = (t', Done a s') -> t' = t -> s' = s -> run = (t, Done a s).
Proof. intros -> -> ->. reflexivity. Qed.

Lemma set_files_twice (s : kstate D) (m1 m2 : gmap fno file_t) :
  set_files (set_files s m1) m2 = set_files s m2.
Proof. reflexivity. Qed.

Lemma set_files_same (s : kstate D) (f : fno) (r : file_t) :
  k_files s !! f = Some r -> set_files s (<[f := r]> (k_files s)) = s.
Proof.
  intros Hf. destruct s as [fs files pf cwd root]. unfold set_files. simpl in *.
  rewrite (insert_id _ _ _ Hf). reflexivity.
Qed.

(** Taking a reference and giving it back leaves the record as it was. *)
Lemma borrow_refcount (r : file_t) :
  f_with_refcount (f_with_refcount r (f_refcount r + 1))
    (f_refcount (f_with_refcount r (f_refcount r + 1)) - 1) = r.
Proof. destruct r. unfold f_with_refcount. simpl. f_equal. lia. Qed.

Lemma borrow_refcount_pos (r : file_t) (p : Z) :
  f_with_refcount (f_with_pos (f_with_refcount r (f_refcount r + 1)) p)
    (f_refcount (f_with_pos (f_with_refcount r (f_refcount r + 1)) p) - 1)
  = f_with_pos r p.
Proof. destruct r. unfold f_with_refcount, f_with_pos. simpl. f_equal. lia. Qed.

(** [fget] on an open descriptor. *)
Lemma run_fget_open (s : kstate D) (fd : Z) (f : fno) (r : file_t) :
  open_file NFILES s fd f r ->
  fget NFILES fd s
  = ([EvFget f],
     Done (Some f)
       (set_files s (<[f := f_with_refcount r (f_refcount r + 1)]> (k_files s)))).
Proof. intros (Hfd & Hslot & Hf & _). apply run_fget; assumption. Qed.

(** [fput] of a borrowed reference: the state in which [f] has the record
    [r1] with one reference more than the slot's becomes the state in which
    it has [r1] with that reference given back. *)
Lemma run_fput_borrowed (s : kstate D) (m : gmap fno file_t) (f : fno)
    (r1 : file_t) :
  2 <= f_refcount r1 ->
  fput (Some f) (set_files s (<[f := r1]> m))
  = ([EvFput f],
     Done tt (set_files s (<[f := f_with_refcount r1 (f_refcount r1 - 1)]> m))).
Proof.
  intros Hn.
  rewrite (run_fput_keep (set_files s (<[f := r1]> m)) f r1).
  - rewrite set_files_twice. simpl. rewrite insert_insert_eq. reflexivity.
  - simpl. apply lookup_insert_eq.
  - lia.
Qed.

Lemma run_store_file (s : kstate D) (m : gmap fno file_t) (f : fno)
    (r0 r1 : file_t) :
  store_file f r1 (set_files s (<[f := r0]> m))
  = ([], Done tt (set_files s (<[f := r1]> m))).
Proof.
  unfold store_file. rewrite set_files_twice. simpl.
  rewrite insert_insert_eq. reflexivity.
Qed.

Lemma run_file_at_set (s : kstate D) (m : gmap fno file_t) (f : fno)
    (r1 : file_t) :
  file_at f (set_files s (<[f := r1]> m))
  = ([], Done r1 (set_files s (<[f := r1]> m))).
Proof. apply run_file_at. simpl. apply lookup_insert_eq. Qed.

Lemma run_seek_to_neg (s : kstate D) (m : gmap fno file_t) (f : fno)
    (r1 : file_t) (target : Z) :
  2 <= f_refcount r1 ->
  target < 0 ->
  seek_to (Some f) f target (set_files s (<[f := r1]> m))
  = ([EvFput f],
     Done (Some (- EINVAL))
       (set_files s (<[f := f_with_refcount r1 (f_refcount r1 - 1)]> m))).
Proof.
  intros Hn Ht. unfold seek_to. replace (target <? 0) with true by lia.
  eapply run_trace_eq.
  { run_by ltac:(apply run_fput_borrowed; exact Hn). apply run_ret. }
  reflexivity.
Qed.

Lemma run_seek_to_ok (s : kstate D) (m : gmap fno file_t) (f : fno)
    (r1 : file_t) (target : Z) :
  2 <= f_refcount r1 ->
  0 <= target ->
  seek_to (Some f) f target (set_files s (<[f := r1]> m))
  = ([EvFput f],
     Done None
       (set_files s (<[f := f_with_refcount (f_with_pos r1 target)
                                (f_refcount r1 - 1)]> m))).
Proof.
  intros Hn Ht. unfold seek_to. replace (target <? 0) with false by lia.
  eapply run_trace_eq.
  { run_by ltac:(apply run_file_at_set).
    run_by ltac:(apply run_store_file).
    run_by ltac:(apply run_fput_borrowed; exact Hn). apply run_ret. }
  reflexivity.
Qed.

(** [do_lseek] on an open descriptor with one of the three origins. *)
Lemma run_do_lseek (s : kstate D) (fd : Z) (f : fno) (r : file_t)
    (vn : vnode_t) (offset whence : Z) :
  open_file NFILES s fd f r ->
  fs_vnodes (k_fs s) !! f_vnode r = Some vn ->
  whence = SEEK_SET \/ whence = SEEK_CUR \/ whence = SEEK_END ->
  do_lseek NFILES fd offset whence s
  = ([EvFget f; EvFput f],
     if seek_target whence offset r vn <? 0 then Done (- EINVAL) s
     else Done (seek_target whence offset r vn)
            (set_files s (<[f := f_with_pos r (seek_target whence offset r vn)]>
                            (k_files s)))).
Proof.
  intros Hopen Hv Hwhence.
  pose proof Hopen as (Hfd & Hslot & Hf & Hn).
  set (r1 := f_with_refcount r (f_refcount r + 1)).
  assert (Hn1 : 2 <= f_refcount r1) by (simpl; lia).
  assert (Hback : f_with_refcount r1 (f_refcount r1 - 1) = r)
    by apply borrow_refcount.
  assert (Hv1 : forall m, fs_vnodes (k_fs (set_files s m)) !! f_vnode r = Some vn)
    by (intros m; exact Hv).
  unfold do_lseek.
  replace (fd <? 0) with false by lia. replace (NFILES <? fd) with false by lia.
  cbn [orb].
  destruct Hwhence as [-> | [-> | ->]]; unfold seek_target;
    cbn [Z.eqb SEEK_SET SEEK_CUR SEEK_END Pos.eqb negb andb];
    match goal with |- context [if ?t <? 0 then Done _ _ else _] =>
      destruct (Z.ltb_spec t 0) as [Hneg | Hpos] end;
    (eapply run_trace_eq;
     [ run_by ltac:(apply run_slot_get; [exact Hfd | exact Hslot]);
       cbn [is_null];
       run_by ltac:(apply run_fget_open; exact Hopen);
       cbn [is_null negb];
       run_by ltac:(apply run_ret); fold r1
     | ]).
  - run_by ltac:(apply run_seek_to_neg; [exact Hn1 | exact Hneg]).
    rewrite Hback, (set_files_same s f r Hf). apply run_ret.
  - reflexivity.
  - run_by ltac:(apply run_seek_to_ok; [exact Hn1 | exact Hpos]).
    run_by ltac:(apply run_ret). run_by ltac:(apply run_ret).
    run_by ltac:(apply run_file_at_set).
    unfold r1. rewrite borrow_refcount_pos. apply run_ret.
  - reflexivity.
  - run_by ltac:(apply run_ret).
    run_by ltac:(eapply run_bind;
                 [ apply run_file_at_set
                 | cbv beta; apply run_seek_to_neg; [exact Hn1 | exact Hneg] ]).
    rewrite Hback, (set_files_same s f r Hf). apply run_ret.
  - reflexivity.
  - run_by ltac:(apply run_ret).
    run_by ltac:(eapply run_bind;
                 [ apply run_file_at_set
                 | cbv beta; apply run_seek_to_ok; [exact Hn1 | exact Hpos] ]).
    run_by ltac:(apply run_ret).
    run_by ltac:(apply run_file_at_set).
    unfold r1. rewrite borrow_refcount_pos. apply run_ret.
  - reflexivity.
  - run_by ltac:(apply run_ret). run_by ltac:(apply run_ret).
    run_by ltac:(eapply run_bind;
                 [ apply run_file_at_set
                 | cbv beta; eapply run_bind;
                   [ apply run_vnode_at, Hv1
                   | cbv beta; apply run_seek_to_neg; [exact Hn1 | exact Hneg] ] ]).
    rewrite Hback, (set_files_same s f r Hf). apply run_ret.
  - reflexivity.
  - run_by ltac:(apply run_ret). run_by ltac:(apply run_ret).
    run_by ltac:(eapply run_bind;
                 [ apply run_file_at_set
                 | cbv beta; eapply run_bind;
                   [ apply run_vnode_at, Hv1
                   | cbv beta; apply run_seek_to_ok; [exact Hn1 | exact Hpos] ] ]).
    run_by ltac:(apply run_file_at_set).
    unfold r1. rewrite borrow_refcount_pos. apply run_ret.
  - reflexivity.
Qed.

(** X1. [do_lseek] on an open descriptor with one of the three origins
    takes and returns one reference.  The target is the offset itself for
    SEEK_SET, and the sum, made in 32 bits, of the offset and the current
    position for SEEK_CUR or the length of the file for SEEK_END.  A
    negative target gives [-EINVAL] and leaves the state as it was, any
    other target becomes the offset of the open file and the value
    returned, and nothing else changes: the offset of an open file never
    becomes negative through [do_lseek]. *)
Theorem do_lseek_open (s : kstate D) (fd : Z) (f : fno) (r : file_t)
    (vn : vnode_t) (offset whence : Z) :
  open_file NFILES s fd f r ->
  fs_vnodes (k_fs s) !! f_vnode r = Some vn ->
  whence = SEEK_SET \/ whence = SEEK_CUR \/ whence = SEEK_END ->
  do_lseek NFILES fd offset whence s
  = ([EvFget f; EvFput f],
     if seek_target whence offset r vn <? 0 then Done (- EINVAL) s
     else Done (seek_target whence offset r vn)
            (set_files s (<[f := f_with_pos r (seek_target whence offset r vn)]>
                            (k_files s)))).
Proof. apply run_do_lseek. Qed.

(** X2. [do_lseek] refuses: a descriptor below 0 or an empty slot gives
    [-EBADF]; on an occupied slot an origin other than the three known ones
    gives [-EINVAL].  In each case no reference is taken and the state is
    unchanged. *)
Theorem do_lseek_rejects (s : kstate D) (fd offset whence : Z)
    (slot : option fno) :
  (fd < 0 -> do_lseek NFILES fd offset whence s = ([], Done (- EBADF) s))
  /\ (0 <= fd < NFILES ->
      p_files s !! Z.to_nat fd = Some slot ->
      (slot = None ->
       do_lseek NFILES fd offset whence s = ([], Done (- EBADF) s))
      /\ (slot <> None ->
          whence <> SEEK_SET -> whence <> SEEK_CUR -> whence <> SEEK_END ->
          do_lseek NFILES fd offset whence s = ([], Done (- EINVAL) s))).
Proof.
  split.
  - intros Hfd. unfold do_lseek. replace (fd <? 0) with true by lia.
    reflexivity.
  - intros Hfd Hslot. unfold do_lseek.
    replace (fd <? 0) with false by lia.
    replace (NFILES <? fd) with false by lia. cbn [orb].
    split.
    + intros ->. rewrite <- (app_nil_l []).
      run_by ltac:(apply run_slot_get; [exact Hfd | exact Hslot]).
      reflexivity.
    + intros Hsome H0 H1 H2. rewrite <- (app_nil_l []).
      run_by ltac:(apply run_slot_get; [exact Hfd | exact Hslot]).
      destruct slot; [|congruence]. cbn [is_null].
      replace (whence =? SEEK_SET) with false by lia.
      replace (whence =? SEEK_CUR) with false by lia.
      replace (whence =? SEEK_END) with false by lia. reflexivity.
Qed.

(** X3. [do_close] of a descriptor that is not open (below 0, at or above
    NFILES, or with an empty slot) returns [-EBADF], takes no reference and
    leaves the state unchanged. *)
Theorem do_close_not_open (s : kstate D) (fd : Z) :
  fd < 0 \/ NFILES <= fd \/ p_files s !! Z.to_nat fd = Some None ->
  do_close NFILES fd s = ([], Done (- EBADF) s).
Proof.
  intros Hfd. unfold do_close.
  destruct ((fd <? 0) || (NFILES <? fd)) eqn:Hguard; [reflexivity|].
  apply orb_false_elim in Hguard as [Hlo Hhi].
  assert (Hget : fget NFILES fd s = ([], Done None s)).
  { unfold fget, in_range. destruct ((0 <=? fd) && (fd <? NFILES)) eqn:Hin;
      [|reflexivity].
    destruct Hfd as [Hfd | [Hfd | Hslot]]; [lia | lia |].
    rewrite <- (app_nil_l []).
    run_by ltac:(apply run_slot_get; [lia | exact Hslot]). reflexivity. }
  rewrite <- (app_nil_l []). run_with Hget. reflexivity.
Qed.

(** [do_close] of a descriptor whose file has other references. *)
Lemma run_do_close_shared (s : kstate D) (fd : Z) (f : fno) (r : file_t) :
  open_file NFILES s fd f r ->
  2 <= f_refcount r ->
  do_close NFILES fd s
  = ([EvFget f; EvFput f; EvFput f],
     Done 0
       (set_p_files
          (set_files s (<[f := f_with_refcount r (f_refcount r - 1)]> (k_files s)))
          (<[Z.to_nat fd := None]> (p_files s)))).
Proof.
  intros Hopen Hn. pose proof Hopen as (Hfd & Hslot & Hf & _).
  unfold do_close.
  replace (fd <? 0) with false by lia. replace (NFILES <? fd) with false by lia.
  cbn [orb]. eapply run_trace_eq.
  { run_by ltac:(apply run_fget_open; exact Hopen). cbn [is_null].
    run_by ltac:(apply run_slot_get; [exact Hfd | exact Hslot]). cbn [is_null].
    run_by ltac:(apply run_fput_borrowed; simpl; lia).
    rewrite borrow_refcount.
    run_by ltac:(apply run_fput_borrowed; exact Hn).
    run_by ltac:(apply (run_slot_set NFILES _ fd (Some f));
                 [exact Hfd | exact Hslot]).
    apply run_ret. }
  reflexivity.
Qed.

Lemma first_free_slot (l : list (option fno)) :
  forall (i k : Z),
    first_free l i = Some k ->
    exists j : nat, k = i + Z.of_nat j /\ l !! j = Some None.
Proof.
  induction l as [|[g|] l IH]; intros i k Hk; simpl in Hk.
  - discriminate.
  - destruct (IH _ _ Hk) as (j & -> & Hj). exists (S j). split; [lia | exact Hj].
  - injection Hk as <-. exists O. split; [lia | reflexivity].
Qed.

(** What a positive result of [get_empty_fd] says of the table. *)
Lemma get_empty_fd_positive (s : kstate D) (k : Z) :
  get_empty_fd NFILES s = ([], Done k s) ->
  0 < k ->
  0 <= k < NFILES /\ p_files s !! Z.to_nat k = Some None.
Proof.
  unfold get_empty_fd. intros Hget Hk.
  destruct (first_free (take (Z.to_nat NFILES) (p_files s)) 0) as [k'|] eqn:Hff.
  - injection Hget as <-. apply first_free_slot in Hff as (j & -> & Hj).
    apply lookup_take_Some in Hj as [Hj Hlt].
    rewrite Z.add_0_l, Nat2Z.id. split; [lia | exact Hj].
  - injection Hget as <-. unfold EMFILE in Hk. lia.
Qed.

(** [do_dup] when the allocator hands out a descriptor above 0. *)
Lemma run_do_dup (s : kstate D) (fd : Z) (f : fno) (r : file_t) (k : Z) :
  open_file NFILES s fd f r ->
  get_empty_fd NFILES s = ([], Done k s) ->
  0 < k ->
  do_dup NFILES fd s
  = ([EvFget f],
     Done k
       (set_p_files
          (set_files s (<[f := f_with_refcount r (f_refcount r + 1)]> (k_files s)))
          (<[Z.to_nat k := Some f]> (p_files s)))).
Proof.
  intros Hopen Hget Hk. pose proof Hopen as (Hfd & Hslot & Hf & _).
  destruct (get_empty_fd_positive s k Hget Hk) as [Hkr Hfree].
  unfold do_dup. eapply run_trace_eq.
  { run_by ltac:(apply run_slot_get; [exact Hfd | exact Hslot]). cbn [is_null].
    replace (fd <? 0) with false by lia.
    replace (NFILES <? fd) with false by lia. cbn [orb].
    run_by ltac:(apply run_fget_open; exact Hopen). cbn [is_null negb].
    run_by ltac:(apply run_ret).
    run_by ltac:(unfold get_empty_fd in *; simpl p_files;
                 destruct (first_free (take (Z.to_nat NFILES) (p_files s)) 0);
                 injection Hget as ->; reflexivity).
    replace (k =? 0) with false by lia.
    run_by ltac:(apply (run_slot_set NFILES _ k None); [exact Hkr | exact Hfree]).
    apply run_ret. }
  reflexivity.
Qed.

(** X4. [do_dup] of an open descriptor, when the allocator hands out a
    descriptor [k] above 0: the open file is installed at [k] with one more
    reference, [k] is returned, and nothing else changes. *)
Theorem do_dup_installs (s : kstate D) (fd : Z) (f : fno) (r : file_t) (k : Z) :
  open_file NFILES s fd f r ->
  get_empty_fd NFILES s = ([], Done k s) ->
  0 < k ->
  do_dup NFILES fd s
  = ([EvFget f],
     Done k
       (set_p_files
          (set_files s (<[f := f_with_refcount r (f_refcount r + 1)]> (k_files s)))
          (<[Z.to_nat k := Some f]> (p_files s)))).
Proof. apply run_do_dup. Qed.

(** X5. When the allocator hands out a descriptor [k] above 0 (descriptor
    0 is taken and some other is free), duplicating an open descriptor and
    closing the duplicate restores the state: the call of [do_close]
    returns 0, and the descriptor table and every reference count are as
    before. *)
Theorem do_dup_then_close (s : kstate D) (fd : Z) (f : fno) (r : file_t) (k : Z) :
  open_file NFILES s fd f r ->
  get_empty_fd NFILES s = ([], Done k s) ->
  0 < k ->
  (do_dup NFILES fd ≫= do_close NFILES) s
  = ([EvFget f; EvFget f; EvFput f; EvFput f], Done 0 s).
Proof.
  intros Hopen Hget Hk. pose proof Hopen as (Hfd & Hslot & Hf & Hn).
  destruct (get_empty_fd_positive s k Hget Hk) as [Hkr Hfree].
  assert (Hlen : (Z.to_nat k < length (p_files s))%nat)
    by (eapply lookup_lt_Some; exact Hfree).
  eapply run_result_eq.
  { run_by ltac:(apply (run_do_dup s fd f r k); assumption).
    apply run_do_close_shared.
    - split; [exact Hkr|]. split; [|split].
      + simpl. apply list_lookup_insert_eq. exact Hlen.
      + simpl. apply lookup_insert_eq.
      + simpl. lia.
    - simpl. lia. }
  { reflexivity. }
  destruct s as [fs files pf cwd root]. unfold set_p_files, set_files.
  simpl in *. rewrite insert_insert_eq, list_insert_insert_eq.
  rewrite (list_insert_id _ _ _ Hfree).
  change (f_refcount r + 1)
    with (f_refcount (f_with_refcount r (f_refcount r + 1))) at 2.
  rewrite borrow_refcount, (insert_id files f r Hf). reflexivity.
Qed.

(** [do_close] of an open descriptor, whether or not it holds the last
    reference: the slot is emptied, the file loses one reference, the other
    files are untouched. *)
Lemma run_do_close_open (s : kstate D) (fd : Z) (g : fno) (rg : file_t) :
  open_file NFILES s fd g rg ->
  is_Some (fs_vnodes (k_fs s) !! f_vnode rg) ->
  exists s1,
    do_close NFILES fd s = ([EvFget g; EvFput g; EvFput g], Done 0 s1)
    /\ p_files s1 = <[Z.to_nat fd := None]> (p_files s)
    /\ (forall f, f <> g -> k_files s1 !! f = k_files s !! f)
    /\ file_refs s1 g = file_refs s g - 1.
Proof.
  intros Hopen [vn Hv]. pose proof Hopen as (Hfd & Hslot & Hg & Hn).
  rewrite (file_refs_lookup s g rg Hg).
  destruct (Z.eq_dec (f_refcount rg) 1) as [Hone | Hmore].
  - destruct (run_fput_last (set_files s (<[g := rg]> (k_files s))) g rg vn)
      as (s3 & Hlast & Hk3 & Hp3).
    { simpl. apply lookup_insert_eq. } { lia. } { exact Hv. }
    exists (set_p_files s3 (<[Z.to_nat fd := None]> (p_files s3))).
    split; [|split; [|split]].
    + unfold do_close.
      replace (fd <? 0) with false by lia.
      replace (NFILES <? fd) with false by lia. cbn [orb].
      eapply run_trace_eq.
      { run_by ltac:(apply run_fget_open; exact Hopen). cbn [is_null].
        run_by ltac:(apply run_slot_get; [exact Hfd | exact Hslot]).
        cbn [is_null].
        run_by ltac:(apply run_fput_borrowed; simpl; lia).
        rewrite borrow_refcount. run_with Hlast.
        run_by ltac:(apply (run_slot_set NFILES _ fd (Some g));
                     [exact Hfd | rewrite Hp3; exact Hslot]).
        apply run_ret. }
      reflexivity.
    + simpl. rewrite Hp3. reflexivity.
    + intros f Hne. simpl. rewrite Hk3. simpl.
      rewrite lookup_delete_ne by congruence.
      apply lookup_insert_ne. congruence.
    + unfold file_refs. simpl. rewrite Hk3, lookup_delete_eq. lia.
  - eexists. split; [apply (run_do_close_shared s fd g rg Hopen); lia|].
    split; [reflexivity|]. split.
    + intros f Hne. simpl. apply lookup_insert_ne. congruence.
    + unfold file_refs. simpl. rewrite lookup_insert_eq. reflexivity.
Qed.

(** X6. [do_dup2] of an open descriptor onto itself returns it and does
    nothing; onto a free descriptor in range it installs the open file
    there with one more reference. *)
Theorem do_dup2_installs (s : kstate D) (ofd nfd : Z) (f : fno) (r : file_t) :
  open_file NFILES s ofd f r ->
  do_dup2 NFILES ofd ofd s = ([], Done ofd s)
  /\ (0 <= nfd < NFILES ->
      nfd <> ofd ->
      p_files s !! Z.to_nat nfd = Some None ->
      do_dup2 NFILES ofd nfd s
      = ([EvFget f],
         Done nfd
           (set_p_files
              (set_files s
                 (<[f := f_with_refcount r (f_refcount r + 1)]> (k_files s)))
              (<[Z.to_nat nfd := Some f]> (p_files s))))).
Proof.
  intros Hopen. pose proof Hopen as (Hfd & Hslot & Hf & _). split.
  - unfold do_dup2. rewrite <- (app_nil_l []).
    run_by ltac:(apply run_slot_get; [exact Hfd | exact Hslot]). cbn [is_null].
    replace (ofd <? 0) with false by lia.
    replace (NFILES <? ofd) with false by lia. cbn [orb].
    rewrite Z.eqb_refl. reflexivity.
  - intros Hnfd Hne Hfree. unfold do_dup2. eapply run_trace_eq.
    { run_by ltac:(apply run_slot_get; [exact Hfd | exact Hslot]).
      cbn [is_null].
      replace (ofd <? 0) with false by lia.
      replace (NFILES <? ofd) with false by lia.
      replace (nfd <? 0) with false by lia.
      replace (NFILES <? nfd) with false by lia.
      replace (nfd =? ofd) with false by lia. cbn [orb negb].
      run_by ltac:(apply run_slot_get; [exact Hnfd | exact Hfree]).
      cbn [is_null negb]. run_by ltac:(apply run_ret).
      run_by ltac:(apply run_fget_open; exact Hopen).
      run_by ltac:(apply (run_slot_set NFILES _ nfd None);
                   [exact Hnfd | exact Hfree]).
      apply run_ret. }
    reflexivity.
Qed.

(** X7. [do_dup2] onto a descriptor that is open on another file closes it
    first: that file loses one reference, the duplicated file gains one, and
    the target descriptor now names the duplicated file. *)
Theorem do_dup2_replaces (s : kstate D) (ofd nfd : Z) (f g : fno)
    (r rg : file_t) :
  open_file NFILES s ofd f r ->
  open_file NFILES s nfd g rg ->
  is_Some (fs_vnodes (k_fs s) !! f_vnode rg) ->
  f <> g ->
  exists s',
    do_dup2 NFILES ofd nfd s
    = ([EvFget g; EvFput g; EvFput g; EvFget f], Done nfd s')
    /\ p_files s' = <[Z.to_nat nfd := Some f]> (p_files s)
    /\ file_refs s' f = file_refs s f + 1
    /\ file_refs s' g = file_refs s g - 1.
Proof.
  intros Hopen Hopen' Hv Hfg.
  pose proof Hopen as (Hfd & Hslot & Hf & Hn).
  pose proof Hopen' as (Hnfd & Hslot' & Hg & _).
  assert (Hne : nfd <> ofd).
  { intros ->. rewrite Hslot in Hslot'. congruence. }
  assert (Hne' : Z.to_nat nfd <> Z.to_nat ofd) by lia.
  destruct (run_do_close_open s nfd g rg Hopen' Hv)
    as (s1 & Hclose & Hp1 & Hk1 & Hrefs).
  assert (Hopen1 : open_file NFILES s1 ofd f r).
  { split; [exact Hfd|]. split; [|split; [|exact Hn]].
    - rewrite Hp1, list_lookup_insert_ne by exact Hne'. exact Hslot.
    - rewrite Hk1 by exact Hfg. exact Hf. }
  assert (Hlen : (Z.to_nat nfd < length (p_files s))%nat)
    by (eapply lookup_lt_Some; exact Hslot').
  assert (Hslot1 : p_files s1 !! Z.to_nat nfd = Some None).
  { rewrite Hp1. apply list_lookup_insert_eq. exact Hlen. }
  eexists. split; [|split; [|split]].
  - unfold do_dup2. eapply run_trace_eq.
    { run_by ltac:(apply run_slot_get; [exact Hfd | exact Hslot]).
      cbn [is_null].
      replace (ofd <? 0) with false by lia.
      replace (NFILES <? ofd) with false by lia.
      replace (nfd <? 0) with false by lia.
      replace (NFILES <? nfd) with false by lia.
      replace (nfd =? ofd) with false by lia. cbn [orb negb].
      run_by ltac:(apply run_slot_get; [exact Hnfd | exact Hslot']).
      cbn [is_null negb].
      run_by ltac:(eapply run_bind; [exact Hclose | cbv beta; apply run_ret]).
      run_by ltac:(apply run_fget_open; exact Hopen1).
      run_by ltac:(apply (run_slot_set NFILES _ nfd None);
                   [exact Hnfd | exact Hslot1]).
      apply run_ret. }
    reflexivity.
  - simpl. rewrite Hp1. apply list_insert_insert_eq.
  - unfold file_refs at 1. simpl. rewrite lookup_insert_eq. simpl.
    rewrite (file_refs_lookup s f r Hf). reflexivity.
  - unfold file_refs at 1. simpl. rewrite lookup_insert_ne by exact Hfg.
    exact Hrefs.
Qed.

End FileRuns.


(** ** Reading, writing and listing through a descriptor *)

Section FileIO.
Context {D : Type} (drv : vfs_driver D).
Variables NFILES SIZEOF_DIRENT : Z.

Lemma run_call_op {A} (s : kstate D) (o : vop) (v : vno) (vn : vnode_t)
    (f : fs_t D -> fs_t D * A) (fs' : fs_t D) (a : A) :
  fs_vnodes (k_fs s) !! v = Some vn ->
  has_op vn o = true ->
  f (k_fs s) = (fs', a) ->
  call_op o v f s = ([EvOp o v], Done a (set_fs s fs')).
Proof.
  intros Hv Hop Hf. unfold call_op. eapply run_trace_eq.
  { run_by ltac:(apply run_vnode_at, Hv). rewrite Hop.
    run_by ltac:(apply run_emit). unfold drv_call. rewrite Hf. reflexivity. }
  reflexivity.
Qed.

Lemma run_assert_op (s : kstate D) (v : vno) (vn : vnode_t) (o : vop) :
  fs_vnodes (k_fs s) !! v = Some vn ->
  has_op vn o = true ->
  assert_op v o s = ([], Done tt s).
Proof.
  intros Hv Hop. unfold assert_op. rewrite <- (app_nil_l []).
  run_by ltac:(apply run_vnode_at, Hv).
  unfold has_op in Hop. destruct (vn_ops vn) eqn:Hops; [|discriminate].
  unfold has_op. rewrite Hops, Hop. reflexivity.
Qed.

(** The prelude shared by the calls that read the slot first: the guard
    lets an open descriptor through and [fget] takes a reference. *)
Lemma set_fs_files (s : kstate D) (fs' : fs_t D) (m : gmap fno file_t) :
  set_fs (set_files s m) fs' = set_files (set_fs s fs') m.
Proof. reflexivity. Qed.

(** X8. [do_read] through a descriptor open for reading on a file that is
    not a directory hands the driver the current offset; a count of bytes is
    returned and the offset becomes the sum, made in 32 bits, of the offset
    and the count; a negative result is returned as it is and leaves the
    offset where it was.  The reference taken is given back in both
    cases. *)
Theorem do_read_advances (s : kstate D) (fd : Z) (f : fno) (r : file_t)
    (vn : vnode_t) (n bytes : Z) (fs' : fs_t D) :
  open_file NFILES s fd f r ->
  has_bits (f_mode r) FMODE_READ = true ->
  fs_vnodes (k_fs s) !! f_vnode r = Some vn ->
  S_ISDIR (vn_mode vn) = false ->
  has_op vn OpRead = true ->
  fs_read drv (f_vnode r) (f_pos r) n (k_fs s) = (fs', bytes) ->
  do_read drv NFILES fd n s
  = ([EvFget f; EvOp OpRead (f_vnode r); EvFput f],
     if bytes <? 0 then Done bytes (set_fs s fs')
     else Done bytes
            (set_files (set_fs s fs')
               (<[f := f_with_pos r (wrap_int (f_pos r + bytes))]> (k_files s)))).
Proof.
  intros Hopen Hmode Hv Hdir Hop Hread.
  pose proof Hopen as (Hfd & Hslot & Hf & Hn).
  set (r1 := f_with_refcount r (f_refcount r + 1)).
  assert (Hn1 : 2 <= f_refcount r1) by (simpl; lia).
  unfold do_read.
  destruct (Z.ltb_spec bytes 0) as [Hneg | Hpos].
  - eapply run_result_eq.
    { run_by ltac:(apply run_slot_get; [exact Hfd | exact Hslot]).
      cbn [is_null].
      replace (fd <? 0) with false by lia.
      replace (NFILES <=? fd) with false by lia. cbn [orb].
      run_by ltac:(apply run_fget_open; exact Hopen). fold r1.
      run_by ltac:(apply run_file_at_set).
      change (f_mode r1) with (f_mode r). rewrite Hmode. cbn [negb].
      run_by ltac:(apply run_vnode_at; exact Hv). rewrite Hdir.
      run_by ltac:(apply (run_call_op _ OpRead (f_vnode r) vn _ fs' bytes);
                   [exact Hv | exact Hop | exact Hread]).
      replace (bytes <? 0) with true by lia. rewrite set_fs_files.
      run_by ltac:(apply run_fput_borrowed; exact Hn1). apply run_ret. }
    { reflexivity. }
    unfold r1. rewrite borrow_refcount.
    apply (set_files_same (set_fs s fs') f r). exact Hf.
  - eapply run_result_eq.
    { run_by ltac:(apply run_slot_get; [exact Hfd | exact Hslot]).
      cbn [is_null].
      replace (fd <? 0) with false by lia.
      replace (NFILES <=? fd) with false by lia. cbn [orb].
      run_by ltac:(apply run_fget_open; exact Hopen). fold r1.
      run_by ltac:(apply run_file_at_set).
      change (f_mode r1) with (f_mode r). rewrite Hmode. cbn [negb].
      run_by ltac:(apply run_vnode_at; exact Hv). rewrite Hdir.
      run_by ltac:(apply (run_call_op _ OpRead (f_vnode r) vn _ fs' bytes);
                   [exact Hv | exact Hop | exact Hread]).
      replace (bytes <? 0) with false by lia. rewrite set_fs_files.
      run_by ltac:(apply run_file_at_set).
      run_by ltac:(apply run_store_file).
      run_by ltac:(apply run_fput_borrowed; exact Hn1). apply run_ret. }
    { reflexivity. }
    unfold r1. rewrite borrow_refcount_pos. reflexivity.
Qed.

(** [do_read] on a descriptor that is not open for reading, or open on a
    directory. *)
Lemma run_do_read_rejects (s : kstate D) (fd : Z) (f : fno) (r : file_t)
    (vn : vnode_t) (n : Z) :
  open_file NFILES s fd f r ->
  fs_vnodes (k_fs s) !! f_vnode r = Some vn ->
  (has_bits (f_mode r) FMODE_READ = false ->
   do_read drv NFILES fd n s = ([EvFget f; EvFput f], Done (- EBADF) s))
  /\ (has_bits (f_mode r) FMODE_READ = true ->
      S_ISDIR (vn_mode vn) = true ->
      do_read drv NFILES fd n s = ([EvFget f; EvFput f], Done (- EISDIR) s)).
Proof.
  intros Hopen Hv. pose proof Hopen as (Hfd & Hslot & Hf & Hn).
  set (r1 := f_with_refcount r (f_refcount r + 1)).
  assert (Hn1 : 2 <= f_refcount r1) by (simpl; lia).
  assert (Hback : set_files s (<[f := f_with_refcount r1 (f_refcount r1 - 1)]>
                                 (k_files s)) = s).
  { unfold r1. rewrite borrow_refcount. apply set_files_same, Hf. }
  split; [intros Hmode | intros Hmode Hdir]; unfold do_read;
    (eapply run_result_eq;
     [ run_by ltac:(apply run_slot_get; [exact Hfd | exact Hslot]);
       cbn [is_null];
       replace (fd <? 0) with false by lia;
       replace (NFILES <=? fd) with false by lia; cbn [orb];
       run_by ltac:(apply run_fget_open; exact Hopen); fold r1;
       run_by ltac:(apply run_file_at_set);
       change (f_mode r1) with (f_mode r); rewrite Hmode; cbn [negb]
     | | exact Hback ]).
  - run_by ltac:(apply run_fput_borrowed; exact Hn1). apply run_ret.
  - reflexivity.
  - run_by ltac:(apply run_vnode_at; exact Hv). rewrite Hdir.
    run_by ltac:(apply run_fput_borrowed; exact Hn1). apply run_ret.
  - reflexivity.
Qed.

(** X9. [do_write] through a descriptor open for writing without the
    append bit hands the driver the current offset; a count of bytes is
    returned and the offset becomes the sum, made in 32 bits, of the offset
    and the count; a negative result is returned as it is and leaves the
    offset where it was. *)
Theorem do_write_advances (s : kstate D) (fd : Z) (f : fno) (r : file_t)
    (vn : vnode_t) (n written : Z) (fs' : fs_t D) :
  open_file NFILES s fd f r ->
  has_bits (f_mode r) FMODE_WRITE = true ->
  has_bits (f_mode r) FMODE_APPEND = false ->
  fs_vnodes (k_fs s) !! f_vnode r = Some vn ->
  has_op vn OpWrite = true ->
  fs_write drv (f_vnode r) (f_pos r) n (k_fs s) = (fs', written) ->
  do_write drv NFILES fd n s
  = ([EvFget f; EvOp OpWrite (f_vnode r); EvFput f],
     if written <? 0 then Done written (set_fs s fs')
     else Done written
            (set_files (set_fs s fs')
               (<[f := f_with_pos r (wrap_int (f_pos r + written))]>
                  (k_files s)))).
Proof.
  intros Hopen Hmode Happ Hv Hop Hwrite.
  pose proof Hopen as (Hfd & Hslot & Hf & Hn).
  set (r1 := f_with_refcount r (f_refcount r + 1)).
  assert (Hn1 : 2 <= f_refcount r1) by (simpl; lia).
  unfold do_write.
  destruct (Z.ltb_spec written 0) as [Hneg | Hpos];
    (eapply run_result_eq;
    [ run_by ltac:(apply run_slot_get; [exact Hfd | exact Hslot]);
      cbn [is_null];
      replace (fd <? 0) with false by lia;
      replace (NFILES <? fd) with false by lia; cbn [orb];
      run_by ltac:(apply run_fget_open; exact Hopen); fold r1;
      run_by ltac:(apply run_file_at_set);
      change (f_mode r1) with (f_mode r); rewrite Hmode, Happ; cbn [negb];
      run_by ltac:(apply run_ret);
      run_by ltac:(apply (run_assert_op _ (f_vnode r) vn OpWrite);
                   [exact Hv | exact Hop]);
      run_by ltac:(apply run_file_at_set);
      run_by ltac:(apply (run_call_op _ OpWrite (f_vnode r) vn _ fs' written);
                   [exact Hv | exact Hop | exact Hwrite]);
      rewrite set_fs_files | | ]).
  - replace (written <? 0) with true by lia.
    run_by ltac:(apply run_fput_borrowed; exact Hn1). apply run_ret.
  - reflexivity.
  - unfold r1. rewrite borrow_refcount.
    apply (set_files_same (set_fs s fs') f r). exact Hf.
  - replace (written <? 0) with false by lia.
    run_by ltac:(apply run_file_at_set).
    run_by ltac:(apply run_store_file).
    run_by ltac:(apply run_fput_borrowed; exact Hn1). apply run_ret.
  - reflexivity.
  - unfold r1. rewrite borrow_refcount_pos. reflexivity.
Qed.

(** X10. [do_write] through a descriptor open with the append bit, on a
    file whose length is a non-negative [off_t], first seeks to the end: the
    driver is handed the length of the file as offset, whatever the offset
    of the open file was, and the offset after the call is the sum, made in
    32 bits, of the length and the bytes written (the length itself when
    the driver fails). *)
Theorem do_write_appends (s : kstate D) (fd : Z) (f : fno) (r : file_t)
    (vn : vnode_t) (n written : Z) (fs' : fs_t D) :
  open_file NFILES s fd f r ->
  has_bits (f_mode r) FMODE_WRITE = true ->
  has_bits (f_mode r) FMODE_APPEND = true ->
  fs_vnodes (k_fs s) !! f_vnode r = Some vn ->
  0 <= vn_len vn <= INT_MAX ->
  has_op vn OpWrite = true ->
  fs_write drv (f_vnode r) (vn_len vn) n (k_fs s) = (fs', written) ->
  do_write drv NFILES fd n s
  = ([EvFget f; EvFget f; EvFput f; EvOp OpWrite (f_vnode r); EvFput f],
     Done written
       (set_files (set_fs s fs')
          (<[f := f_with_pos r (if written <? 0 then vn_len vn
                                else wrap_int (vn_len vn + written))]>
             (k_files s)))).
Proof.
  intros Hopen Hmode Happ Hv Hlen Hop Hwrite.
  pose proof Hopen as (Hfd & Hslot & Hf & Hn).
  set (r1 := f_with_refcount r (f_refcount r + 1)).
  assert (Hn1 : 2 <= f_refcount r1) by (simpl; lia).
  set (s1 := set_files s (<[f := r1]> (k_files s))).
  assert (Hseek : do_lseek NFILES fd 0 SEEK_END s1
                  = ([EvFget f; EvFput f],
                     Done (vn_len vn)
                       (set_files s (<[f := f_with_pos r1 (vn_len vn)]>
                                       (k_files s))))).
  { rewrite (run_do_lseek NFILES s1 fd f r1 vn 0 SEEK_END).
    - unfold seek_target. cbn [Z.eqb SEEK_SET SEEK_CUR SEEK_END Pos.eqb].
      rewrite Z.add_0_r, wrap_int_id by (unfold INT_MIN; lia).
      replace (vn_len vn <? 0) with false by lia.
      unfold s1. rewrite set_files_twice. simpl k_files.
      rewrite insert_insert_eq. reflexivity.
    - split; [exact Hfd|]. split; [exact Hslot|]. split; [|lia].
      unfold s1. simpl. apply lookup_insert_eq.
    - exact Hv.
    - auto. }
  unfold do_write.
  destruct (Z.ltb_spec written 0) as [Hneg | Hpos];
    (eapply run_result_eq;
     [ run_by ltac:(apply run_slot_get; [exact Hfd | exact Hslot]);
       cbn [is_null];
       replace (fd <? 0) with false by lia;
       replace (NFILES <? fd) with false by lia; cbn [orb];
       run_by ltac:(apply run_fget_open; exact Hopen); fold r1; fold s1;
       run_by ltac:(apply run_file_at_set);
       change (f_mode r1) with (f_mode r); rewrite Hmode, Happ; cbn [negb];
       run_by ltac:(eapply run_bind; [exact Hseek | cbv beta];
                    replace (vn_len vn <? 0) with false by lia; apply run_ret);
       run_by ltac:(apply (run_assert_op _ (f_vnode r) vn OpWrite);
                    [exact Hv | exact Hop]);
       run_by ltac:(apply run_file_at_set);
       run_by ltac:(apply (run_call_op _ OpWrite (f_vnode r) vn _ fs' written);
                    [exact Hv | exact Hop | exact Hwrite]);
       rewrite set_fs_files
     | | ]).
  - replace (written <? 0) with true by lia.
    run_by ltac:(apply run_fput_borrowed; exact Hn1). apply run_ret.
  - reflexivity.
  - f_equal. f_equal.
    destruct r; unfold r1, f_with_refcount, f_with_pos; simpl; f_equal; lia.
  - replace (written <? 0) with false by lia.
    run_by ltac:(apply run_file_at_set).
    run_by ltac:(apply run_store_file).
    run_by ltac:(apply run_fput_borrowed; exact Hn1). apply run_ret.
  - reflexivity.
  - f_equal. f_equal.
    destruct r; unfold r1, f_with_refcount, f_with_pos; simpl; f_equal; lia.
Qed.

(** [do_write] on a descriptor that is not open for writing. *)
Lemma run_do_write_rejects (s : kstate D) (fd : Z) (f : fno) (r : file_t) (n : Z) :
  open_file NFILES s fd f r ->
  has_bits (f_mode r) FMODE_WRITE = false ->
  do_write drv NFILES fd n s = ([EvFget f; EvFput f], Done (- EBADF) s).
Proof.
  intros Hopen Hmode. pose proof Hopen as (Hfd & Hslot & Hf & Hn).
  set (r1 := f_with_refcount r (f_refcount r + 1)).
  assert (Hn1 : 2 <= f_refcount r1) by (simpl; lia).
  unfold do_write. eapply run_result_eq.
  { run_by ltac:(apply run_slot_get; [exact Hfd | exact Hslot]).
    cbn [is_null].
    replace (fd <? 0) with false by lia.
    replace (NFILES <? fd) with false by lia. cbn [orb].
    run_by ltac:(apply run_fget_open; exact Hopen). fold r1.
    run_by ltac:(apply run_file_at_set).
    change (f_mode r1) with (f_mode r). rewrite Hmode. cbn [negb].
    run_by ltac:(apply run_fput_borrowed; exact Hn1). apply run_ret. }
  { reflexivity. }
  unfold r1. rewrite borrow_refcount. apply set_files_same, Hf.
Qed.

(** X11. [do_read] refuses a descriptor that is not open for reading with
    [-EBADF] and a descriptor open on a directory with [-EISDIR];
    [do_write] refuses a descriptor that is not open for writing with
    [-EBADF].  The driver is not called, the reference taken is given back
    and the state is unchanged. *)
Theorem do_read_write_reject (s : kstate D) (fd : Z) (f : fno) (r : file_t)
    (vn : vnode_t) (n : Z) :
  open_file NFILES s fd f r ->
  fs_vnodes (k_fs s) !! f_vnode r = Some vn ->
  (has_bits (f_mode r) FMODE_READ = false ->
   do_read drv NFILES fd n s = ([EvFget f; EvFput f], Done (- EBADF) s))
  /\ (has_bits (f_mode r) FMODE_READ = true ->
      S_ISDIR (vn_mode vn) = true ->
      do_read drv NFILES fd n s = ([EvFget f; EvFput f], Done (- EISDIR) s))
  /\ (has_bits (f_mode r) FMODE_WRITE = false ->
      do_write drv NFILES fd n s = ([EvFget f; EvFput f], Done (- EBADF) s)).
Proof.
  intros Hopen Hv.
  destruct (run_do_read_rejects s fd f r vn n Hopen Hv) as [Hr1 Hr2].
  split; [exact Hr1|]. split; [exact Hr2|].
  apply run_do_write_rejects. exact Hopen.
Qed.

(** X12. [do_getdent] through a descriptor open on a directory, at an
    offset that is an [off_t], hands the driver's readdir the current
    offset; when readdir reports progress the offset becomes the sum, made
    in 32 bits, of the offset and what it reports, and the size of a
    directory entry is returned; when it reports the end (0) the offset
    stays and 0 is returned. *)
Theorem do_getdent_progress (s : kstate D) (fd : Z) (f : fno) (r : file_t)
    (vn : vnode_t) (bytes : Z) (fs' : fs_t D) :
  open_file NFILES s fd f r ->
  fs_vnodes (k_fs s) !! f_vnode r = Some vn ->
  S_ISDIR (vn_mode vn) = true ->
  has_op vn OpReaddir = true ->
  fs_readdir drv (f_vnode r) (f_pos r) (k_fs s) = (fs', bytes) ->
  0 <= bytes ->
  INT_MIN <= f_pos r <= INT_MAX ->
  do_getdent drv NFILES SIZEOF_DIRENT fd s
  = ([EvFget f; EvOp OpReaddir (f_vnode r); EvFput f],
     if bytes =? 0 then Done 0 (set_fs s fs')
     else Done SIZEOF_DIRENT
            (set_files (set_fs s fs')
               (<[f := f_with_pos r (wrap_int (f_pos r + bytes))]> (k_files s)))).
Proof.
  intros Hopen Hv Hdir Hop Hrd Hbytes Hrange.
  pose proof Hopen as (Hfd & Hslot & Hf & Hn).
  set (r1 := f_with_refcount r (f_refcount r + 1)).
  assert (Hn1 : 2 <= f_refcount r1) by (simpl; lia).
  unfold do_getdent.
  replace (fd <? 0) with false by lia. replace (NFILES <? fd) with false by lia.
  cbn [orb].
  destruct (Z.eqb_spec bytes 0) as [-> | Hpos];
    (eapply run_result_eq;
    [ run_by ltac:(apply run_slot_get; [exact Hfd | exact Hslot]);
      cbn [is_null];
      run_by ltac:(apply run_fget_open; exact Hopen); fold r1;
      cbn [is_null negb]; run_by ltac:(apply run_ret);
      run_by ltac:(apply run_file_at_set);
      run_by ltac:(apply run_vnode_at; exact Hv); rewrite Hdir; cbn [negb];
      run_by ltac:(apply (run_assert_op _ (f_vnode r) vn OpReaddir);
                   [exact Hv | exact Hop]);
      run_by ltac:(apply (run_call_op _ OpReaddir (f_vnode r) vn _ fs' _);
                   [exact Hv | exact Hop | exact Hrd]);
      rewrite set_fs_files;
      run_by ltac:(apply run_file_at_set);
      run_by ltac:(apply run_store_file) | | ]).
  - cbn [Z.leb Z.compare].
    run_by ltac:(apply run_fput_borrowed; exact Hn1). apply run_ret.
  - reflexivity.
  - rewrite <- (set_files_same (set_fs s fs') f r Hf) at 2.
    f_equal. f_equal. simpl k_files.
    change (f_pos r1) with (f_pos r).
    rewrite Z.add_0_r, wrap_int_id by exact Hrange.
    destruct r; unfold r1, f_with_refcount, f_with_pos; simpl; f_equal; lia.
  - replace (bytes <=? 0) with false by lia.
    run_by ltac:(apply run_fput_borrowed; exact Hn1). apply run_ret.
  - reflexivity.
  - unfold r1. rewrite borrow_refcount_pos. reflexivity.
Qed.

(** X13. [do_getdent] refuses a descriptor that is not open on a directory
    with [-ENOTDIR]: readdir is not called and the state is unchanged. *)
Theorem do_getdent_rejects (s : kstate D) (fd : Z) (f : fno) (r : file_t)
    (vn : vnode_t) :
  open_file NFILES s fd f r ->
  fs_vnodes (k_fs s) !! f_vnode r = Some vn ->
  S_ISDIR (vn_mode vn) = false ->
  do_getdent drv NFILES SIZEOF_DIRENT fd s
  = ([EvFget f; EvFput f], Done (- ENOTDIR) s).
Proof.
  intros Hopen Hv Hdir. pose proof Hopen as (Hfd & Hslot & Hf & Hn).
  set (r1 := f_with_refcount r (f_refcount r + 1)).
  assert (Hn1 : 2 <= f_refcount r1) by (simpl; lia).
  unfold do_getdent.
  replace (fd <? 0) with false by lia. replace (NFILES <? fd) with false by lia.
  cbn [orb]. eapply run_result_eq.
  { run_by ltac:(apply run_slot_get; [exact Hfd | exact Hslot]).
    cbn [is_null].
    run_by ltac:(apply run_fget_open; exact Hopen). fold r1.
    cbn [is_null negb]. run_by ltac:(apply run_ret).
    run_by ltac:(apply run_file_at_set).
    run_by ltac:(apply run_vnode_at; exact Hv). rewrite Hdir. cbn [negb].
    run_by ltac:(apply run_fput_borrowed; exact Hn1). apply run_ret. }
  { reflexivity. }
  unfold r1. rewrite borrow_refcount. apply set_files_same, Hf.
Qed.

End FileIO.


(** ** What the calls emit, whatever the state and the driver *)

Section MoreEmissions.
Context {D : Type}.
Variable Q : event -> Prop.
Variable NFILES : Z.

Lemma only_file_at (f : fno) : only Q (file_at f : M D file_t).
Proof. intros s. unfold file_at. case_match; constructor. Qed.

Lemma only_store_file (f : fno) (r : file_t) : only Q (store_file f r : M D unit).
Proof. intros s. constructor. Qed.

Lemma only_free_file (f : fno) : only Q (free_file f : M D unit).
Proof. intros s. constructor. Qed.

Lemma only_store_cwd (c : option vno) : only Q (store_cwd c : M D unit).
Proof. intros s. constructor. Qed.

Lemma only_slot_get (fd : Z) : only Q (slot_get NFILES fd : M D (option fno)).
Proof. intros s. unfold slot_get. repeat case_match; constructor. Qed.

Lemma only_slot_set (fd : Z) (file : option fno) :
  only Q (slot_set NFILES fd file : M D unit).
Proof. intros s. unfold slot_set. case_match; constructor. Qed.

Lemma only_get_empty_fd : only Q (get_empty_fd NFILES : M D Z).
Proof. intros s. unfold get_empty_fd. case_match; constructor. Qed.

Lemma only_fget (fd : Z) :
  (forall f, Q (EvFget f)) -> only Q (fget NFILES fd : M D (option fno)).
Proof.
  intros HQ. unfold fget. destruct (in_range NFILES fd); [|apply only_ret].
  apply only_bind; [apply only_slot_get|]. intros [f|]; [|apply only_ret].
  apply only_bind; [apply only_file_at|]. intros r.
  apply only_bind; [apply only_emit, HQ|]. intros _.
  apply only_bind; [apply only_store_file|]. intros _. apply only_ret.
Qed.

Lemma only_fput (file : option fno) :
  (forall f, Q (EvFput f)) -> only Q (fput file : M D unit).
Proof.
  intros HQ. destruct file as [f|]; [|apply only_fault]. unfold fput.
  apply only_bind; [apply only_file_at|]. intros r.
  apply only_bind; [apply only_emit, HQ|]. intros _.
  destruct (f_refcount r - 1 =? 0); [|apply only_store_file].
  apply only_bind; [apply only_vnode_at|]. intros vn.
  apply only_bind; [apply only_store_vnode|]. intros _. apply only_free_file.
Qed.

End MoreEmissions.

Ltac only_prim' :=
  first
    [ only_prim
    | apply only_file_at | apply only_store_file | apply only_store_cwd
    | apply only_slot_get | apply only_slot_set | apply only_get_empty_fd
    | apply only_fget; intros; exact I
    | apply only_fput; intros; exact I ].

Ltac only_step' :=
  lazymatch goal with
  | |- only _ (mbind _ _) => apply only_bind; [| intros; cbv beta]
  | |- only _ (if ?b then _ else _) => destruct b
  | |- only _ (match ?x with _ => _ end) => destruct x
  | |- _ => only_prim'
  end.

Ltac only_auto' := repeat only_step'.

Section Accounting.
Context {D : Type} (drv : vfs_driver D).
Variables NFILES SIZEOF_DIRENT : Z.
Variable g : fno.

Lemma file_net_app (a b : list event) :
  file_net g (a ++ b) = file_net g a + file_net g b.
Proof.
  unfold file_net, count_ev. rewrite !List.filter_app, !length_app. lia.
Qed.

Lemma file_net_quiet (tr : list event) :
  Forall not_fd_event tr -> file_net g tr = 0.
Proof.
  induction 1 as [|e tr He _ IH]; [reflexivity|].
  change (e :: tr) with ([e] ++ tr). rewrite file_net_app, IH.
  destruct e; simpl in He; try contradiction; reflexivity.
Qed.

Lemma nets_ret {A} (n : Z) (a : A) (post : A -> Z) :
  post a = n -> nets g n (mret a : M D A) post.
Proof. intros Hp s. simpl. unfold file_net, count_ev. simpl. lia. Qed.

Lemma nets_stop {A} (n : Z) (post : A -> Z) :
  nets g n (panic : M D A) post /\ nets g n (fault : M D A) post.
Proof. split; intros s; exact I. Qed.

Lemma nets_bind {A B} (n : Z) (m : M D A) (f : A -> M D B)
    (P : A -> Z) (Q : B -> Z) :
  nets g n m P -> (forall a, nets g (P a) (f a) Q) -> nets g n (m ≫= f) Q.
Proof.
  intros Hm Hf s. specialize (Hm s). unfold mbind, M_bind.
  destruct (m s) as [t1 [a s1| |]]; simpl in *; auto.
  specialize (Hf a s1). destruct (f a s1) as [t2 [b s2| |]]; simpl in *; auto.
  rewrite file_net_app. lia.
Qed.

Lemma nets_quiet {A} (n : Z) (m : M D A) :
  only not_fd_event m -> nets g n m (fun _ => n).
Proof.
  intros Hm s. destruct (snd (m s)); auto.
  rewrite (file_net_quiet _ (Hm s)). lia.
Qed.

Lemma nets_emit (n : Z) (e : event) :
  nets g n (emit e : M D unit) (fun _ => n + file_net g [e]).
Proof. intros s. reflexivity. Qed.

Lemma file_net_fget (f : fno) : file_net g [EvFget f] = credit g (Some f).
Proof.
  unfold file_net, count_ev, credit. simpl. destruct (Nat.eqb f g); reflexivity.
Qed.

Lemma file_net_fput (f : fno) : file_net g [EvFput f] = - credit g (Some f).
Proof.
  unfold file_net, count_ev, credit. simpl. destruct (Nat.eqb f g); reflexivity.
Qed.

Lemma nets_fget (n fd : Z) :
  nets g n (fget NFILES fd : M D (option fno)) (fun file => n + credit g file).
Proof.
  unfold fget. destruct (in_range NFILES fd);
    [|apply nets_ret; simpl; lia].
  eapply nets_bind; [apply nets_quiet, only_slot_get|]. intros [f|]; cbv beta;
    [|apply nets_ret; simpl; lia].
  eapply nets_bind; [apply nets_quiet, only_file_at|]. intros r. cbv beta.
  eapply nets_bind; [apply nets_emit|]. intros ?; cbv beta.
  eapply nets_bind; [apply nets_quiet, only_store_file|]. intros ?; cbv beta.
  apply nets_ret. rewrite file_net_fget. reflexivity.
Qed.

Lemma nets_fput (n : Z) (file : option fno) :
  nets g n (fput file : M D unit) (fun _ => n - credit g file).
Proof.
  destruct file as [f|]; [|apply nets_stop]. unfold fput.
  eapply nets_bind; [apply nets_quiet, only_file_at|]. intros r. cbv beta.
  eapply nets_bind; [apply nets_emit|]. intros ?; cbv beta.
  rewrite file_net_fput.
  destruct (f_refcount r - 1 =? 0).
  - eapply nets_bind; [apply nets_quiet, only_vnode_at|]. intros vn. cbv beta.
    eapply nets_bind; [apply nets_quiet, only_store_vnode|]. intros ?; cbv beta.
    intros s. simpl. unfold file_net, count_ev. simpl. lia.
  - intros s. simpl. unfold file_net, count_ev. simpl. lia.
Qed.

Lemma nets_bind_ret {A B} (n : Z) (a : A) (f : A -> M D B) (Q : B -> Z) :
  nets g n (f a) Q -> nets g n ((mret a : M D A) ≫= f) Q.
Proof. intros Hf s. rewrite bind_ret_l. apply Hf. Qed.

Lemma nets_assoc {A B C} (n : Z) (m : M D A) (f : A -> M D B)
    (k : B -> M D C) (Q : C -> Z) :
  nets g n (m ≫= fun a => f a ≫= k) Q -> nets g n ((m ≫= f) ≫= k) Q.
Proof. intros H s. rewrite bind_assoc. apply H. Qed.

(** Accounting goals are settled along the syntax of the computation. *)
Ltac nets_prim :=
  first
    [ apply nets_fget | apply nets_fput
    | apply nets_quiet; solve [only_auto']
    | assumption ].

Ltac nets_step :=
  lazymatch goal with
  | |- nets _ _ (mbind _ (mret _)) _ => apply nets_bind_ret; cbv beta
  | |- nets _ _ (mbind _ (mbind _ _)) _ => apply nets_assoc; cbv beta
  | |- nets _ _ (mbind _ (if ?b then _ else _)) _ => destruct b
  | |- nets _ _ (mbind _ _) _ =>
      eapply nets_bind; [nets_prim | intros; cbv beta]
  | |- nets _ _ (if ?b then _ else _) _ => destruct b
  | |- nets _ _ (match ?x with _ => _ end) _ => destruct x
  | |- nets _ _ (mret _) _ =>
      apply nets_ret; unfold credit; repeat case_match; lia
  | |- @nets _ _ _ _ (@panic _ _) _ => apply nets_stop
  | |- @nets _ _ _ _ (@fault _ _) _ => apply nets_stop
  end.

Ltac nets_auto := repeat nets_step.

(** Each block of [do_lseek] gives the reference back, whichever way it
    leaves. *)
Lemma nets_seek_to (n : Z) (f : fno) (target : Z) :
  nets g n (seek_to (Some f) f target : M D (option Z))
    (fun _ => n - credit g (Some f)).
Proof. unfold seek_to. nets_auto. Qed.

Lemma nets_do_lseek (n fd offset whence : Z) :
  nets g n (do_lseek NFILES fd offset whence : M D Z) (fun _ => n).
Proof.
  unfold do_lseek.
  destruct ((fd <? 0) || (NFILES <? fd)); [nets_auto|].
  eapply nets_bind; [nets_prim | intros slot; cbv beta].
  destruct (is_null slot); [nets_auto|].
  destruct (Z.eqb_spec whence SEEK_SET) as [H0 | H0];
    destruct (Z.eqb_spec whence SEEK_CUR) as [H1 | H1];
    destruct (Z.eqb_spec whence SEEK_END) as [H2 | H2];
    try (exfalso; unfold SEEK_SET, SEEK_CUR, SEEK_END in *; lia);
    cbn [negb andb]; try solve [nets_auto].
  all: eapply nets_bind; [nets_prim | intros file; cbv beta].
  all: eapply nets_bind; [nets_prim | intros ?; cbv beta].
  all: destruct file as [f|]; [|apply nets_stop].
  - eapply nets_bind; [apply nets_seek_to | intros b1; cbv beta].
    destruct b1; nets_auto.
  - apply nets_bind_ret; cbv beta iota.
    eapply nets_bind.
    { eapply nets_bind; [nets_prim | intros r; cbv beta]. apply nets_seek_to. }
    intros b2; cbv beta. destruct b2; nets_auto.
  - apply nets_bind_ret; cbv beta iota. apply nets_bind_ret; cbv beta iota.
    eapply nets_bind.
    { eapply nets_bind; [nets_prim | intros r; cbv beta].
      eapply nets_bind; [nets_prim | intros vn; cbv beta]. apply nets_seek_to. }
    intros b3; cbv beta. destruct b3; nets_auto.
Qed.

Ltac nets_prim ::=
  first
    [ apply nets_fget | apply nets_fput | apply nets_do_lseek
    | apply nets_quiet; solve [only_auto']
    | assumption ].

(** X14. The calls that borrow a reference to the open file return it: on
    every return of [do_read], [do_write], [do_lseek] and [do_getdent],
    from any state and with any driver, each open file has been given back
    exactly as many references as were taken on it. *)
Theorem borrowed_references_returned (fd n offset whence : Z) :
  nets g 0 (do_read drv NFILES fd n) (fun _ => 0)
  /\ nets g 0 (do_write drv NFILES fd n) (fun _ => 0)
  /\ nets g 0 (do_lseek NFILES fd offset whence : M D Z) (fun _ => 0)
  /\ nets g 0 (do_getdent drv NFILES SIZEOF_DIRENT fd) (fun _ => 0).
Proof.
  split; [|split; [|split]].
  - unfold do_read. nets_auto.
  - unfold do_write. nets_auto.
  - apply nets_do_lseek.
  - unfold do_getdent. nets_auto.
Qed.

End Accounting.


(** ** What the calls never do *)

Section Never.
Context {D : Type} (drv : vfs_driver D).
Variables NAME_LEN MAXPATHLEN NFILES : Z.

Section AnyQ.
Variable Q : event -> Prop.
Hypothesis Q_vref : forall v, Q (EvVref v).
Hypothesis Q_vput : forall v, Q (EvVput v).
Hypothesis Q_lookup : forall v name, Q (EvLookup v name).
Hypothesis Q_op_lookup : forall v, Q (EvOp OpLookup v).

Lemma only_lookup (dir : option vno) (name : string) (len : Z) :
  only Q (lookup drv NAME_LEN dir name len).
Proof.
  unfold lookup. destruct dir as [d|]; [|apply only_panic].
  apply only_bind; [apply only_emit, Q_lookup|]. intros _.
  apply only_bind; [apply only_vnode_at|]. intros vn.
  destruct (negb (S_ISDIR (vn_mode vn))); [apply only_ret|].
  destruct (NAME_LEN <? len); [apply only_ret|].
  destruct (String.eqb name "." || (len =? 0)).
  - apply only_bind; [apply only_vref, Q_vref|]. intros _. apply only_ret.
  - apply only_bind; [apply only_KASSERT|]. intros _.
    apply only_bind; [apply only_KASSERT|]. intros _.
    destruct (has_op vn OpLookup); [|apply only_ret].
    apply only_bind; [apply only_call_op, Q_op_lookup|]. intros [ret result].
    destruct (ret <? 0); apply only_ret.
Qed.

Lemma only_dir_namev_loop (fuel : nat) :
  forall dir cur, only Q (dir_namev_loop drv NAME_LEN fuel dir cur).
Proof.
  induction fuel as [|fuel IH]; intros dir cur; cbn [dir_namev_loop].
  - apply only_fault.
  - destruct (String.eqb cur ""); [apply only_ret|].
    destruct dir as [d|]; [|apply only_ret].
    apply only_bind; [apply only_vnode_at|]. intros vn.
    assert (Hput : only Q (vput (Some d) : M D unit))
      by apply only_vput, Q_vput.
    destruct (negb (S_ISDIR (vn_mode vn))).
    { apply only_bind; [exact Hput|]. intros _. apply only_ret. }
    destruct (strchr cur "/") as [i|]; [|apply only_ret]. cbv zeta.
    destruct (NAME_LEN <? Z.of_nat i).
    { apply only_bind; [exact Hput|]. intros _. apply only_ret. }
    apply only_bind; [apply only_lookup|]. intros [ret result].
    destruct (ret <? 0).
    { apply only_bind; [exact Hput|]. intros _. apply only_ret. }
    apply only_bind; [exact Hput|]. intros _. apply IH.
Qed.

Lemma only_dir_namev (pathname : string) (base : option vno) :
  only Q (dir_namev drv NAME_LEN MAXPATHLEN pathname base).
Proof.
  unfold dir_namev. destruct (MAXPATHLEN <? strlen pathname); [apply only_ret|].
  destruct (strlen pathname =? 0); [apply only_ret|].
  apply only_bind; [apply only_get_state|]. intros s.
  destruct (start_of s pathname base) as [dir rest].
  apply only_bind; [apply only_vref, Q_vref|]. intros _.
  apply only_dir_namev_loop.
Qed.

End AnyQ.

(** X15. Name resolution is read-only and lock-free: from any state and
    with any driver, [lookup] and [dir_namev] emit nothing but vnode
    references, lookups and calls of the driver's lookup operation; they
    never take the namespace lock and never call another driver
    operation. *)
Theorem name_resolution_only_looks_up
    (dir base : option vno) (name pathname : string) (len : Z) :
  only namev_event (lookup drv NAME_LEN dir name len)
  /\ only namev_event (dir_namev drv NAME_LEN MAXPATHLEN pathname base).
Proof.
  split; [apply only_lookup | apply only_dir_namev];
    intros; solve [exact I | reflexivity].
Qed.

(** X16. The descriptor bookkeeping calls stay within the open-file cache:
    [do_lseek], [do_close], [do_dup] and [do_dup2] emit nothing but
    [fget] and [fput]; they never call the driver, never take or release a
    vnode reference themselves and never touch the namespace lock. *)
Theorem descriptor_calls_stay_in_cache (fd nfd offset whence : Z) :
  only fd_event (do_lseek NFILES fd offset whence : M D Z)
  /\ only fd_event (do_close NFILES fd : M D Z)
  /\ only fd_event (do_dup NFILES fd : M D Z)
  /\ only fd_event (do_dup2 NFILES fd nfd : M D Z).
Proof.
  assert (Hclose : forall fd', only fd_event (do_close NFILES fd' : M D Z))
    by (intros fd'; unfold do_close; only_auto').
  split; [|split; [exact (Hclose fd)|split]].
  - unfold do_lseek, seek_to. only_auto'.
  - unfold do_dup. only_auto'.
  - unfold do_dup2. repeat first [apply Hclose | only_step'].
Qed.

(** X17. The calls that only inspect the namespace never change it:
    [open_namev] without the O_CREAT bit, [do_chdir] and [do_stat] call no
    driver operation that changes a directory, whatever the path, the state
    and the driver. *)
Theorem inspecting_calls_are_read_only
    (path : option string) (flag : Z) (base : option vno)
    (buf : option unit) :
  has_bits flag O_CREAT = false ->
  only read_only (open_namev drv NAME_LEN MAXPATHLEN path flag base)
  /\ only read_only (do_chdir drv NAME_LEN MAXPATHLEN path)
  /\ only read_only (do_stat drv NAME_LEN MAXPATHLEN path buf).
Proof.
  intros Hflag.
  assert (Hl : forall dir name len,
             only read_only (lookup drv NAME_LEN dir name len))
    by (intros; apply only_lookup; intros; solve [exact I | reflexivity]).
  assert (Hd : forall p b,
             only read_only (dir_namev drv NAME_LEN MAXPATHLEN p b))
    by (intros; apply only_dir_namev; intros; solve [exact I | reflexivity]).
  assert (Hopen : forall p fl b, has_bits fl O_CREAT = false ->
             only read_only (open_namev drv NAME_LEN MAXPATHLEN p fl b)).
  { intros p fl b Hfl. unfold open_namev. rewrite Hfl.
    repeat first [apply Hl | apply Hd | only_step']. }
  split; [exact (Hopen path flag base Hflag)|]. split.
  - unfold do_chdir.
    repeat first [apply Hopen; reflexivity | apply Hl | apply Hd | only_step'].
  - unfold do_stat. repeat first [apply Hl | apply Hd | only_step'].
Qed.

End Never.


(** ** The namespace lock in the remaining calls *)

Section MoreLocks.
Context {D : Type} (drv : vfs_driver D).
Variables NAME_LEN MAXPATHLEN : Z.

Lemma locks_assoc {A B C} (h h' : bool) (m : M D A) (f : A -> M D B)
    (k : B -> M D C) :
  locks h (m ≫= fun a => f a ≫= k) h' -> locks h ((m ≫= f) ≫= k) h'.
Proof. intros H s. rewrite bind_assoc. apply H. Qed.

Ltac more_locks_prim :=
  first
    [ apply locks_ret | apply locks_panic | apply locks_fault
    | apply locks_call_op; reflexivity
    | apply locks_open_namev | apply locks_do_link
    | apply locks_do_rmdir | apply locks_do_unlink
    | apply locks_neutral;
      first [ apply lookup_neutral | apply dir_namev_neutral
            | solve [only_auto'] ] ].

Ltac more_locks_step :=
  lazymatch goal with
  | |- locks _ (mbind _ (mbind _ _)) _ => apply locks_assoc; cbv beta
  | |- locks _ (mbind _ (if ?b then _ else _)) _ => destruct b
  | |- locks _ (mbind _ (match ?x with _ => _ end)) _ => destruct x
  | |- locks _ (mbind _ _) _ =>
      eapply locks_bind; [more_locks_prim | intros; cbv beta]
  | |- locks _ (if ?b then _ else _) _ => destruct b
  | |- locks _ (match ?x with _ => _ end) _ => destruct x
  | |- _ => more_locks_prim
  end.

(** X18. [do_chdir], [do_stat] and [do_rename] follow the same lock
    discipline as the calls they are built from: the lock is taken only
    inside [open_namev], only when free, and it is free again on every
    return; in [do_rename] the link, rmdir and unlink operations of the
    driver are called without it. *)
Theorem remaining_calls_lock_discipline
    (s : kstate D) (path oldname newname : option string)
    (buf : option unit) :
  lock_discipline (do_chdir drv NAME_LEN MAXPATHLEN path s)
  /\ lock_discipline (do_stat drv NAME_LEN MAXPATHLEN path buf s)
  /\ lock_discipline (do_rename drv NAME_LEN MAXPATHLEN oldname newname s).
Proof.
  assert (Hchdir : locks false (do_chdir drv NAME_LEN MAXPATHLEN path) false)
    by (unfold do_chdir; repeat more_locks_step).
  assert (Hstat : locks false (do_stat drv NAME_LEN MAXPATHLEN path buf) false)
    by (unfold do_stat; repeat more_locks_step).
  assert (Hrename : locks false
                      (do_rename drv NAME_LEN MAXPATHLEN oldname newname) false)
    by (unfold do_rename; repeat more_locks_step).
  split; [apply Hchdir|]. split; [apply Hstat | apply Hrename].
Qed.

End MoreLocks.


(** ** Single-component lookup, case by case *)

Section LookupCases.
Context {D : Type} (drv : vfs_driver D).
Variables NAME_LEN MAXPATHLEN : Z.

(** X19. Dot identity: in a directory, looking up "." (with any length
    within NAME_LEN) or a name of length 0 returns the directory itself
    with one more reference, without calling the driver. *)
Theorem lookup_alias (s : kstate D) (d : vno) (vn : vnode_t)
    (name : string) (len : Z) :
  fs_vnodes (k_fs s) !! d = Some vn ->
  S_ISDIR (vn_mode vn) = true ->
  len <= NAME_LEN ->
  name = "."%string \/ len = 0 ->
  lookup drv NAME_LEN (Some d) name len s
  = ([EvLookup d (counted name len); EvVref d],
     Done (0, Some d)
       (set_vnodes s (<[d := vn_with_refcount vn (vn_refcount vn + 1)]>
                        (fs_vnodes (k_fs s))))).
Proof.
  intros Hv Hdir Hlen Halias. unfold lookup. eapply run_trace_eq.
  { run_by ltac:(apply run_emit). run_by ltac:(apply run_vnode_at, Hv).
    rewrite Hdir. replace (NAME_LEN <? len) with false by lia. cbn [negb].
    assert (Hcond : String.eqb name "." || (len =? 0) = true).
    { destruct Halias as [-> | ->]; [reflexivity|].
      rewrite Z.eqb_refl. apply orb_true_r. }
    rewrite Hcond.
    run_by ltac:(apply run_vref, Hv). apply run_ret. }
  reflexivity.
Qed.

(** X20. [lookup] refuses before it looks: in a vnode that is not a
    directory it returns [-ENOTDIR], whatever the name; in a directory a
    length above NAME_LEN gives [-ENAMETOOLONG].  The driver is not called
    and the state is unchanged. *)
Theorem lookup_rejects (s : kstate D) (d : vno) (vn : vnode_t)
    (name : string) (len : Z) :
  fs_vnodes (k_fs s) !! d = Some vn ->
  (S_ISDIR (vn_mode vn) = false ->
   lookup drv NAME_LEN (Some d) name len s
   = ([EvLookup d (counted name len)], Done (- ENOTDIR, None) s))
  /\ (S_ISDIR (vn_mode vn) = true ->
      NAME_LEN < len ->
      lookup drv NAME_LEN (Some d) name len s
      = ([EvLookup d (counted name len)], Done (- ENAMETOOLONG, None) s)).
Proof.
  intros Hv. split; [intros Hdir | intros Hdir Hlen]; unfold lookup;
    (eapply run_trace_eq;
     [ run_by ltac:(apply run_emit); run_by ltac:(apply run_vnode_at, Hv);
       rewrite Hdir; cbn [negb] | ]).
  - apply run_ret.
  - reflexivity.
  - replace (NAME_LEN <? len) with true by lia. apply run_ret.
  - reflexivity.
Qed.

(** X21. For a proper name in a directory that has a lookup operation,
    [lookup] is the driver's lookup on the counted name: a negative result
    is returned as it is, any other result becomes 0 together with the
    vnode the driver stored; the state is the one the driver left. *)
Theorem lookup_delegates (s : kstate D) (d : vno) (vn : vnode_t)
    (name : string) (len ret : Z) (result : option vno) (fs' : fs_t D) :
  fs_vnodes (k_fs s) !! d = Some vn ->
  S_ISDIR (vn_mode vn) = true ->
  0 < len <= NAME_LEN ->
  name <> "."%string ->
  has_op vn OpLookup = true ->
  fs_lookup drv d (counted name len) (k_fs s) = (fs', (ret, result)) ->
  lookup drv NAME_LEN (Some d) name len s
  = ([EvLookup d (counted name len); EvOp OpLookup d],
     Done (if ret <? 0 then (ret, None) else (0, result)) (set_fs s fs')).
Proof.
  intros Hv Hdir Hlen Hname Hop Hdrv. unfold lookup.
  assert (Hops : bool_decide (is_Some (vn_ops vn)) = true).
  { apply bool_decide_eq_true. unfold has_op in Hop.
    destruct (vn_ops vn); [eauto | discriminate]. }
  apply String.eqb_neq in Hname.
  destruct (ret <? 0) eqn:Hret;
    (eapply run_trace_eq;
     [ run_by ltac:(apply run_emit); run_by ltac:(apply run_vnode_at, Hv);
       rewrite Hdir; replace (NAME_LEN <? len) with false by lia;
       replace (len =? 0) with false by lia; rewrite Hname;
       cbn [negb orb]; rewrite Hops, Hop; cbn [KASSERT];
       run_by ltac:(apply run_ret); run_by ltac:(apply run_ret);
       run_by ltac:(eapply run_trace_eq;
                    [ unfold call_op; run_by ltac:(apply run_vnode_at, Hv);
                      rewrite Hop; run_by ltac:(apply run_emit);
                      unfold drv_call; rewrite Hdrv; reflexivity
                    | reflexivity ]);
       cbv beta iota; rewrite Hret; apply run_ret
     | reflexivity ]).
Qed.

End LookupCases.


(** ** Paths: argument errors, failing walks, the starting directory *)

Section PathCases.
Context {D : Type} (drv : vfs_driver D).
Variables NAME_LEN MAXPATHLEN : Z.

(** X22. A path longer than MAXPATHLEN is refused with [-ENAMETOOLONG]
    before anything is touched: by [dir_namev], by [open_namev] and by
    every path-based call (for [do_mknod] whatever the mode, for [do_link]
    and [do_rename] whichever of the two paths is too long, for [do_stat]
    when the buffer is not NULL; with a NULL buffer [do_stat] returns
    [-EINVAL], the test that comes first); no reference is taken, the
    driver is not called and the state is unchanged. *)
Theorem path_too_long_rejected
    (s : kstate D) (p q : string) (base : option vno) (flag mode devid : Z) :
  MAXPATHLEN < strlen p ->
  dir_namev drv NAME_LEN MAXPATHLEN p base s
  = ([], Done (inl (- ENAMETOOLONG)) s)
  /\ open_namev drv NAME_LEN MAXPATHLEN (Some p) flag base s
     = ([], Done (- ENAMETOOLONG, None) s)
  /\ do_mknod drv NAME_LEN MAXPATHLEN (Some p) mode devid s
     = ([], Done (- ENAMETOOLONG) s)
  /\ do_mkdir drv NAME_LEN MAXPATHLEN (Some p) s = ([], Done (- ENAMETOOLONG) s)
  /\ do_rmdir drv NAME_LEN MAXPATHLEN (Some p) s = ([], Done (- ENAMETOOLONG) s)
  /\ do_unlink drv NAME_LEN MAXPATHLEN (Some p) s = ([], Done (- ENAMETOOLONG) s)
  /\ do_chdir drv NAME_LEN MAXPATHLEN (Some p) s = ([], Done (- ENAMETOOLONG) s)
  /\ do_stat drv NAME_LEN MAXPATHLEN (Some p) (Some tt) s
     = ([], Done (- ENAMETOOLONG) s)
  /\ do_stat drv NAME_LEN MAXPATHLEN (Some p) None s = ([], Done (- EINVAL) s)
  /\ do_link drv NAME_LEN MAXPATHLEN (Some p) (Some q) s
     = ([], Done (- ENAMETOOLONG) s)
  /\ do_link drv NAME_LEN MAXPATHLEN (Some q) (Some p) s
     = ([], Done (- ENAMETOOLONG) s)
  /\ do_rename drv NAME_LEN MAXPATHLEN (Some p) (Some q) s
     = ([], Done (- ENAMETOOLONG) s)
  /\ do_rename drv NAME_LEN MAXPATHLEN (Some q) (Some p) s
     = ([], Done (- ENAMETOOLONG) s).
Proof.
  intros Hlong.
  assert (Hp : (MAXPATHLEN <? strlen p) = true) by lia.
  assert (Hd : forall b, dir_namev drv NAME_LEN MAXPATHLEN p b s
                         = ([], Done (inl (- ENAMETOOLONG)) s)).
  { intros b. unfold dir_namev. rewrite Hp. reflexivity. }
  assert (Hl1 : do_link drv NAME_LEN MAXPATHLEN (Some p) (Some q) s
                = ([], Done (- ENAMETOOLONG) s)).
  { unfold do_link. rewrite Hp. reflexivity. }
  assert (Hl2 : do_link drv NAME_LEN MAXPATHLEN (Some q) (Some p) s
                = ([], Done (- ENAMETOOLONG) s)).
  { unfold do_link. rewrite Hp, orb_true_r. reflexivity. }
  repeat split.
  - apply Hd.
  - unfold open_namev. rewrite <- (app_nil_l []). run_with (Hd base).
    reflexivity.
  - unfold do_mknod. rewrite Hp. reflexivity.
  - unfold do_mkdir. rewrite Hp. reflexivity.
  - unfold do_rmdir. rewrite Hp. reflexivity.
  - unfold do_unlink. rewrite Hp. reflexivity.
  - unfold do_chdir. rewrite Hp. reflexivity.
  - unfold do_stat. cbn [is_null]. rewrite Hp. reflexivity.
  - exact Hl1.
  - exact Hl2.
  - unfold do_rename. cbn [is_null negb andb KASSERT].
    rewrite <- (app_nil_l []). run_by ltac:(apply run_ret).
    rewrite <- (app_nil_l []). run_with Hl1. reflexivity.
  - unfold do_rename. cbn [is_null negb andb KASSERT].
    rewrite <- (app_nil_l []). run_by ltac:(apply run_ret).
    rewrite <- (app_nil_l []). run_with Hl2. reflexivity.
Qed.

(** X23. The other argument errors are [-EINVAL], again before anything is
    touched.  The empty path is refused by [dir_namev], and through it by
    [open_namev], [do_mkdir], [do_rmdir], [do_unlink], [do_chdir] and
    [do_stat].  A NULL path is refused by [do_mknod] (whatever the mode),
    [do_mkdir], [do_unlink], [do_chdir], [do_stat] and [do_link] (either
    argument); a NULL buffer is refused by [do_stat] whatever the path.
    For a path within MAXPATHLEN [do_mknod] refuses a mode that is neither
    S_IFCHR nor S_IFBLK. *)
Theorem invalid_arguments_rejected
    (s : kstate D) (p : string) (path other : option string)
    (base : option vno) (buf : option unit) (flag mode devid : Z) :
  (0 <= MAXPATHLEN ->
   dir_namev drv NAME_LEN MAXPATHLEN "" base s = ([], Done (inl (- EINVAL)) s)
   /\ open_namev drv NAME_LEN MAXPATHLEN (Some ""%string) flag base s
      = ([], Done (- EINVAL, None) s)
   /\ do_mkdir drv NAME_LEN MAXPATHLEN (Some ""%string) s
      = ([], Done (- EINVAL) s)
   /\ do_rmdir drv NAME_LEN MAXPATHLEN (Some ""%string) s
      = ([], Done (- EINVAL) s)
   /\ do_unlink drv NAME_LEN MAXPATHLEN (Some ""%string) s
      = ([], Done (- EINVAL) s)
   /\ do_chdir drv NAME_LEN MAXPATHLEN (Some ""%string) s
      = ([], Done (- EINVAL) s)
   /\ do_stat drv NAME_LEN MAXPATHLEN (Some ""%string) (Some tt) s
      = ([], Done (- EINVAL) s))
  /\ (do_mknod drv NAME_LEN MAXPATHLEN None mode devid s
      = ([], Done (- EINVAL) s)
      /\ do_mkdir drv NAME_LEN MAXPATHLEN None s = ([], Done (- EINVAL) s)
      /\ do_unlink drv NAME_LEN MAXPATHLEN None s = ([], Done (- EINVAL) s)
      /\ do_chdir drv NAME_LEN MAXPATHLEN None s = ([], Done (- EINVAL) s)
      /\ do_stat drv NAME_LEN MAXPATHLEN None buf s = ([], Done (- EINVAL) s)
      /\ do_stat drv NAME_LEN MAXPATHLEN path None s = ([], Done (- EINVAL) s)
      /\ do_link drv NAME_LEN MAXPATHLEN None other s = ([], Done (- EINVAL) s)
      /\ do_link drv NAME_LEN MAXPATHLEN other None s = ([], Done (- EINVAL) s))
  /\ (strlen p <= MAXPATHLEN ->
      mode <> S_IFCHR ->
      mode <> S_IFBLK ->
      do_mknod drv NAME_LEN MAXPATHLEN (Some p) mode devid s
      = ([], Done (- EINVAL) s)).
Proof.
  split; [|split].
  - intros Hmax.
    assert (H0 : (MAXPATHLEN <? strlen "") = false)
      by (apply Z.ltb_ge; unfold strlen; simpl; lia).
    assert (Hd : forall b, dir_namev drv NAME_LEN MAXPATHLEN "" b s
                           = ([], Done (inl (- EINVAL)) s)).
    { intros b. unfold dir_namev. rewrite H0. reflexivity. }
    repeat split.
    + apply Hd.
    + unfold open_namev. rewrite <- (app_nil_l []). run_with (Hd base).
      reflexivity.
    + unfold do_mkdir. rewrite H0, <- (app_nil_l []). run_with (Hd None).
      reflexivity.
    + unfold do_rmdir. rewrite H0, <- (app_nil_l []). run_with (Hd None).
      reflexivity.
    + unfold do_unlink. rewrite H0, <- (app_nil_l []). run_with (Hd None).
      reflexivity.
    + unfold do_chdir. rewrite H0, <- (app_nil_l []).
      run_by ltac:(unfold open_namev; rewrite <- (app_nil_l []);
                   run_with (Hd None); reflexivity).
      reflexivity.
    + unfold do_stat. cbn [is_null]. rewrite H0, <- (app_nil_l []).
      run_with (Hd None). reflexivity.
  - repeat split; try reflexivity.
    + destruct path; reflexivity.
    + destruct other; reflexivity.
  - intros Hp Hchr Hblk.
    unfold do_mknod. replace (MAXPATHLEN <? strlen p) with false by lia.
    replace (mode =? S_IFCHR) with false by lia.
    replace (mode =? S_IFBLK) with false by lia. reflexivity.
Qed.

(** X24. When the walk over the intermediate components fails, [dir_namev]
    returns the error of the walk, with the trace and the state the walk
    left: a failed lookup, a component above NAME_LEN and a component under
    something that is not a directory all surface as they arose. *)
Theorem dir_namev_propagates_error
    (s : kstate D) (p : string) (base : option vno)
    (tr : list event) (e : Z) (s' : kstate D) :
  p <> EmptyString ->
  strlen p <= MAXPATHLEN ->
  (vref (fst (start_of s p base));;
   resolve_components drv NAME_LEN (intermediate p) (fst (start_of s p base))) s
  = (tr, Done (inl e) s') ->
  dir_namev drv NAME_LEN MAXPATHLEN p base s = (tr, Done (inl e) s').
Proof.
  intros Hne Hmax Hwalk. unfold dir_namev.
  replace (MAXPATHLEN <? strlen p) with false by lia.
  assert (Hlen : (strlen p =? 0) = false).
  { destruct p; [congruence|]. unfold strlen. simpl. lia. }
  rewrite Hlen. rewrite <- (app_nil_l tr). run_by ltac:(reflexivity).
  pose proof (start_of_rest s p base) as Hrest.
  destruct (start_of s p base) as [dir rest]. simpl in Hrest, Hwalk. subst rest.
  transitivity
    (((vref dir;; resolve_components drv NAME_LEN (intermediate p) dir)
      ≫= fun r => return_basename r (basename p)) s).
  { rewrite bind_assoc. apply bind_ext. intros _ s1.
    apply dir_namev_loop_walk. lia. }
  rewrite <- (app_nil_r tr). run_with Hwalk. reflexivity.
Qed.

Lemma start_of_relative (s : kstate D) (p : string) (base : option vno) :
  (forall r, p <> String "/" r) ->
  start_of s p base
  = (match base with None => p_cwd s | Some _ => base end, p).
Proof.
  intros Hrel. destruct p as [|a r]; [destruct base; reflexivity|].
  destruct (Ascii.eqb_spec a "/") as [-> | Hne]; [exfalso; eapply Hrel; eauto|].
  destruct a as [[] [] [] [] [] [] [] []]; try congruence;
    destruct base; reflexivity.
Qed.

(** X25. Where resolution starts.  For a path [rel] that is not empty and
    does not begin with a slash: with a base, the first thing [dir_namev]
    does is take a reference on the base; with the slash in front the run
    is that of [rel] with the VFS root as base, whatever base was passed;
    without a base the run is that of [rel] with the working directory of
    the process as base.  The same holds for [open_namev]. *)
Theorem resolution_start
    (s : kstate D) (rel : string) (base : option vno) (root c b : vno)
    (flag : Z) :
  rel <> EmptyString ->
  (forall r', rel <> String "/" r') ->
  strlen rel < MAXPATHLEN ->
  vfs_root_vn s = Some root ->
  p_cwd s = Some c ->
  is_Some (fs_vnodes (k_fs s) !! b) ->
  (exists tr o,
      dir_namev drv NAME_LEN MAXPATHLEN rel (Some b) s = (EvVref b :: tr, o))
  /\ dir_namev drv NAME_LEN MAXPATHLEN (String "/" rel) base s
     = dir_namev drv NAME_LEN MAXPATHLEN rel (Some root) s
  /\ dir_namev drv NAME_LEN MAXPATHLEN rel None s
     = dir_namev drv NAME_LEN MAXPATHLEN rel (Some c) s
  /\ open_namev drv NAME_LEN MAXPATHLEN (Some (String "/" rel)) flag base s
     = open_namev drv NAME_LEN MAXPATHLEN (Some rel) flag (Some root) s
  /\ open_namev drv NAME_LEN MAXPATHLEN (Some rel) flag None s
     = open_namev drv NAME_LEN MAXPATHLEN (Some rel) flag (Some c) s.
Proof.
  intros Hne Hrel Hlen Hroot Hcwd [vn Hb].
  assert (Hlen0 : (strlen rel =? 0) = false).
  { destruct rel; [congruence|]. unfold strlen. simpl. lia. }
  assert (Hlen1 : strlen (String "/" rel) = strlen rel + 1).
  { unfold strlen. cbn [String.length]. lia. }
  assert (Hfrom : forall d,
             dir_namev drv NAME_LEN MAXPATHLEN rel (Some d) s
             = (vref (Some d);;
                dir_namev_loop drv NAME_LEN (S (String.length rel))
                  (Some d) rel) s).
  { intros d. unfold dir_namev.
    replace (MAXPATHLEN <? strlen rel) with false by lia. rewrite Hlen0.
    unfold mbind at 1, M_bind at 1, get_state.
    rewrite start_of_relative by exact Hrel.
    destruct ((vref (Some d);;
               dir_namev_loop drv NAME_LEN (S (String.length rel))
                 (Some d) rel) s) as [t o].
    reflexivity. }
  assert (Habs : dir_namev drv NAME_LEN MAXPATHLEN (String "/" rel) base s
                 = dir_namev drv NAME_LEN MAXPATHLEN rel (Some root) s).
  { rewrite Hfrom. unfold dir_namev.
    replace (MAXPATHLEN <? strlen (String "/" rel)) with false by lia.
    replace (strlen (String "/" rel) =? 0) with false
      by (unfold strlen in *; lia).
    unfold mbind at 1, M_bind at 1, get_state. cbn [start_of]. rewrite Hroot.
    destruct ((vref (Some root);;
               dir_namev_loop drv NAME_LEN (S (String.length rel))
                 (Some root) rel) s) as [t o].
    reflexivity. }
  assert (Hcw : dir_namev drv NAME_LEN MAXPATHLEN rel None s
                = dir_namev drv NAME_LEN MAXPATHLEN rel (Some c) s).
  { rewrite Hfrom. unfold dir_namev.
    replace (MAXPATHLEN <? strlen rel) with false by lia. rewrite Hlen0.
    unfold mbind at 1, M_bind at 1, get_state.
    rewrite start_of_relative by exact Hrel. rewrite Hcwd.
    destruct ((vref (Some c);;
               dir_namev_loop drv NAME_LEN (S (String.length rel))
                 (Some c) rel) s) as [t o].
    reflexivity. }
  split; [|split; [exact Habs | split; [exact Hcw | split]]].
  - rewrite Hfrom. unfold mbind, M_bind. rewrite (run_vref s b vn Hb).
    destruct (dir_namev_loop drv NAME_LEN (S (String.length rel)) (Some b) rel
                (set_vnodes s
                   (<[b := vn_with_refcount vn (vn_refcount vn + 1)]>
                      (fs_vnodes (k_fs s))))) as [t o].
    exists t, o. reflexivity.
  - unfold open_namev. apply bind_cong; [exact Habs | reflexivity].
  - unfold open_namev. apply bind_cong; [exact Hcw | reflexivity].
Qed.

End PathCases.


(** ** Path-based calls after resolution *)

Section AfterResolution.
Context {D : Type} (drv : vfs_driver D).
Variables NAME_LEN MAXPATHLEN : Z.

(** A step through a call whose result is a constructor the rest of the
    code matches on. *)
Ltac run_to H := eapply run_bind; [ exact H | cbv beta iota ].

(** [vput] of a vnode that is in the table: it stays in the table, and the
    driver's data, the open files and the process are untouched. *)
Lemma run_vput_present (s : kstate D) (v : vno) :
  is_Some (fs_vnodes (k_fs s) !! v) ->
  exists s',
    vput (Some v) s = ([EvVput v], Done tt s')
    /\ fs_data (k_fs s') = fs_data (k_fs s)
    /\ (forall w, is_Some (fs_vnodes (k_fs s) !! w) ->
                  is_Some (fs_vnodes (k_fs s') !! w))
    /\ vnode_refs s' v = vnode_refs s v - 1
    /\ (forall w, w <> v -> vnode_refs s' w = vnode_refs s w).
Proof.
  intros [vn Hv]. eexists. split; [apply run_vput, Hv|].
  split; [reflexivity|]. split; [|split].
  - intros w Hw. simpl. destruct (decide (v = w)) as [-> | Hne].
    + rewrite lookup_insert_eq. eauto.
    + rewrite lookup_insert_ne by exact Hne. exact Hw.
  - rewrite vnode_refs_set, (vnode_refs_lookup s v vn Hv). reflexivity.
  - intros w Hne. unfold vnode_refs. simpl.
    rewrite lookup_insert_ne by congruence. reflexivity.
Qed.

(** X26. [do_rmdir] never hands "." or ".." to the driver: when resolution
    has returned a directory as parent with one of these as basename, the
    parent is released and the call returns [-EINVAL] for "." and
    [-ENOTEMPTY] for "..". *)
Theorem do_rmdir_special_names
    (s s1 : kstate D) (p name : string) (tr : list event) (namelen : Z)
    (pv : vno) (vn : vnode_t) :
  strlen p <= MAXPATHLEN ->
  dir_namev drv NAME_LEN MAXPATHLEN p None s
  = (tr, Done (inr (namelen, name, Some pv)) s1) ->
  namelen <= NAME_LEN ->
  fs_vnodes (k_fs s1) !! pv = Some vn ->
  S_ISDIR (vn_mode vn) = true ->
  name = "."%string \/ name = ".."%string ->
  do_rmdir drv NAME_LEN MAXPATHLEN (Some p) s
  = (tr ++ [EvVput pv],
     Done (if String.eqb name "." then - EINVAL else - ENOTEMPTY)
       (set_vnodes s1 (<[pv := vn_with_refcount vn (vn_refcount vn - 1)]>
                         (fs_vnodes (k_fs s1))))).
Proof.
  intros Hmax Hd Hlen Hv Hdir Hname. unfold do_rmdir.
  replace (MAXPATHLEN <? strlen p) with false by lia.
  destruct Hname as [-> | ->]; cbn [String.eqb Ascii.eqb Bool.eqb];
    (eapply run_trace_eq;
     [ run_to Hd; replace (NAME_LEN <? namelen) with false by lia;
       run_by ltac:(apply run_vnode_at, Hv); rewrite Hdir; cbn [negb];
       run_by ltac:(apply run_vput, Hv); apply run_ret
     | reflexivity ]).
Qed.

(** X27. [do_unlink] refuses a directory: when the basename resolves to a
    directory the call returns [-EPERM]; the driver's unlink is not called
    and both the parent and the target are released. *)
Theorem do_unlink_refuses_directory
    (s s1 s2 : kstate D) (p name : string) (tr tl : list event) (namelen : Z)
    (pv t : vno) (tvn : vnode_t) :
  strlen p <= MAXPATHLEN ->
  dir_namev drv NAME_LEN MAXPATHLEN p None s
  = (tr, Done (inr (namelen, name, Some pv)) s1) ->
  namelen <= NAME_LEN ->
  lookup drv NAME_LEN (Some pv) name namelen s1 = (tl, Done (0, Some t) s2) ->
  fs_vnodes (k_fs s2) !! t = Some tvn ->
  S_ISDIR (vn_mode tvn) = true ->
  is_Some (fs_vnodes (k_fs s2) !! pv) ->
  exists s3,
    do_unlink drv NAME_LEN MAXPATHLEN (Some p) s
    = (tr ++ tl ++ [EvVput pv; EvVput t], Done (- EPERM) s3)
    /\ fs_data (k_fs s3) = fs_data (k_fs s2).
Proof.
  intros Hmax Hd Hlen Hl Ht Hdir Hpv.
  destruct (run_vput_present s2 pv Hpv) as (sa & Hputp & Hda & Hkeep & _).
  destruct (run_vput_present sa t) as (sb & Hputt & Hdb & _).
  { apply Hkeep. eauto. }
  exists sb. split; [|congruence].
  unfold do_unlink. replace (MAXPATHLEN <? strlen p) with false by lia.
  eapply run_trace_eq.
  { run_to Hd. replace (NAME_LEN <? namelen) with false by lia.
    run_to Hl. change (0 <? 0) with false. cbv iota.
    run_by ltac:(apply run_vnode_at, Ht). rewrite Hdir.
    run_with Hputp. run_with Hputt. apply run_ret. }
  reflexivity.
Qed.

(** X28. [do_mkdir] and [do_mknod] refuse a name that exists: when the
    probing lookup of the basename succeeds the call returns [-EEXIST]; the
    driver's mkdir or mknod is not called and both the parent and the
    vnode found are released. *)
Theorem existing_name_refused
    (s s1 s2 : kstate D) (p name : string) (tr tl : list event) (namelen : Z)
    (pv t : vno) (vn : vnode_t) (mode devid : Z) :
  strlen p <= MAXPATHLEN ->
  dir_namev drv NAME_LEN MAXPATHLEN p None s
  = (tr, Done (inr (namelen, name, Some pv)) s1) ->
  namelen <= NAME_LEN ->
  fs_vnodes (k_fs s1) !! pv = Some vn ->
  S_ISDIR (vn_mode vn) = true ->
  has_op vn OpLookup = true ->
  lookup drv NAME_LEN (Some pv) name namelen s1 = (tl, Done (0, Some t) s2) ->
  is_Some (fs_vnodes (k_fs s2) !! pv) ->
  is_Some (fs_vnodes (k_fs s2) !! t) ->
  mode = S_IFCHR \/ mode = S_IFBLK ->
  exists s3,
    do_mkdir drv NAME_LEN MAXPATHLEN (Some p) s
    = (tr ++ tl ++ [EvVput pv; EvVput t], Done (- EEXIST) s3)
    /\ do_mknod drv NAME_LEN MAXPATHLEN (Some p) mode devid s
       = (tr ++ tl ++ [EvVput pv; EvVput t], Done (- EEXIST) s3)
    /\ fs_data (k_fs s3) = fs_data (k_fs s2).
Proof.
  intros Hmax Hd Hlen Hv Hdir Hop Hl Hpv Ht Hmode.
  destruct (run_vput_present s2 pv Hpv) as (sa & Hputp & Hda & Hkeep & _).
  destruct (run_vput_present sa t (Hkeep t Ht)) as (sb & Hputt & Hdb & _).
  pose proof (run_assert_op s1 pv vn OpLookup Hv Hop) as Hassert.
  exists sb. split; [|split; [|congruence]].
  - unfold do_mkdir. replace (MAXPATHLEN <? strlen p) with false by lia.
    eapply run_trace_eq.
    { run_to Hd. run_by ltac:(apply run_vnode_at, Hv). rewrite Hdir.
      replace (NAME_LEN <? namelen) with false by lia. cbn [negb].
      run_with Hassert. run_to Hl. change (0 =? 0) with true. cbv iota.
      run_with Hputp. run_with Hputt. apply run_ret. }
    reflexivity.
  - unfold do_mknod. replace (MAXPATHLEN <? strlen p) with false by lia.
    assert (Hm : negb (mode =? S_IFCHR) && negb (mode =? S_IFBLK) = false).
    { destruct Hmode as [-> | ->]; reflexivity. }
    rewrite Hm. eapply run_trace_eq.
    { run_to Hd. replace (NAME_LEN <? namelen) with false by lia.
      run_by ltac:(apply run_vnode_at, Hv). rewrite Hdir. cbn [negb].
      run_with Hassert. run_to Hl. change (0 =? 0) with true. cbv iota.
      run_with Hputp. run_with Hputt. apply run_ret. }
    reflexivity.
Qed.

(** X29. [do_mkdir] of a name that does not resolve hands the parent and
    the counted basename to the driver's mkdir, returns what the driver
    returns, and releases the parent after the driver has returned. *)
Theorem do_mkdir_delegates
    (s s1 s2 : kstate D) (p name : string) (tr tl : list event)
    (namelen ret2 ret3 : Z) (result : option vno) (pv : vno)
    (vn vn2 vn3 : vnode_t) (fs' : fs_t D) :
  strlen p <= MAXPATHLEN ->
  dir_namev drv NAME_LEN MAXPATHLEN p None s
  = (tr, Done (inr (namelen, name, Some pv)) s1) ->
  namelen <= NAME_LEN ->
  fs_vnodes (k_fs s1) !! pv = Some vn ->
  S_ISDIR (vn_mode vn) = true ->
  has_op vn OpLookup = true ->
  lookup drv NAME_LEN (Some pv) name namelen s1
  = (tl, Done (ret2, result) s2) ->
  ret2 <> 0 ->
  fs_vnodes (k_fs s2) !! pv = Some vn2 ->
  has_op vn2 OpMkdir = true ->
  fs_mkdir drv pv (counted name namelen) (k_fs s2) = (fs', ret3) ->
  fs_vnodes fs' !! pv = Some vn3 ->
  do_mkdir drv NAME_LEN MAXPATHLEN (Some p) s
  = (tr ++ tl ++ [EvOp OpMkdir pv; EvVput pv],
     Done ret3
       (set_vnodes (set_fs s2 fs')
          (<[pv := vn_with_refcount vn3 (vn_refcount vn3 - 1)]>
             (fs_vnodes fs')))).
Proof.
  intros Hmax Hd Hlen Hv Hdir Hop Hl Hret Hv2 Hop2 Hdrv Hv3.
  unfold do_mkdir. replace (MAXPATHLEN <? strlen p) with false by lia.
  eapply run_trace_eq.
  { run_to Hd. run_by ltac:(apply run_vnode_at, Hv). rewrite Hdir.
    replace (NAME_LEN <? namelen) with false by lia. cbn [negb].
    run_with (run_assert_op s1 pv vn OpLookup Hv Hop). run_to Hl.
    replace (ret2 =? 0) with false by lia.
    run_with (run_assert_op s2 pv vn2 OpMkdir Hv2 Hop2).
    run_by ltac:(eapply run_trace_eq;
                 [ unfold call_op; run_by ltac:(apply run_vnode_at, Hv2);
                   rewrite Hop2; run_by ltac:(apply run_emit);
                   unfold drv_call; rewrite Hdrv; reflexivity
                 | reflexivity ]).
    run_by ltac:(apply (run_vput (set_fs s2 fs') pv vn3); exact Hv3).
    apply run_ret. }
  reflexivity.
Qed.

(** X30. [do_chdir]: when the path resolves to a directory it becomes the
    working directory, keeping the reference [open_namev] took, and the
    previous working directory is released; when it resolves to something
    else the call returns [-ENOTDIR], releases what it resolved and leaves
    the working directory as it was. *)
Theorem do_chdir_moves
    (s s1 : kstate D) (p : string) (tr : list event) (v c : vno)
    (vn cvn : vnode_t) :
  strlen p <= MAXPATHLEN ->
  open_namev drv NAME_LEN MAXPATHLEN (Some p) 0 None s
  = (tr, Done (0, Some v) s1) ->
  fs_vnodes (k_fs s1) !! v = Some vn ->
  p_cwd s1 = Some c ->
  fs_vnodes (k_fs s1) !! c = Some cvn ->
  do_chdir drv NAME_LEN MAXPATHLEN (Some p) s
  = if S_ISDIR (vn_mode vn) then
      (tr ++ [EvVput c],
       Done 0
         (set_p_cwd
            (set_vnodes s1 (<[c := vn_with_refcount cvn (vn_refcount cvn - 1)]>
                              (fs_vnodes (k_fs s1))))
            (Some v)))
    else
      (tr ++ [EvVput v],
       Done (- ENOTDIR)
         (set_vnodes s1 (<[v := vn_with_refcount vn (vn_refcount vn - 1)]>
                           (fs_vnodes (k_fs s1))))).
Proof.
  intros Hmax Ho Hv Hcwd Hc. unfold do_chdir.
  replace (MAXPATHLEN <? strlen p) with false by lia.
  destruct (S_ISDIR (vn_mode vn)) eqn:Hdir;
    (eapply run_trace_eq;
     [ run_to Ho; change (0 <? 0) with false; cbv iota;
       run_by ltac:(apply run_vnode_at, Hv); rewrite Hdir; cbn [negb] | ]).
  - run_by ltac:(reflexivity). rewrite Hcwd.
    run_by ltac:(apply run_vput, Hc). run_by ltac:(reflexivity). apply run_ret.
  - reflexivity.
  - run_by ltac:(apply run_vput, Hv). apply run_ret.
  - reflexivity.
Qed.

End AfterResolution.

(** * The further properties on the RAM file system *)

(** The hypotheses of the properties above, met by the states of [RamFS]. *)

Ltac by_running :=
  first [ vm_compute; reflexivity
        | unfold NFILES, NAME_LEN, MAXPATHLEN, INT_MIN, INT_MAX; simpl; lia
        | discriminate ].

Ltac is_open := unfold open_file; repeat split; by_running.

(** Through descriptor 1 of [boot], open at offset 0 on the 100 bytes of
    [/a/f]: 7 bytes forward; and INT_MAX bytes past the end, where the sum
    100 + INT_MAX wraps to a negative number. *)
Lemma do_lseek_open_witness :
  do_lseek NFILES 1 7 SEEK_CUR boot
  = ([EvFget 0%nat; EvFput 0%nat],
     Done 7 (set_files boot (<[0%nat := f_with_pos file_f 7]> (k_files boot))))
  /\ do_lseek NFILES 1 INT_MAX SEEK_END boot
     = ([EvFget 0%nat; EvFput 0%nat], Done (- EINVAL) boot).
Proof.
  assert (Hopen : open_file NFILES boot 1 0%nat file_f) by is_open.
  assert (Hv : fs_vnodes (k_fs boot) !! f_vnode file_f
               = Some (reg_vnode 1 100)) by (vm_compute; reflexivity).
  split.
  - apply (do_lseek_open NFILES boot 1 0%nat file_f (reg_vnode 1 100) 7
             SEEK_CUR Hopen Hv).
    right. left. reflexivity.
  - apply (do_lseek_open NFILES boot 1 0%nat file_f (reg_vnode 1 100) INT_MAX
             SEEK_END Hopen Hv).
    right. right. reflexivity.
Defined.

(** On [boot]: descriptor -1, the free descriptor 0, and origin 9 through
    the open descriptor 1. *)
Lemma do_lseek_rejects_witness :
  do_lseek NFILES (-1) 0 SEEK_SET boot = ([], Done (- EBADF) boot)
  /\ do_lseek NFILES 0 0 SEEK_SET boot = ([], Done (- EBADF) boot)
  /\ do_lseek NFILES 1 0 9 boot = ([], Done (- EINVAL) boot).
Proof.
  split; [|split].
  - destruct (do_lseek_rejects NFILES boot (-1) 0 SEEK_SET None) as [H _].
    apply H. lia.
  - destruct (do_lseek_rejects NFILES boot 0 0 SEEK_SET None) as [_ H].
    destruct H as [H _]; [unfold NFILES; lia | reflexivity |].
    apply H. reflexivity.
  - destruct (do_lseek_rejects NFILES boot 1 0 9 (Some 0%nat)) as [_ H].
    destruct H as [_ H]; [unfold NFILES; lia | reflexivity |].
    apply H; discriminate.
Defined.

(** Closing the free descriptor 0 of [boot]. *)
Lemma do_close_not_open_witness :
  do_close NFILES 0 boot = ([], Done (- EBADF) boot).
Proof.
  apply (do_close_not_open NFILES boot 0). right. right. reflexivity.
Defined.

(** Duplicating descriptor 1 of [boot_busy], whose lowest free descriptor
    is 3. *)
Lemma do_dup_installs_witness :
  do_dup NFILES 1 boot_busy
  = ([EvFget 0%nat],
     Done 3
       (set_p_files
          (set_files boot_busy
             (<[0%nat := f_with_refcount file_f 3]> (k_files boot_busy)))
          (<[3%nat := Some 0%nat]> (p_files boot_busy)))).
Proof.
  apply (do_dup_installs NFILES boot_busy 1 0%nat (f_with_refcount file_f 2) 3).
  - is_open.
  - vm_compute. reflexivity.
  - lia.
Defined.

(** Duplicating descriptor 1 of [boot_busy] and closing descriptor 3. *)
Lemma do_dup_then_close_witness :
  (do_dup NFILES 1 ≫= do_close NFILES) boot_busy
  = ([EvFget 0%nat; EvFget 0%nat; EvFput 0%nat; EvFput 0%nat],
     Done 0 boot_busy).
Proof.
  apply (do_dup_then_close NFILES boot_busy 1 0%nat
           (f_with_refcount file_f 2) 3).
  - is_open.
  - vm_compute. reflexivity.
  - lia.
Defined.

(** Descriptor 1 of [boot] onto itself and onto the free descriptor 5. *)
Lemma do_dup2_installs_witness :
  do_dup2 NFILES 1 1 boot = ([], Done 1 boot)
  /\ do_dup2 NFILES 1 5 boot
     = ([EvFget 0%nat],
        Done 5
          (set_p_files
             (set_files boot
                (<[0%nat := f_with_refcount file_f 2]> (k_files boot)))
             (<[5%nat := Some 0%nat]> (p_files boot)))).
Proof.
  destruct (do_dup2_installs NFILES boot 1 5 0%nat file_f) as [Hsame Hfree].
  - is_open.
  - split; [exact Hsame|].
    apply Hfree; [unfold NFILES; lia | lia | reflexivity].
Defined.

(** Descriptor 1 of [boot] (the file [/a/f]) onto descriptor 2 (the
    directory [/a]). *)
Lemma do_dup2_replaces_witness :
  exists s',
    do_dup2 NFILES 1 2 boot
    = ([EvFget 1%nat; EvFput 1%nat; EvFput 1%nat; EvFget 0%nat], Done 2 s')
    /\ p_files s' = <[2%nat := Some 0%nat]> (p_files boot)
    /\ file_refs s' 0%nat = file_refs boot 0%nat + 1
    /\ file_refs s' 1%nat = file_refs boot 1%nat - 1.
Proof.
  apply (do_dup2_replaces NFILES boot 1 2 0%nat 1%nat file_f file_a).
  - is_open.
  - is_open.
  - exists (dir_vnode 1). vm_compute. reflexivity.
  - discriminate.
Defined.

(** Reading 10 of the 100 bytes of [/a/f] through descriptor 1 of [boot]. *)
Lemma do_read_advances_witness :
  do_read driver NFILES 1 10 boot
  = ([EvFget 0%nat; EvOp OpRead 4%nat; EvFput 0%nat],
     Done 10
       (set_files (set_fs boot (k_fs boot))
          (<[0%nat := f_with_pos file_f 10]> (k_files boot)))).
Proof.
  apply (do_read_advances driver NFILES boot 1 0%nat file_f (reg_vnode 1 100)
           10 10 (k_fs boot)).
  - is_open.
  - reflexivity.
  - vm_compute. reflexivity.
  - reflexivity.
  - reflexivity.
  - vm_compute. reflexivity.
Defined.

(** Writing 10 bytes at offset 0 of [/a/f] through descriptor 1 of
    [boot]. *)
Lemma do_write_advances_witness :
  do_write driver NFILES 1 10 boot
  = ([EvFget 0%nat; EvOp OpWrite 4%nat; EvFput 0%nat],
     Done 10
       (set_files (set_fs boot (fst (ram_write 4%nat 0 10 (k_fs boot))))
          (<[0%nat := f_with_pos file_f 10]> (k_files boot)))).
Proof.
  apply (do_write_advances driver NFILES boot 1 0%nat file_f (reg_vnode 1 100)
           10 10 (fst (ram_write 4%nat 0 10 (k_fs boot)))).
  - is_open.
  - reflexivity.
  - reflexivity.
  - vm_compute. reflexivity.
  - reflexivity.
  - vm_compute. reflexivity.
Defined.

(** Appending 10 bytes to the 100 bytes of [/a/f] through descriptor 1 of
    [boot_append], whose offset is 5: the write lands at 100 and the offset
    ends at 110. *)
Lemma do_write_appends_witness :
  do_write driver NFILES 1 10 boot_append
  = ([EvFget 0%nat; EvFget 0%nat; EvFput 0%nat; EvOp OpWrite 4%nat;
      EvFput 0%nat],
     Done 10
       (set_files
          (set_fs boot_append
             (fst (ram_write 4%nat 100 10 (k_fs boot_append))))
          (<[0%nat := f_with_pos file_app 110]> (k_files boot_append)))).
Proof.
  apply (do_write_appends driver NFILES boot_append 1 0%nat file_app
           (reg_vnode 1 100) 10 10
           (fst (ram_write 4%nat 100 10 (k_fs boot_append)))).
  - is_open.
  - reflexivity.
  - reflexivity.
  - vm_compute. reflexivity.
  - by_running.
  - reflexivity.
  - vm_compute. reflexivity.
Defined.

(** Reading through the write-only descriptor 1 of [boot_wronly]; reading
    and writing through descriptor 2 of [boot], open for reading on the
    directory [/a]. *)
Lemma do_read_write_reject_witness :
  do_read driver NFILES 1 10 boot_wronly
  = ([EvFget 0%nat; EvFput 0%nat], Done (- EBADF) boot_wronly)
  /\ do_read driver NFILES 2 10 boot
     = ([EvFget 1%nat; EvFput 1%nat], Done (- EISDIR) boot)
  /\ do_write driver NFILES 2 10 boot
     = ([EvFget 1%nat; EvFput 1%nat], Done (- EBADF) boot).
Proof.
  destruct (do_read_write_reject driver NFILES boot_wronly 1 0%nat file_wo
              (reg_vnode 1 100) 10) as (Hmode & _ & _).
  { is_open. }
  { vm_compute. reflexivity. }
  destruct (do_read_write_reject driver NFILES boot 2 1%nat file_a
              (dir_vnode 1) 10) as (_ & Hdir & Hwrite).
  { is_open. }
  { vm_compute. reflexivity. }
  split; [apply Hmode; reflexivity|].
  split; [apply Hdir; reflexivity | apply Hwrite; reflexivity].
Defined.

(** The first entry of [/a] through descriptor 2 of [boot]. *)
Lemma do_getdent_progress_witness :
  do_getdent driver NFILES SIZEOF_DIRENT 2 boot
  = ([EvFget 1%nat; EvOp OpReaddir 1%nat; EvFput 1%nat],
     Done SIZEOF_DIRENT
       (set_files (set_fs boot (k_fs boot))
          (<[1%nat := f_with_pos file_a 1]> (k_files boot)))).
Proof.
  apply (do_getdent_progress driver NFILES SIZEOF_DIRENT boot 2 1%nat file_a
           (dir_vnode 1) 1 (k_fs boot)).
  - is_open.
  - vm_compute. reflexivity.
  - reflexivity.
  - reflexivity.
  - vm_compute. reflexivity.
  - lia.
  - by_running.
Defined.

(** Descriptor 1 of [boot] is open on the regular file [/a/f]. *)
Lemma do_getdent_rejects_witness :
  do_getdent driver NFILES SIZEOF_DIRENT 1 boot
  = ([EvFget 0%nat; EvFput 0%nat], Done (- ENOTDIR) boot).
Proof.
  apply (do_getdent_rejects driver NFILES SIZEOF_DIRENT boot 1 0%nat file_f
           (reg_vnode 1 100)).
  - is_open.
  - vm_compute. reflexivity.
  - reflexivity.
Defined.

(** Opening without [O_CREAT], entering and inspecting [/a/b]. *)
Lemma inspecting_calls_are_read_only_witness :
  only read_only
    (open_namev driver NAME_LEN MAXPATHLEN (Some "/a/b"%string) 0 None)
  /\ only read_only (do_chdir driver NAME_LEN MAXPATHLEN (Some "/a/b"%string))
  /\ only read_only
       (do_stat driver NAME_LEN MAXPATHLEN (Some "/a/b"%string) (Some tt)).
Proof.
  apply (inspecting_calls_are_read_only driver NAME_LEN MAXPATHLEN
           (Some "/a/b"%string) 0 None (Some tt)).
  reflexivity.
Defined.

(** "." in the root of [boot]. *)
Lemma lookup_alias_witness :
  lookup driver NAME_LEN (Some 0%nat) "." 1 boot
  = ([EvLookup 0%nat "."; EvVref 0%nat],
     Done (0, Some 0%nat)
       (set_vnodes boot (<[0%nat := dir_vnode 3]> (fs_vnodes (k_fs boot))))).
Proof.
  apply (lookup_alias driver NAME_LEN boot 0%nat (dir_vnode 2) "." 1).
  - vm_compute. reflexivity.
  - reflexivity.
  - unfold NAME_LEN. lia.
  - left. reflexivity.
Defined.

(** A name in the regular file [/a/f], and a 29-character name in the
    root. *)
Lemma lookup_rejects_witness :
  lookup driver NAME_LEN (Some 4%nat) "x" 1 boot
  = ([EvLookup 4%nat "x"], Done (- ENOTDIR, None) boot)
  /\ lookup driver NAME_LEN (Some 0%nat) overlong 29 boot
     = ([EvLookup 0%nat (counted overlong 29)],
        Done (- ENAMETOOLONG, None) boot).
Proof.
  destruct (lookup_rejects driver NAME_LEN boot 4%nat (reg_vnode 1 100) "x" 1)
    as [Hfile _].
  { vm_compute. reflexivity. }
  destruct (lookup_rejects driver NAME_LEN boot 0%nat (dir_vnode 2) overlong 29)
    as [_ Hlong].
  { vm_compute. reflexivity. }
  split; [apply Hfile; reflexivity|].
  apply Hlong; [reflexivity | unfold NAME_LEN; lia].
Defined.

(** The first component of [a/b] in the root of [boot]: the driver is
    asked for [a] and answers with vnode 1. *)
Lemma lookup_delegates_witness :
  lookup driver NAME_LEN (Some 0%nat) "a/b" 1 boot
  = ([EvLookup 0%nat "a"; EvOp OpLookup 0%nat],
     Done (0, Some 1%nat)
       (set_fs boot (fst (ram_lookup 0%nat "a" (k_fs boot))))).
Proof.
  apply (lookup_delegates driver NAME_LEN boot 0%nat (dir_vnode 2) "a/b" 1 0
           (Some 1%nat) (fst (ram_lookup 0%nat "a" (k_fs boot)))).
  - vm_compute. reflexivity.
  - reflexivity.
  - unfold NAME_LEN. lia.
  - discriminate.
  - reflexivity.
  - vm_compute. reflexivity.
Defined.

(** A path of 1025 characters, one more than [MAXPATHLEN]. *)
Lemma path_too_long_rejected_witness :
  dir_namev driver NAME_LEN MAXPATHLEN long_path None boot
  = ([], Done (inl (- ENAMETOOLONG)) boot)
  /\ open_namev driver NAME_LEN MAXPATHLEN (Some long_path) O_CREAT None boot
     = ([], Done (- ENAMETOOLONG, None) boot)
  /\ do_mknod driver NAME_LEN MAXPATHLEN (Some long_path) S_IFCHR 7 boot
     = ([], Done (- ENAMETOOLONG) boot)
  /\ do_mkdir driver NAME_LEN MAXPATHLEN (Some long_path) boot
     = ([], Done (- ENAMETOOLONG) boot)
  /\ do_rmdir driver NAME_LEN MAXPATHLEN (Some long_path) boot
     = ([], Done (- ENAMETOOLONG) boot)
  /\ do_unlink driver NAME_LEN MAXPATHLEN (Some long_path) boot
     = ([], Done (- ENAMETOOLONG) boot)
  /\ do_chdir driver NAME_LEN MAXPATHLEN (Some long_path) boot
     = ([], Done (- ENAMETOOLONG) boot)
  /\ do_stat driver NAME_LEN MAXPATHLEN (Some long_path) (Some tt) boot
     = ([], Done (- ENAMETOOLONG) boot)
  /\ do_stat driver NAME_LEN MAXPATHLEN (Some long_path) None boot
     = ([], Done (- EINVAL) boot)
  /\ do_link driver NAME_LEN MAXPATHLEN (Some long_path) (Some "/a/f"%string)
       boot
     = ([], Done (- ENAMETOOLONG) boot)
  /\ do_link driver NAME_LEN MAXPATHLEN (Some "/a/f"%string) (Some long_path)
       boot
     = ([], Done (- ENAMETOOLONG) boot)
  /\ do_rename driver NAME_LEN MAXPATHLEN (Some long_path)
       (Some "/a/f"%string) boot
     = ([], Done (- ENAMETOOLONG) boot)
  /\ do_rename driver NAME_LEN MAXPATHLEN (Some "/a/f"%string)
       (Some long_path) boot
     = ([], Done (- ENAMETOOLONG) boot).
Proof.
  apply (path_too_long_rejected driver NAME_LEN MAXPATHLEN boot long_path
           "/a/f" None O_CREAT S_IFCHR 7).
  vm_compute. reflexivity.
Defined.

(** On [boot]: the empty path; the NULL path, for [do_mknod] with the
    valid mode S_IFCHR, and the NULL buffer of [do_stat]; and [do_mknod] of
    [/a/x] as a regular file. *)
Lemma invalid_arguments_rejected_witness :
  (dir_namev driver NAME_LEN MAXPATHLEN "" None boot
   = ([], Done (inl (- EINVAL)) boot)
   /\ open_namev driver NAME_LEN MAXPATHLEN (Some ""%string) 0 None boot
      = ([], Done (- EINVAL, None) boot)
   /\ do_mkdir driver NAME_LEN MAXPATHLEN (Some ""%string) boot
      = ([], Done (- EINVAL) boot)
   /\ do_rmdir driver NAME_LEN MAXPATHLEN (Some ""%string) boot
      = ([], Done (- EINVAL) boot)
   /\ do_unlink driver NAME_LEN MAXPATHLEN (Some ""%string) boot
      = ([], Done (- EINVAL) boot)
   /\ do_chdir driver NAME_LEN MAXPATHLEN (Some ""%string) boot
      = ([], Done (- EINVAL) boot)
   /\ do_stat driver NAME_LEN MAXPATHLEN (Some ""%string) (Some tt) boot
      = ([], Done (- EINVAL) boot))
  /\ (do_mknod driver NAME_LEN MAXPATHLEN None S_IFCHR 7 boot
      = ([], Done (- EINVAL) boot)
      /\ do_mkdir driver NAME_LEN MAXPATHLEN None boot
         = ([], Done (- EINVAL) boot)
      /\ do_unlink driver NAME_LEN MAXPATHLEN None boot
         = ([], Done (- EINVAL) boot)
      /\ do_chdir driver NAME_LEN MAXPATHLEN None boot
         = ([], Done (- EINVAL) boot)
      /\ do_stat driver NAME_LEN MAXPATHLEN None (Some tt) boot
         = ([], Done (- EINVAL) boot)
      /\ do_stat driver NAME_LEN MAXPATHLEN (Some "/a/f"%string) None boot
         = ([], Done (- EINVAL) boot)
      /\ do_link driver NAME_LEN MAXPATHLEN None (Some "/a/g"%string) boot
         = ([], Done (- EINVAL) boot)
      /\ do_link driver NAME_LEN MAXPATHLEN (Some "/a/g"%string) None boot
         = ([], Done (- EINVAL) boot))
  /\ do_mknod driver NAME_LEN MAXPATHLEN (Some "/a/x"%string) S_IFREG 0 boot
     = ([], Done (- EINVAL) boot).
Proof.
  destruct (invalid_arguments_rejected driver NAME_LEN MAXPATHLEN boot "/a/x"
              (Some "/a/f"%string) (Some "/a/g"%string) None (Some tt)
              0 S_IFCHR 7) as (Hempty & Hnull & _).
  destruct (invalid_arguments_rejected driver NAME_LEN MAXPATHLEN boot "/a/x"
              (Some "/a/f"%string) (Some "/a/g"%string) None (Some tt)
              0 S_IFREG 0) as (_ & _ & Hmode).
  split; [apply Hempty; unfold MAXPATHLEN; lia|].
  split; [exact Hnull|].
  apply Hmode; [vm_compute; discriminate | discriminate | discriminate].
Defined.

(** [/nope/x] on [boot]: the walk fails in the root, which has no entry
    [nope]. *)
Lemma dir_namev_propagates_error_witness :
  exists s',
    dir_namev driver NAME_LEN MAXPATHLEN "/nope/x" None boot
    = ([EvVref 0%nat; EvLookup 0%nat "nope"; EvOp OpLookup 0%nat;
        EvVput 0%nat],
       Done (inl (- ENOENT)) s').
Proof.
  eexists.
  apply (dir_namev_propagates_error driver NAME_LEN MAXPATHLEN boot "/nope/x"
           None).
  - discriminate.
  - vm_compute. discriminate.
  - vm_compute. reflexivity.
Defined.

(** In a process whose working directory is [/a] (vnode 1) and whose root
    is vnode 0, the path [b/c]: with [/a/b] (vnode 2) as base the first
    reference is taken on vnode 2; [/b/c] runs as [b/c] from the root,
    whatever the base; [b/c] without a base runs as [b/c] from [/a]. *)
Lemma resolution_start_witness :
  (exists tr o,
      dir_namev driver NAME_LEN MAXPATHLEN "b/c" (Some 2%nat) boot_in_a
      = (EvVref 2%nat :: tr, o))
  /\ dir_namev driver NAME_LEN MAXPATHLEN "/b/c" (Some 2%nat) boot_in_a
     = dir_namev driver NAME_LEN MAXPATHLEN "b/c" (Some 0%nat) boot_in_a
  /\ dir_namev driver NAME_LEN MAXPATHLEN "b/c" None boot_in_a
     = dir_namev driver NAME_LEN MAXPATHLEN "b/c" (Some 1%nat) boot_in_a
  /\ open_namev driver NAME_LEN MAXPATHLEN (Some "/b/c"%string) 0
       (Some 2%nat) boot_in_a
     = open_namev driver NAME_LEN MAXPATHLEN (Some "b/c"%string) 0
         (Some 0%nat) boot_in_a
  /\ open_namev driver NAME_LEN MAXPATHLEN (Some "b/c"%string) 0 None
       boot_in_a
     = open_namev driver NAME_LEN MAXPATHLEN (Some "b/c"%string) 0
         (Some 1%nat) boot_in_a.
Proof.
  apply (resolution_start driver NAME_LEN MAXPATHLEN boot_in_a "b/c"
           (Some 2%nat) 0%nat 1%nat 2%nat 0).
  - discriminate.
  - intros r'. discriminate.
  - vm_compute. reflexivity.
  - reflexivity.
  - reflexivity.
  - exists (dir_vnode 0). vm_compute. reflexivity.
Defined.

(** Removing [/a/b/.] on [boot]. *)
Lemma do_rmdir_special_names_witness :
  exists s',
    do_rmdir driver NAME_LEN MAXPATHLEN (Some "/a/b/."%string) boot
    = ([EvVref 0%nat; EvLookup 0%nat "a"; EvOp OpLookup 0%nat; EvVput 0%nat;
        EvLookup 1%nat "b"; EvOp OpLookup 1%nat; EvVput 1%nat]
       ++ [EvVput 2%nat],
       Done (- EINVAL) s').
Proof.
  eexists.
  apply (do_rmdir_special_names driver NAME_LEN MAXPATHLEN boot
           (state_after
              (dir_namev driver NAME_LEN MAXPATHLEN "/a/b/." None boot))
           "/a/b/." "." _ 1 2%nat (dir_vnode 1)).
  - vm_compute. discriminate.
  - vm_compute. reflexivity.
  - unfold NAME_LEN. lia.
  - vm_compute. reflexivity.
  - reflexivity.
  - left. reflexivity.
Defined.

(** Unlinking the directory [/a/b] of [boot]. *)
Lemma do_unlink_refuses_directory_witness :
  exists s3,
    do_unlink driver NAME_LEN MAXPATHLEN (Some "/a/b"%string) boot
    = ([EvVref 0%nat; EvLookup 0%nat "a"; EvOp OpLookup 0%nat; EvVput 0%nat]
       ++ [EvLookup 1%nat "b"; EvOp OpLookup 1%nat]
       ++ [EvVput 1%nat; EvVput 2%nat],
       Done (- EPERM) s3)
    /\ fs_data (k_fs s3) = fs_data (k_fs boot).
Proof.
  apply (do_unlink_refuses_directory driver NAME_LEN MAXPATHLEN boot
           (state_after
              (dir_namev driver NAME_LEN MAXPATHLEN "/a/b" None boot))
           (state_after
              (lookup driver NAME_LEN (Some 1%nat) "b" 1
                 (state_after
                    (dir_namev driver NAME_LEN MAXPATHLEN "/a/b" None boot))))
           "/a/b" "b" _ _ 1 1%nat 2%nat (dir_vnode 1)).
  - vm_compute. discriminate.
  - vm_compute. reflexivity.
  - unfold NAME_LEN. lia.
  - vm_compute. reflexivity.
  - vm_compute. reflexivity.
  - reflexivity.
  - eexists. vm_compute. reflexivity.
Defined.

(** Making the directory [/a/b] of [boot] again, as a directory and as a
    character device. *)
Lemma existing_name_refused_witness :
  exists s3,
    do_mkdir driver NAME_LEN MAXPATHLEN (Some "/a/b"%string) boot
    = ([EvVref 0%nat; EvLookup 0%nat "a"; EvOp OpLookup 0%nat; EvVput 0%nat]
       ++ [EvLookup 1%nat "b"; EvOp OpLookup 1%nat]
       ++ [EvVput 1%nat; EvVput 2%nat],
       Done (- EEXIST) s3)
    /\ do_mknod driver NAME_LEN MAXPATHLEN (Some "/a/b"%string) S_IFCHR 7 boot
       = ([EvVref 0%nat; EvLookup 0%nat "a"; EvOp OpLookup 0%nat; EvVput 0%nat]
          ++ [EvLookup 1%nat "b"; EvOp OpLookup 1%nat]
          ++ [EvVput 1%nat; EvVput 2%nat],
          Done (- EEXIST) s3)
    /\ fs_data (k_fs s3) = fs_data (k_fs boot).
Proof.
  apply (existing_name_refused driver NAME_LEN MAXPATHLEN boot
           (state_after
              (dir_namev driver NAME_LEN MAXPATHLEN "/a/b" None boot))
           (state_after
              (lookup driver NAME_LEN (Some 1%nat) "b" 1
                 (state_after
                    (dir_namev driver NAME_LEN MAXPATHLEN "/a/b" None boot))))
           "/a/b" "b" _ _ 1 1%nat 2%nat (dir_vnode 2) S_IFCHR 7).
  - vm_compute. discriminate.
  - vm_compute. reflexivity.
  - unfold NAME_LEN. lia.
  - vm_compute. reflexivity.
  - reflexivity.
  - reflexivity.
  - vm_compute. reflexivity.
  - eexists. vm_compute. reflexivity.
  - eexists. vm_compute. reflexivity.
  - left. reflexivity.
Defined.

(** Making [/a/d] on [boot]: [/a] has no entry [d], the driver makes it. *)
Lemma do_mkdir_delegates_witness :
  exists s',
    do_mkdir driver NAME_LEN MAXPATHLEN (Some "/a/d"%string) boot
    = ([EvVref 0%nat; EvLookup 0%nat "a"; EvOp OpLookup 0%nat; EvVput 0%nat]
       ++ [EvLookup 1%nat "d"; EvOp OpLookup 1%nat]
       ++ [EvOp OpMkdir 1%nat; EvVput 1%nat],
       Done 0 s').
Proof.
  eexists.
  apply (do_mkdir_delegates driver NAME_LEN MAXPATHLEN boot
           (state_after
              (dir_namev driver NAME_LEN MAXPATHLEN "/a/d" None boot))
           (state_after
              (dir_namev driver NAME_LEN MAXPATHLEN "/a/d" None boot))
           "/a/d" "d" _ _ 1 (- ENOENT) 0 None 1%nat
           (dir_vnode 2) (dir_vnode 2) (dir_vnode 2)
           (fst (ram_mkdir 1%nat "d"
                   (k_fs (state_after
                            (dir_namev driver NAME_LEN MAXPATHLEN "/a/d" None
                               boot)))))).
  - vm_compute. discriminate.
  - vm_compute. reflexivity.
  - unfold NAME_LEN. lia.
  - vm_compute. reflexivity.
  - reflexivity.
  - reflexivity.
  - vm_compute. reflexivity.
  - discriminate.
  - vm_compute. reflexivity.
  - reflexivity.
  - vm_compute. reflexivity.
  - vm_compute. reflexivity.
Defined.

(** Entering [/a] from the root of [boot]. *)
Lemma do_chdir_moves_witness :
  exists s',
    do_chdir driver NAME_LEN MAXPATHLEN (Some "/a"%string) boot
    = ([EvVref 0%nat; EvLock; EvLookup 0%nat "a"; EvOp OpLookup 0%nat;
        EvVput 0%nat; EvUnlock]
       ++ [EvVput 0%nat],
       Done 0 s')
    /\ p_cwd s' = Some 1%nat.
Proof.
  eexists. split.
  - apply (do_chdir_moves driver NAME_LEN MAXPATHLEN boot
             (state_after
                (open_namev driver NAME_LEN MAXPATHLEN (Some "/a"%string) 0
                   None boot))
             "/a" _ 1%nat 0%nat (dir_vnode 2) (dir_vnode 2)).
    + vm_compute. discriminate.
    + vm_compute. reflexivity.
    + vm_compute. reflexivity.
    + reflexivity.
    + vm_compute. reflexivity.
  - reflexivity.
Defined.
